(** * Task-management backend: access control and data consistency

    A shallow embedding of [backend/main.py] and [backend/models.py]
    (students/TunchikAnton/task_02).

    - Every endpoint is a computation in a state-and-exception monad over
      the relational store and the upload directory.  [execute_db] opens a
      connection, runs one statement and commits, so the state reached
      before an exception is the state that stays.
    - An endpoint takes the actor that [get_current_user] has resolved and
      a request body that the models of [models.py] have accepted; bounds
      declared on query parameters are checked by [Query].  The resolution
      of the token and the e-mail validator of the models are embedded
      next to the endpoints.
    - Library functions and configuration are the fields of [Platform].
    - The schema ([sqliteDB.py]) is not among the sources; what the
      statements rely on is taken from the spec and marked as such.
    - Logging and metrics touch neither the store nor the upload
      directory; they belong to the middleware, which is embedded apart
      from the endpoints. *)

From Stdlib Require Import ZArith List String Ascii Bool Lia.
From Stdlib Require Import DecimalString.
From Stdlib Require Import Sorted Permutation.
Import ListNotations.
Local Open Scope string_scope.
Local Open Scope list_scope.
Local Open Scope Z_scope.

Set Implicit Arguments.

(** ** models.py: enumerations *)

Inductive UserRole := USER | ADMIN.
Inductive TaskStatus := TODO | IN_PROGRESS | DONE | ARCHIVED.

Definition UserRole_eqb (a b : UserRole) : bool :=
  match a, b with
  | USER, USER | ADMIN, ADMIN => true
  | _, _ => false
  end.

Definition TaskStatus_eqb (a b : TaskStatus) : bool :=
  match a, b with
  | TODO, TODO | IN_PROGRESS, IN_PROGRESS | DONE, DONE | ARCHIVED, ARCHIVED => true
  | _, _ => false
  end.

(** ** Time stamps

    A [datetime] is a wall-clock reading together with an optional UTC
    offset ([tzinfo]).  The wall clock counts the microseconds since
    0001-01-01T00:00:00, the first reading the type holds
    ([datetime.min]); the last one is 9999-12-31T23:59:59.999999
    ([datetime.max]).  [timedelta] arithmetic moves the wall clock and
    keeps the offset, and raises when it leaves that range. *)

Record datetime := { wall_us : Z; tzinfo : option Z }.

Definition timezone_utc : Z := 0.

Definition replace_tzinfo (d : datetime) (tz : Z) : datetime :=
  {| wall_us := wall_us d; tzinfo := Some tz |}.

(** The wall clock moved by a number of minutes.  The operator [+] of the
    source is [plus_minutes] below, which looks at the range first. *)
Definition add_minutes (d : datetime) (minutes : Z) : datetime :=
  {| wall_us := wall_us d + minutes * 60000000; tzinfo := tzinfo d |}.

(** [date.max.toordinal()]: the days from 0001-01-01 to 9999-12-31. *)
Definition MAXORDINAL : Z := 3652059.

Definition us_per_day : Z := 86400000000.

(** Whether a reading is one the type holds: its day is one of the days 1
    to [MAXORDINAL]. *)
Definition in_calendar (d : datetime) : bool :=
  (0 <=? wall_us d) && (wall_us d <? MAXORDINAL * us_per_day).

(** Whether [timedelta(minutes=m)] exists: a [timedelta] holds at most
    999999999 days either way. *)
Definition timedelta_ok (minutes : Z) : bool :=
  (-999999999 <=? minutes / 1440) && (minutes / 1440 <=? 999999999).

(** [if base.tzinfo is None: base = base.replace(tzinfo=timezone.utc)] *)
Definition default_utc (d : datetime) : datetime :=
  match tzinfo d with
  | None => replace_tzinfo d timezone_utc
  | Some _ => d
  end.

(** ** Failures *)

(** [HTTPException] is what the handlers raise; [RequestValidationError] is
    what the framework raises for a parameter outside its declared bounds,
    before the handler body runs; [Exception] stands for any other Python
    exception ([OSError], [ValueError]). *)
Inductive Failure :=
| HTTPException (status_code : Z) (detail : string)
| RequestValidationError (loc : string)
| Exception (what : string).

Inductive Result (A : Type) :=
| Ok (a : A)
| Raise (e : Failure).
Arguments Ok {A} a.
Arguments Raise {A} e.

(** [d + timedelta(minutes=m)]: [OverflowError] when the interval is more
    than a [timedelta] holds or the result lies outside the calendar. *)
Definition plus_minutes (d : datetime) (minutes : Z) : Result datetime :=
  if timedelta_ok minutes && in_calendar (add_minutes d minutes)
  then Ok (add_minutes d minutes)
  else Raise (Exception "OverflowError").

Definition AccessDenied : Failure := HTTPException 403 "Access denied".
Definition AdminRequired (what : string) : Failure :=
  HTTPException 403 ("Admin access required" ++ what)%string.
Definition NotFound (what : string) : Failure :=
  HTTPException 404 (what ++ " not found")%string.
Definition DatabaseError : Failure := HTTPException 500 "Database error".

Definition is_NotFound (e : Failure) : bool :=
  match e with
  | HTTPException 404 _ => true
  | _ => false
  end.

(** ** Rows of the relational store *)

Record UserRow := {
  User_id : Z; User_email : string; User_name : string;
  User_password : string; User_role : UserRole; User_created_at : string }.

Record TagRow := {
  Tag_id : Z; Tag_user_id : Z; Tag_name : string; Tag_created_at : string }.

Record TaskRow := {
  Task_id : Z; Task_user_id : Z; Task_title : string;
  Task_description : option string; Task_due_at : option string;
  Task_status : TaskStatus; Task_repeat_interval_minutes : option Z;
  Task_created_at : string; Task_updated_at : string }.

Record TaskTagRow := { TaskTag_task_id : Z; TaskTag_tag_id : Z }.

Record SubTaskRow := {
  SubTask_id : Z; SubTask_task_id : Z; SubTask_user_id : Z;
  SubTask_title : string; SubTask_is_done : Z;
  SubTask_created_at : string; SubTask_updated_at : string }.

Record FileRow := {
  File_id : Z; File_task_id : Z; File_user_id : Z; File_filename : string;
  File_content_type : option string; File_size_bytes : Z;
  File_storage_path : string; File_created_at : string }.

Record ReminderRow := {
  Reminder_id : Z; Reminder_task_id : Z; Reminder_user_id : Z;
  Reminder_every_minutes : Z; Reminder_start_at : option string;
  Reminder_end_at : option string; Reminder_is_enabled : Z;
  Reminder_next_run_at : option string; Reminder_created_at : string }.

(** A table: its rows in insertion order and the last id handed out. *)
Record Table (R : Type) := { rows : list R; lastrowid : Z }.

Definition empty_table (R : Type) : Table R := {| rows := []; lastrowid := 0 |}.

Record DB := {
  tUser : Table UserRow;
  tTag : Table TagRow;
  tTask : Table TaskRow;
  tTaskTag : list TaskTagRow;
  tSubTask : Table SubTaskRow;
  tFile : Table FileRow;
  tReminder : Table ReminderRow }.

Definition empty_db : DB :=
  {| tUser := empty_table _; tTag := empty_table _; tTask := empty_table _;
     tTaskTag := []; tSubTask := empty_table _; tFile := empty_table _;
     tReminder := empty_table _ |}.

Definition set_tUser (d : DB) (t : Table UserRow) : DB :=
  {| tUser := t; tTag := tTag d; tTask := tTask d; tTaskTag := tTaskTag d;
     tSubTask := tSubTask d; tFile := tFile d; tReminder := tReminder d |}.
Definition set_tTag (d : DB) (t : Table TagRow) : DB :=
  {| tUser := tUser d; tTag := t; tTask := tTask d; tTaskTag := tTaskTag d;
     tSubTask := tSubTask d; tFile := tFile d; tReminder := tReminder d |}.
Definition set_tTask (d : DB) (t : Table TaskRow) : DB :=
  {| tUser := tUser d; tTag := tTag d; tTask := t; tTaskTag := tTaskTag d;
     tSubTask := tSubTask d; tFile := tFile d; tReminder := tReminder d |}.
Definition set_tTaskTag (d : DB) (t : list TaskTagRow) : DB :=
  {| tUser := tUser d; tTag := tTag d; tTask := tTask d; tTaskTag := t;
     tSubTask := tSubTask d; tFile := tFile d; tReminder := tReminder d |}.
Definition set_tSubTask (d : DB) (t : Table SubTaskRow) : DB :=
  {| tUser := tUser d; tTag := tTag d; tTask := tTask d; tTaskTag := tTaskTag d;
     tSubTask := t; tFile := tFile d; tReminder := tReminder d |}.
Definition set_tFile (d : DB) (t : Table FileRow) : DB :=
  {| tUser := tUser d; tTag := tTag d; tTask := tTask d; tTaskTag := tTaskTag d;
     tSubTask := tSubTask d; tFile := t; tReminder := tReminder d |}.
Definition set_tReminder (d : DB) (t : Table ReminderRow) : DB :=
  {| tUser := tUser d; tTag := tTag d; tTask := tTask d; tTaskTag := tTaskTag d;
     tSubTask := tSubTask d; tFile := tFile d; tReminder := t |}.

(** [SELECT ... WHERE id = ?] with [fetchone]. *)
Definition fetchone {R : Type} (p : R -> bool) (t : Table R) : option R :=
  find p (rows t).

(** [SELECT ... WHERE ...] with [fetchall]. *)
Definition fetchall {R : Type} (p : R -> bool) (t : Table R) : list R :=
  filter p (rows t).

(** Modelled from the spec: how the store numbers its rows is fixed in
    [sqliteDB.py], which is not among the sources; the spec has ids
    "monotonically assigned by the store".  [INSERT]: the row is built from
    the next id, appended, and the id is returned as [cur.lastrowid]. *)
Definition insert_row {R : Type} (mk : Z -> R) (t : Table R) : Z * Table R :=
  let i := lastrowid t + 1 in
  (i, {| rows := rows t ++ [mk i]; lastrowid := i |}).

(** [UPDATE ... WHERE p]. *)
Definition update_rows {R : Type} (p : R -> bool) (f : R -> R) (t : Table R) : Table R :=
  {| rows := map (fun r => if p r then f r else r) (rows t); lastrowid := lastrowid t |}.

(** [DELETE ... WHERE p]. *)
Definition delete_rows {R : Type} (p : R -> bool) (t : Table R) : Table R :=
  {| rows := filter (fun r => negb (p r)) (rows t); lastrowid := lastrowid t |}.

(** ** Python helpers *)

(** [str(n)] for an integer. *)
Definition str_int (n : Z) : string := NilZero.string_of_int (Z.to_int n).

(** [f"{l}"] for a list of integers: [[1, 2, 3]]. *)
Fixpoint join_ints (l : list Z) : string :=
  match l with
  | [] => ""
  | [x] => str_int x
  | x :: rest => (str_int x ++ ", " ++ join_ints rest)%string
  end.
Definition repr_int_list (l : list Z) : string := ("[" ++ join_ints l ++ "]")%string.

(** [int(b)] for a boolean, and [bool(n)] for an integer. *)
Definition int_of_bool (b : bool) : Z := if b then 1 else 0.
Definition bool_of_int (n : Z) : bool := negb (n =? 0).

(** Truthiness of an optional string: [None] and [""] are falsy. *)
Definition truthy_str (s : option string) : bool :=
  match s with
  | None => false
  | Some s => negb (String.eqb s "")
  end.

(** Truthiness of an optional integer: [None] and [0] are falsy. *)
Definition truthy_int (n : option Z) : bool :=
  match n with
  | None => false
  | Some n => negb (n =? 0)
  end.

(** [l[:n]] *)
Definition slice_to {A : Type} (n : nat) (l : list A) : list A := firstn n l.

(** [x in l] for integers. *)
Definition mem_int (x : Z) (l : list Z) : bool := existsb (Z.eqb x) l.

(** Stable insertion sort, used for [ORDER BY]. *)
Section Sorting.
Variable R : Type.
Variable le : R -> R -> bool.

Fixpoint insert_sorted (x : R) (l : list R) : list R :=
  match l with
  | [] => [x]
  | y :: rest => if le x y then x :: l else y :: insert_sorted x rest
  end.

Definition order_by (l : list R) : list R :=
  fold_right insert_sorted [] l.
End Sorting.

(** ** The server's surroundings

    What the handlers take from their libraries and their configuration:
    the uploaded content as far as the server looks at it ([len(content)]),
    [str.strip], the ISO-8601 codec of [datetime], the store's [LIKE],
    the functions of [utilities.py], [UPLOAD_DIR], whether the store
    refuses a row whose reference points nowhere ([checks_references]; the
    properties below hold for both settings), how many parameters the
    store takes in one statement ([SQLITE_MAX_VARIABLE_NUMBER], fixed when
    the library is built), and the paths that the operating system refuses
    to open for writing for a reason of its own, such as a name longer than
    the file system takes ([open_raises]). *)

Class Platform := {
  bytes : Type;
  len : bytes -> Z;
  strip : string -> string;
  fromisoformat : string -> option datetime;
  isoformat : datetime -> string;
  sql_like : string -> string -> bool;
  hash_password : string -> string;
  verify_password : string -> string -> bool;
  create_access_token : string -> Z -> UserRole -> string;
  UPLOAD_DIR : string;
  checks_references : bool;
  SQLITE_MAX_VARIABLE_NUMBER : Z;
  open_raises : string -> bool }.

Section Backend.

Context {P : Platform}.

(** What one request reads from outside: the clock, the store's
    [CURRENT_TIMESTAMP], a fresh [uuid4()], and for which paths
    [os.remove] raises. *)
Record Env := {
  utcnow : datetime;
  CURRENT_TIMESTAMP : string;
  uuid4 : string;
  remove_raises : string -> bool }.

Record World := { db : DB; disk : list (string * bytes) }.

Definition set_db (w : World) (d : DB) : World := {| db := d; disk := disk w |}.
Definition set_disk (w : World) (k : list (string * bytes)) : World :=
  {| db := db w; disk := k |}.

(** *** The monad *)

Definition M (A : Type) : Type := World -> Result A * World.

Definition ret {A : Type} (a : A) : M A := fun w => (Ok a, w).
Definition raise {A : Type} (e : Failure) : M A := fun w => (Raise e, w).
Definition bind {A B : Type} (m : M A) (k : A -> M B) : M B :=
  fun w =>
    match m w with
    | (Ok a, w') => k a w'
    | (Raise e, w') => (Raise e, w')
    end.

Notation "x <- m ;; k" := (bind m (fun x => k))
  (at level 61, m at next level, right associativity).
Notation "m ;;; k" := (bind m (fun _ => k))
  (at level 61, right associativity).

(** [execute_db(..., fetchone=True)] and [fetchall=True]: a read, with
    parameters that the store binds (values it has handed out, fields the
    request models have bounded). *)
Definition query {A : Type} (f : DB -> A) : M A := fun w => (Ok (f (db w)), w).

(** What [cur.execute] binds: integers that fit the 64 bits of an INTEGER
    of the store, and no more of them than one statement takes. *)
Definition sqlite_int (n : Z) : bool := (- 2 ^ 63 <=? n) && (n <? 2 ^ 63).

Definition binds (params : list Z) : bool :=
  forallb sqlite_int params
  && (Z.of_nat (List.length params) <=? SQLITE_MAX_VARIABLE_NUMBER).

(** [execute_db(..., fetchall=True)] with integers among its parameters
    that come from the request as they are: when [cur.execute] cannot bind
    them it raises, and [execute_db] answers 500 "Database error". *)
Definition query_bound {A : Type} (params : list Z) (f : DB -> A) : M A :=
  if binds params then query f else raise DatabaseError.

(** A computation that looks at neither the store nor the upload
    directory. *)
Definition lift {A : Type} (r : Result A) : M A := fun w => (r, w).

(** [execute_db(...)] for a write: commit, or roll the statement back and
    raise 500 "Database error" when the store raises. *)
Definition execute {A : Type} (f : DB -> option (A * DB)) : M A :=
  fun w =>
    match f (db w) with
    | Some (a, d) => (Ok a, set_db w d)
    | None => (Raise DatabaseError, w)
    end.

Fixpoint for_each {A : Type} (l : list A) (body : A -> M unit) : M unit :=
  match l with
  | [] => ret tt
  | x :: rest => body x ;;; for_each rest body
  end.

Definition when (b : bool) (m : M unit) : M unit := if b then m else ret tt.

(** [rows_of] and friends: what a [SELECT] sees. *)
Definition user_by_id (d : DB) (i : Z) : option UserRow :=
  fetchone (fun u => User_id u =? i) (tUser d).
Definition tag_by_id (d : DB) (i : Z) : option TagRow :=
  fetchone (fun t => Tag_id t =? i) (tTag d).
Definition task_by_id (d : DB) (i : Z) : option TaskRow :=
  fetchone (fun t => Task_id t =? i) (tTask d).
Definition subtask_by_id (d : DB) (i : Z) : option SubTaskRow :=
  fetchone (fun s => SubTask_id s =? i) (tSubTask d).
Definition file_by_id (d : DB) (i : Z) : option FileRow :=
  fetchone (fun f => File_id f =? i) (tFile d).
Definition reminder_by_id (d : DB) (i : Z) : option ReminderRow :=
  fetchone (fun r => Reminder_id r =? i) (tReminder d).

Definition is_some {A : Type} (o : option A) : bool :=
  match o with Some _ => true | None => false end.

(** *** Constraints of the schema

    The schema ([sqliteDB.py]: unique keys, references, cascades) is not
    among the sources.  What the statements of [main.py] rely on is taken
    from the spec, definition by definition. *)

(** Modelled from the spec: the references of the schema (missing
    [sqliteDB.py]).  The spec lets rows refer to users, tasks and tags and
    does not say whether the store refuses a dangling reference on insert,
    so that is left to [checks_references]. *)
Definition reference_ok (target_exists : bool) : bool :=
  implb checks_references target_exists.

(** Modelled from the spec: the unique key of User (missing
    [sqliteDB.py]); the spec has "email (unique, case-insensitive)", the
    case being folded by the request model. *)
Definition INSERT_User (email name password : string) (role : UserRole) (now : string)
  (d : DB) : option (Z * DB) :=
  if existsb (fun u => String.eqb (User_email u) email) (rows (tUser d)) then None
  else
    let (i, t) := insert_row (fun i =>
      {| User_id := i; User_email := email; User_name := name;
         User_password := password; User_role := role; User_created_at := now |})
      (tUser d) in
    Some (i, set_tUser d t).

(** Modelled from the spec: the unique key of Tag (missing
    [sqliteDB.py]); the spec has "name uniqueness is enforced per owner by
    the store's constraint". *)
Definition INSERT_Tag (user_id : Z) (name : string) (now : string)
  (d : DB) : option (Z * DB) :=
  if existsb (fun t => (Tag_user_id t =? user_id) && String.eqb (Tag_name t) name) (rows (tTag d))
  then None
  else if negb (reference_ok (is_some (user_by_id d user_id))) then None
  else
    let (i, t) := insert_row (fun i =>
      {| Tag_id := i; Tag_user_id := user_id; Tag_name := name; Tag_created_at := now |})
      (tTag d) in
    Some (i, set_tTag d t).

Definition INSERT_Task (user_id : Z) (title : string) (description due_at : option string)
  (status : TaskStatus) (repeat_interval_minutes : option Z) (now : string)
  (d : DB) : option (Z * DB) :=
  if negb (reference_ok (is_some (user_by_id d user_id))) then None
  else
    let (i, t) := insert_row (fun i =>
      {| Task_id := i; Task_user_id := user_id; Task_title := title;
         Task_description := description; Task_due_at := due_at;
         Task_status := status;
         Task_repeat_interval_minutes := repeat_interval_minutes;
         Task_created_at := now; Task_updated_at := now |})
      (tTask d) in
    Some (i, set_tTask d t).

Definition has_link (d : DB) (task_id tag_id : Z) : bool :=
  existsb (fun l => (TaskTag_task_id l =? task_id) && (TaskTag_tag_id l =? tag_id))
    (tTaskTag d).

(** Modelled from the spec: the key of TaskTag (missing [sqliteDB.py]); the
    spec has an association attached without duplicates.  [INSERT OR IGNORE
    INTO TaskTag]: a repeated pair is skipped; a dangling reference is
    still an error. *)
Definition INSERT_OR_IGNORE_TaskTag (task_id tag_id : Z) (d : DB) : option (unit * DB) :=
  if negb (reference_ok (is_some (task_by_id d task_id) && is_some (tag_by_id d tag_id))) then None
  else if has_link d task_id tag_id then Some (tt, d)
  else Some (tt, set_tTaskTag d
               (tTaskTag d ++ [{| TaskTag_task_id := task_id; TaskTag_tag_id := tag_id |}])).

Definition INSERT_SubTask (task_id user_id : Z) (title : string) (is_done : Z)
  (now : string) (d : DB) : option (Z * DB) :=
  if negb (reference_ok (is_some (task_by_id d task_id) && is_some (user_by_id d user_id))) then None
  else
    let (i, t) := insert_row (fun i =>
      {| SubTask_id := i; SubTask_task_id := task_id; SubTask_user_id := user_id;
         SubTask_title := title; SubTask_is_done := is_done;
         SubTask_created_at := now; SubTask_updated_at := now |})
      (tSubTask d) in
    Some (i, set_tSubTask d t).

Definition INSERT_File (task_id user_id : Z) (filename : string)
  (content_type : option string) (size_bytes : Z) (storage_path : string)
  (now : string) (d : DB) : option (Z * DB) :=
  if negb (reference_ok (is_some (task_by_id d task_id) && is_some (user_by_id d user_id))) then None
  else
    let (i, t) := insert_row (fun i =>
      {| File_id := i; File_task_id := task_id; File_user_id := user_id;
         File_filename := filename; File_content_type := content_type;
         File_size_bytes := size_bytes; File_storage_path := storage_path;
         File_created_at := now |})
      (tFile d) in
    Some (i, set_tFile d t).

Definition INSERT_Reminder (task_id user_id every_minutes : Z)
  (start_at end_at : option string) (is_enabled : Z) (next_run_at : string)
  (now : string) (d : DB) : option (Z * DB) :=
  if negb (reference_ok (is_some (task_by_id d task_id) && is_some (user_by_id d user_id))) then None
  else
    let (i, t) := insert_row (fun i =>
      {| Reminder_id := i; Reminder_task_id := task_id; Reminder_user_id := user_id;
         Reminder_every_minutes := every_minutes; Reminder_start_at := start_at;
         Reminder_end_at := end_at; Reminder_is_enabled := is_enabled;
         Reminder_next_run_at := Some next_run_at; Reminder_created_at := now |})
      (tReminder d) in
    Some (i, set_tReminder d t).

(** Modelled from the spec: the unique key of Tag (missing
    [sqliteDB.py]).  [UPDATE Tag SET name = ? WHERE id = ?]: refused when
    the owner already has another tag of that name. *)
Definition UPDATE_Tag_name (tag_id : Z) (name : string) (d : DB) : option (unit * DB) :=
  match tag_by_id d tag_id with
  | None => Some (tt, d)
  | Some row =>
      if existsb (fun t => negb (Tag_id t =? tag_id)
                           && (Tag_user_id t =? Tag_user_id row)
                           && String.eqb (Tag_name t) name) (rows (tTag d))
      then None
      else Some (tt, set_tTag d (update_rows (fun t => Tag_id t =? tag_id)
             (fun t => {| Tag_id := Tag_id t; Tag_user_id := Tag_user_id t;
                          Tag_name := name; Tag_created_at := Tag_created_at t |})
             (tTag d)))
  end.

(** Modelled from the spec: the cascade of Task (missing [sqliteDB.py]);
    the spec has SubTask, Attachment and Reminder rows "cascade-delete on
    task deletion" and the association rows "cleaned up".  These are the
    rows hanging on the tasks that are being deleted. *)
Definition cascade_tasks (gone : Z -> bool) (d : DB) : DB :=
  {| tUser := tUser d; tTag := tTag d; tTask := tTask d;
     tTaskTag := filter (fun l => negb (gone (TaskTag_task_id l))) (tTaskTag d);
     tSubTask := delete_rows (fun s => gone (SubTask_task_id s)) (tSubTask d);
     tFile := delete_rows (fun f => gone (File_task_id f)) (tFile d);
     tReminder := delete_rows (fun r => gone (Reminder_task_id r)) (tReminder d) |}.

(** Modelled from the spec: deleting Task rows takes the rows hanging on
    them along (missing [sqliteDB.py]). *)
Definition DELETE_Task_where (p : TaskRow -> bool) (d : DB) : DB :=
  let ids := map Task_id (filter p (rows (tTask d))) in
  cascade_tasks (fun i => mem_int i ids) (set_tTask d (delete_rows p (tTask d))).

(** [DELETE FROM Task WHERE id = ?] *)
Definition DELETE_Task (task_id : Z) (d : DB) : DB :=
  DELETE_Task_where (fun t => Task_id t =? task_id) d.

(** Modelled from the spec: the cascade of Tag (missing [sqliteDB.py]); by
    the spec every tag a task's association refers to is a tag of the
    task's owner, so the association rows go with the tag. *)
Definition DELETE_Tag_where (p : TagRow -> bool) (d : DB) : DB :=
  let ids := map Tag_id (filter p (rows (tTag d))) in
  set_tTaskTag (set_tTag d (delete_rows p (tTag d)))
    (filter (fun l => negb (mem_int (TaskTag_tag_id l) ids)) (tTaskTag d)).

(** [DELETE FROM Tag WHERE id = ?] *)
Definition DELETE_Tag (tag_id : Z) (d : DB) : DB :=
  DELETE_Tag_where (fun t => Tag_id t =? tag_id) d.

(** Modelled from the spec: the cascade of User (missing [sqliteDB.py]);
    the spec has the deletion of a user cascade "to all owned Task rows and
    transitively their children", and a Tag "owned exclusively by User".
    [DELETE FROM User WHERE id = ?] *)
Definition DELETE_User (user_id : Z) (d : DB) : DB :=
  if is_some (user_by_id d user_id) then
    let d1 := DELETE_Task_where (fun t => Task_user_id t =? user_id) d in
    let d2 := DELETE_Tag_where (fun t => Tag_user_id t =? user_id) d1 in
    set_tUser d2 (delete_rows (fun u => User_id u =? user_id) (tUser d2))
  else d.

Definition DELETE_SubTask (i : Z) (d : DB) : DB :=
  set_tSubTask d (delete_rows (fun s => SubTask_id s =? i) (tSubTask d)).
Definition DELETE_File (i : Z) (d : DB) : DB :=
  set_tFile d (delete_rows (fun f => File_id f =? i) (tFile d)).
Definition DELETE_Reminder (i : Z) (d : DB) : DB :=
  set_tReminder d (delete_rows (fun r => Reminder_id r =? i) (tReminder d)).

(** A write that the store never refuses. *)
Definition execute_ (f : DB -> DB) : M unit := execute (fun d => Some (tt, f d)).

(** *** The upload directory *)

Definition path_exists (k : list (string * bytes)) (path : string) : bool :=
  existsb (fun e => String.eqb (fst e) path) k.

(** [os.path.exists(path)] *)
Definition os_path_exists (path : string) : M bool :=
  fun w => (Ok (path_exists (disk w) path), w).

(** [os.remove(path)] *)
Definition os_remove (env : Env) (path : string) : M unit :=
  fun w =>
    if remove_raises env path || negb (path_exists (disk w) path)
    then (Raise (Exception "OSError"), w)
    else (Ok tt, set_disk w (filter (fun e => negb (String.eqb (fst e) path)) (disk w))).

Fixpoint ends_with_slash (s : string) : bool :=
  match s with
  | EmptyString => false
  | String c EmptyString => Ascii.eqb c "/"%char
  | String _ rest => ends_with_slash rest
  end.

(** [os.path.join(a, b)] on a POSIX system. *)
Definition os_path_join (a b : string) : string :=
  match b with
  | String "/"%char _ => b
  | _ => if String.eqb a "" || ends_with_slash a
         then (a ++ b)%string
         else (a ++ "/" ++ b)%string
  end.

Fixpoint has_slash (s : string) : bool :=
  match s with
  | EmptyString => false
  | String c rest => Ascii.eqb c "/"%char || has_slash rest
  end.

(** What follows the prefix [p] in [s], when [s] starts with [p]. *)
Fixpoint after_prefix (p s : string) : option string :=
  match p, s with
  | EmptyString, _ => Some s
  | String a p', String b s' => if Ascii.eqb a b then after_prefix p' s' else None
  | String _ _, EmptyString => None
  end.

(** The server makes [UPLOAD_DIR] when it starts ([os.makedirs]) and no
    directory after that, so the upload directory holds files only: a path
    that goes through a sub-directory of it names a directory that does not
    exist. *)
Definition through_subdirectory (path : string) : bool :=
  match after_prefix (os_path_join UPLOAD_DIR "") path with
  | Some name => has_slash name
  | None => false
  end.

(** [with open(path, "wb") as f: f.write(content)]: [open] raises
    [FileNotFoundError] when the directory of the path does not exist, and
    [OSError] where the operating system refuses the path; nothing is
    created then.  Once the file is open the content is written. *)
Definition write_file (path : string) (content : bytes) : M unit :=
  fun w =>
    if through_subdirectory path || open_raises path
    then (Raise (Exception "OSError"), w)
    else
      (Ok tt, set_disk w
        ((path, content) :: filter (fun e => negb (String.eqb (fst e) path)) (disk w))).

(** [try: body  except Exception: handler] *)
Definition try_except {A : Type} (body : M A) (handler : Failure -> M A) : M A :=
  fun w =>
    match body w with
    | (Ok a, w') => (Ok a, w')
    | (Raise e, w') => handler e w'
    end.

(** The best-effort removal used by [delete_task] and [delete_file]; the
    handler only logs a warning. *)
Definition remove_if_exists (env : Env) (path : string) : M unit :=
  try_except
    (b <- os_path_exists path ;;
     when b (os_remove env path))
    (fun _ => ret tt).

(** *** models.py: request and response bodies

    The handlers receive bodies that the framework has already checked
    against the field constraints of [models.py]. *)

Record UserResponse := {
  UserResponse_id : Z; UserResponse_email : string; UserResponse_name : string;
  UserResponse_role : UserRole; UserResponse_created_at : option string }.

Record UserCreate := {
  UserCreate_email : string; UserCreate_name : string;
  UserCreate_password : string; UserCreate_role : UserRole }.
Record LoginRequest := { LoginRequest_email : string; LoginRequest_password : string }.
Record UserUpdate := { UserUpdate_name : option string; UserUpdate_role : option UserRole }.
Record AuthResponse := { AuthResponse_token : string; AuthResponse_user_data : UserResponse }.

Record TagCreate := { TagCreate_name : string }.
Record TagUpdate := { TagUpdate_name : option string }.

Record SubTaskInlineCreate := {
  SubTaskInlineCreate_title : string; SubTaskInlineCreate_is_done : bool }.

Record TaskCreate := {
  TaskCreate_title : string; TaskCreate_description : option string;
  TaskCreate_due_at : option datetime; TaskCreate_status : TaskStatus;
  TaskCreate_repeat_interval_minutes : option Z;
  TaskCreate_tag_ids : option (list Z);
  TaskCreate_subtasks : option (list SubTaskInlineCreate) }.

Record TaskUpdate := {
  TaskUpdate_title : option string; TaskUpdate_description : option string;
  TaskUpdate_due_at : option datetime; TaskUpdate_status : option TaskStatus;
  TaskUpdate_repeat_interval_minutes : option Z;
  TaskUpdate_tag_ids : option (list Z) }.

Record TaskResponse := {
  TaskResponse_id : Z; TaskResponse_user_id : Z; TaskResponse_title : string;
  TaskResponse_description : option string; TaskResponse_due_at : option string;
  TaskResponse_status : TaskStatus;
  TaskResponse_repeat_interval_minutes : option Z;
  TaskResponse_created_at : string; TaskResponse_updated_at : string;
  TaskResponse_tags : list TagRow;
  TaskResponse_subtasks_count : Z; TaskResponse_files_count : Z;
  TaskResponse_reminders_count : Z }.

Record SubTaskCreate := {
  SubTaskCreate_task_id : Z; SubTaskCreate_title : string; SubTaskCreate_is_done : bool }.
Record SubTaskUpdate := {
  SubTaskUpdate_title : option string; SubTaskUpdate_is_done : option bool }.
Record SubTaskResponse := {
  SubTaskResponse_id : Z; SubTaskResponse_task_id : Z; SubTaskResponse_user_id : Z;
  SubTaskResponse_title : string; SubTaskResponse_is_done : bool;
  SubTaskResponse_created_at : string; SubTaskResponse_updated_at : string }.

(** [UploadFile]: the name, the declared type and the content read from it. *)
Record UploadFile := {
  UploadFile_filename : option string; UploadFile_content_type : option string;
  UploadFile_content : bytes }.

Record ReminderCreate := {
  ReminderCreate_task_id : Z; ReminderCreate_every_minutes : Z;
  ReminderCreate_start_at : option datetime; ReminderCreate_end_at : option datetime;
  ReminderCreate_is_enabled : bool }.
Record ReminderUpdate := {
  ReminderUpdate_every_minutes : option Z;
  ReminderUpdate_start_at : option datetime; ReminderUpdate_end_at : option datetime;
  ReminderUpdate_is_enabled : option bool }.

Record CalendarItem := {
  CalendarItem_task_id : Z; CalendarItem_title : string; CalendarItem_due_at : datetime;
  CalendarItem_status : TaskStatus; CalendarItem_user_id : Z }.

Record NLUInput := { NLUInput_text : string }.
Record NLUResult := { NLUResult_intent : string; NLUResult_extracted : list (string * string) }.

(** *** main.py: helpers *)

(** A row that the handler indexes without a test: [None["id"]] raises. *)
Definition expect {A : Type} (o : option A) : M A :=
  match o with
  | Some a => ret a
  | None => raise (Exception "TypeError")
  end.

(** A query parameter declared as [Query(default, ge=.., le=..)]. *)
Definition Query (loc : string) (default : Z) (ge le : option Z) (raw : option Z) : M Z :=
  match raw with
  | None => ret default
  | Some v =>
      let above := match ge with Some b => b <=? v | None => true end in
      let below := match le with Some b => v <=? b | None => true end in
      if above && below then ret v else raise (RequestValidationError loc)
  end.

Definition UserResponse_of (row : UserRow) : UserResponse :=
  {| UserResponse_id := User_id row; UserResponse_email := User_email row;
     UserResponse_name := User_name row; UserResponse_role := User_role row;
     UserResponse_created_at := Some (User_created_at row) |}.

Definition get_current_admin (current : UserResponse) : M UserResponse :=
  if negb (UserRole_eqb (UserResponse_role current) ADMIN)
  then raise (HTTPException 403 "Admin access required")
  else ret current.

Definition ensure_task_access (task_user_id : Z) (current : UserResponse) : M unit :=
  if UserRole_eqb (UserResponse_role current) ADMIN then ret tt
  else if negb (task_user_id =? UserResponse_id current)
       then raise (HTTPException 403 "Access denied")
       else ret tt.

Definition normalize_pagination (limit offset : Z) : Z * Z :=
  let limit := Z.min (Z.max limit 1) 100 in
  let offset := Z.max offset 0 in
  (limit, offset).

Definition compute_next_run (env : Env) (start_at : option string) (every_minutes : Z)
  : Result string :=
  let base := utcnow env in
  let base :=
    if truthy_str start_at then
      match start_at with
      | Some s =>
          match fromisoformat s with
          | Some parsed => default_utc parsed
          | None => utcnow env
          end
      | None => base
      end
    else base in
  match plus_minutes base every_minutes with
  | Ok next_dt => Ok (isoformat next_dt)
  | Raise e => Raise e
  end.

Definition load_task_tags (task_id : Z) : M (list TagRow) :=
  query (fun d =>
    order_by (fun a b => String.leb (Tag_name a) (Tag_name b))
      (flat_map (fun tt => filter (fun t => Tag_id t =? TaskTag_tag_id tt) (rows (tTag d)))
         (filter (fun tt => TaskTag_task_id tt =? task_id) (tTaskTag d)))).

Definition COUNT {R : Type} (p : R -> bool) (t : Table R) : Z :=
  Z.of_nat (List.length (fetchall p t)).

Definition task_counters (task_id : Z) : M (Z * Z * Z) :=
  s <- query (fun d => COUNT (fun r => SubTask_task_id r =? task_id) (tSubTask d)) ;;
  f <- query (fun d => COUNT (fun r => File_task_id r =? task_id) (tFile d)) ;;
  r <- query (fun d => COUNT (fun r => Reminder_task_id r =? task_id) (tReminder d)) ;;
  ret (s, f, r).

Definition sync_task_tags (task_id current_user_id : Z) (tag_ids : option (list Z))
  : M unit :=
  match tag_ids with
  | None => ret tt
  | Some tag_ids =>
      (match tag_ids with
       | [] => ret tt
       | _ =>
           existing <- query_bound (current_user_id :: tag_ids) (fun d =>
             fetchall (fun t => (Tag_user_id t =? current_user_id)
                                && mem_int (Tag_id t) tag_ids) (tTag d)) ;;
           let ok_ids := map Tag_id existing in
           let bad := filter (fun tid => negb (mem_int tid ok_ids)) tag_ids in
           match bad with
           | [] => ret tt
           | _ => raise (HTTPException 400
                    ("Unknown tag_ids for this user: " ++ repr_int_list bad)%string)
           end
       end) ;;;
      execute_ (fun d =>
        set_tTaskTag d (filter (fun l => negb (TaskTag_task_id l =? task_id)) (tTaskTag d))) ;;;
      for_each tag_ids (fun tid => execute (INSERT_OR_IGNORE_TaskTag task_id tid))
  end.

(** The [TaskResponse(...)] every task endpoint builds from a row. *)
Definition task_response (row : TaskRow) : M TaskResponse :=
  counters <- task_counters (Task_id row) ;;
  tags <- load_task_tags (Task_id row) ;;
  let '(s, f, r) := counters in
  ret {| TaskResponse_id := Task_id row; TaskResponse_user_id := Task_user_id row;
         TaskResponse_title := Task_title row;
         TaskResponse_description := Task_description row;
         TaskResponse_due_at := Task_due_at row;
         TaskResponse_status := Task_status row;
         TaskResponse_repeat_interval_minutes := Task_repeat_interval_minutes row;
         TaskResponse_created_at := Task_created_at row;
         TaskResponse_updated_at := Task_updated_at row;
         TaskResponse_tags := tags;
         TaskResponse_subtasks_count := s; TaskResponse_files_count := f;
         TaskResponse_reminders_count := r |}.

(** *** main.py: Auth *)

Definition register (env : Env) (user : UserCreate) : M AuthResponse :=
  dup <- query (fun d =>
    fetchone (fun u => String.eqb (User_email u) (UserCreate_email user)) (tUser d)) ;;
  if is_some dup then raise (HTTPException 400 "Email already registered")
  else
    user_id <- execute (INSERT_User (UserCreate_email user) (UserCreate_name user)
                          (hash_password (UserCreate_password user))
                          (UserCreate_role user) (CURRENT_TIMESTAMP env)) ;;
    row <- query (fun d => user_by_id d user_id) ;;
    row <- expect row ;;
    let token := create_access_token (User_email row) (User_id row) (User_role row) in
    ret {| AuthResponse_token := token; AuthResponse_user_data := UserResponse_of row |}.

Definition login (data : LoginRequest) : M AuthResponse :=
  row <- query (fun d =>
    fetchone (fun u => String.eqb (User_email u) (LoginRequest_email data)) (tUser d)) ;;
  match row with
  | None => raise (HTTPException 400 "User not found")
  | Some row =>
      if negb (verify_password (LoginRequest_password data) (User_password row))
      then raise (HTTPException 400 "Invalid password")
      else
        user_row <- query (fun d => user_by_id d (User_id row)) ;;
        user_row <- expect user_row ;;
        let token := create_access_token (User_email user_row) (User_id user_row)
                       (User_role user_row) in
        ret {| AuthResponse_token := token;
               AuthResponse_user_data := UserResponse_of user_row |}
  end.

Definition profile (current : UserResponse) : M UserResponse := ret current.

(** *** main.py: Admin, Users *)

(** [LIMIT ? OFFSET ?] *)
Definition LIMIT_OFFSET {R : Type} (limit offset : Z) (l : list R) : list R :=
  firstn (Z.to_nat limit) (skipn (Z.to_nat offset) l).

Definition list_users (limit offset : option Z) (search : option string)
  (current : UserResponse) : M (list UserResponse) :=
  _ <- get_current_admin current ;;
  limit <- Query "limit" 50 (Some 1) (Some 100) limit ;;
  offset <- Query "offset" 0 (Some 0) None offset ;;
  let '(limit, offset) := normalize_pagination limit offset in
  rows <- query (fun d =>
    let hits :=
      if truthy_str search then
        match search with
        | Some s =>
            let pat := ("%" ++ s ++ "%")%string in
            fetchall (fun u => sql_like pat (User_email u) || sql_like pat (User_name u))
              (tUser d)
        | None => rows (tUser d)
        end
      else rows (tUser d) in
    LIMIT_OFFSET limit offset
      (order_by (fun a b => String.leb (User_created_at b) (User_created_at a)) hits)) ;;
  ret (map UserResponse_of rows).

Definition get_user (user_id : Z) (current : UserResponse) : M UserResponse :=
  _ <- get_current_admin current ;;
  row <- query (fun d => user_by_id d user_id) ;;
  match row with
  | None => raise (HTTPException 404 "User not found")
  | Some row => ret (UserResponse_of row)
  end.

Definition apply_UserUpdate (data : UserUpdate) (u : UserRow) : UserRow :=
  {| User_id := User_id u; User_email := User_email u;
     User_name := match UserUpdate_name data with
                  | Some n => strip n
                  | None => User_name u
                  end;
     User_password := User_password u;
     User_role := match UserUpdate_role data with
                  | Some r => r
                  | None => User_role u
                  end;
     User_created_at := User_created_at u |}.

Definition update_user (user_id : Z) (data : UserUpdate) (current : UserResponse)
  : M UserResponse :=
  _ <- get_current_admin current ;;
  row <- query (fun d => user_by_id d user_id) ;;
  match row with
  | None => raise (HTTPException 404 "User not found")
  | Some _ =>
      when (is_some (UserUpdate_name data) || is_some (UserUpdate_role data))
        (execute_ (fun d =>
           set_tUser d (update_rows (fun u => User_id u =? user_id)
                          (apply_UserUpdate data) (tUser d)))) ;;;
      out <- query (fun d => user_by_id d user_id) ;;
      out <- expect out ;;
      ret (UserResponse_of out)
  end.

Definition delete_user (user_id : Z) (current : UserResponse) : M string :=
  _ <- get_current_admin current ;;
  row <- query (fun d => user_by_id d user_id) ;;
  match row with
  | None => raise (HTTPException 404 "User not found")
  | Some _ =>
      execute_ (DELETE_User user_id) ;;;
      ret "User deleted"
  end.

(** *** main.py: Tags *)

Definition create_tag (env : Env) (data : TagCreate) (user_id : option Z)
  (current : UserResponse) : M TagRow :=
  target_user_id <-
    match user_id with
    | None => ret (UserResponse_id current)
    | Some user_id =>
        if negb (UserRole_eqb (UserResponse_role current) ADMIN)
        then raise (HTTPException 403 "Admin access required for user_id")
        else ret user_id
    end ;;
  tag_id <- try_except
    (execute (INSERT_Tag target_user_id (strip (TagCreate_name data))
                (CURRENT_TIMESTAMP env)))
    (fun e =>
       match e with
       | HTTPException _ _ => raise e
       | _ => raise (HTTPException 400 "Tag already exists")
       end) ;;
  row <- query (fun d => tag_by_id d tag_id) ;;
  expect row.

Definition list_tags (user_id : option Z) (current : UserResponse) : M (list TagRow) :=
  target_user_id <-
    match user_id with
    | None => ret (UserResponse_id current)
    | Some user_id =>
        if negb (UserRole_eqb (UserResponse_role current) ADMIN)
        then raise (HTTPException 403 "Admin access required for user_id")
        else ret user_id
    end ;;
  query (fun d =>
    order_by (fun a b => String.leb (Tag_name a) (Tag_name b))
      (fetchall (fun t => Tag_user_id t =? target_user_id) (tTag d))).

Definition update_tag (tag_id : Z) (data : TagUpdate) (current : UserResponse)
  : M TagRow :=
  row <- query (fun d => tag_by_id d tag_id) ;;
  match row with
  | None => raise (HTTPException 404 "Tag not found")
  | Some row =>
      if negb (Tag_user_id row =? UserResponse_id current)
         && negb (UserRole_eqb (UserResponse_role current) ADMIN)
      then raise (HTTPException 403 "Access denied")
      else
        match TagUpdate_name data with
        | Some name => execute (UPDATE_Tag_name tag_id (strip name))
        | None => ret tt
        end ;;;
        out <- query (fun d => tag_by_id d tag_id) ;;
        expect out
  end.

Definition delete_tag (tag_id : Z) (current : UserResponse) : M string :=
  row <- query (fun d => tag_by_id d tag_id) ;;
  match row with
  | None => raise (HTTPException 404 "Tag not found")
  | Some row =>
      if negb (Tag_user_id row =? UserResponse_id current)
         && negb (UserRole_eqb (UserResponse_role current) ADMIN)
      then raise (HTTPException 403 "Access denied")
      else
        execute_ (DELETE_Tag tag_id) ;;;
        ret "Tag deleted"
  end.

(** *** main.py: Tasks *)

(** [st and st.title and st.title.strip()]: a model instance is truthy, so
    what is tested is the title before and after stripping. *)
Definition has_title (st : SubTaskInlineCreate) : bool :=
  negb (String.eqb (SubTaskInlineCreate_title st) "")
  && negb (String.eqb (strip (SubTaskInlineCreate_title st)) "").

(** The filter and the soft limit applied to the inline subtasks. *)
Definition inline_subtasks (l : list SubTaskInlineCreate) : list SubTaskInlineCreate :=
  let subtasks := filter has_title l in
  slice_to 50 subtasks.

Definition create_task (env : Env) (data : TaskCreate) (user_id : option Z)
  (current : UserResponse) : M TaskResponse :=
  target_user_id <-
    match user_id with
    | None => ret (UserResponse_id current)
    | Some user_id =>
        if negb (UserRole_eqb (UserResponse_role current) ADMIN)
        then raise (HTTPException 403 "Admin access required for user_id")
        else
          u <- query (fun d => user_by_id d user_id) ;;
          if negb (is_some u)
          then raise (HTTPException 404 "Target user not found")
          else ret user_id
    end ;;
  task_id <- execute (INSERT_Task target_user_id (strip (TaskCreate_title data))
                        (TaskCreate_description data)
                        (option_map isoformat (TaskCreate_due_at data))
                        (TaskCreate_status data)
                        (TaskCreate_repeat_interval_minutes data)
                        (CURRENT_TIMESTAMP env)) ;;
  sync_task_tags task_id target_user_id (TaskCreate_tag_ids data) ;;;
  match TaskCreate_subtasks data with
  | None | Some [] => ret tt
  | Some l =>
      for_each (inline_subtasks l) (fun st =>
        _ <- execute (INSERT_SubTask task_id target_user_id
                        (strip (SubTaskInlineCreate_title st))
                        (if SubTaskInlineCreate_is_done st then 1 else 0)
                        (CURRENT_TIMESTAMP env)) ;;
        ret tt)
  end ;;;
  row <- query (fun d => task_by_id d task_id) ;;
  row <- expect row ;;
  task_response row.

Definition COALESCE (a : option string) (b : string) : string :=
  match a with Some a => a | None => b end.

Definition list_tasks (search : option string) (status_filter : option TaskStatus)
  (due_from due_to : option datetime) (user_id : option Z) (limit offset : option Z)
  (current : UserResponse) : M (list TaskResponse) :=
  limit <- Query "limit" 20 (Some 1) (Some 100) limit ;;
  offset <- Query "offset" 0 (Some 0) None offset ;;
  let '(limit, offset) := normalize_pagination limit offset in
  target_user_id <-
    match user_id with
    | None => ret (UserResponse_id current)
    | Some user_id =>
        if negb (UserRole_eqb (UserResponse_role current) ADMIN)
        then raise (HTTPException 403 "Admin access required for user_id filter")
        else ret user_id
    end ;;
  let where_ (t : TaskRow) : bool :=
    (Task_user_id t =? target_user_id)
    && (if truthy_str search then
          match search with
          | Some s =>
              let pat := ("%" ++ s ++ "%")%string in
              sql_like pat (Task_title t)
              || match Task_description t with
                 | Some descr => sql_like pat descr
                 | None => false
                 end
          | None => true
          end
        else true)
    && match status_filter with
       | Some st => TaskStatus_eqb (Task_status t) st
       | None => true
       end
    && match due_from with
       | Some lo =>
           match Task_due_at t with
           | Some due => String.leb (isoformat lo) due
           | None => false
           end
       | None => true
       end
    && match due_to with
       | Some hi =>
           match Task_due_at t with
           | Some due => String.leb due (isoformat hi)
           | None => false
           end
       | None => true
       end in
  rows <- query (fun d =>
    LIMIT_OFFSET limit offset
      (order_by (fun a b => String.leb (COALESCE (Task_due_at a) (Task_created_at a))
                                       (COALESCE (Task_due_at b) (Task_created_at b)))
         (fetchall where_ (tTask d)))) ;;
  (fix each (rs : list TaskRow) : M (list TaskResponse) :=
     match rs with
     | [] => ret []
     | r :: rest =>
         resp <- task_response r ;;
         out <- each rest ;;
         ret (resp :: out)
     end) rows.

Definition get_task (task_id : Z) (current : UserResponse) : M TaskResponse :=
  row <- query (fun d => task_by_id d task_id) ;;
  match row with
  | None => raise (HTTPException 404 "Task not found")
  | Some row =>
      ensure_task_access (Task_user_id row) current ;;;
      task_response row
  end.

Definition apply_TaskUpdate (data : TaskUpdate) (t : TaskRow) : TaskRow :=
  {| Task_id := Task_id t; Task_user_id := Task_user_id t;
     Task_title := match TaskUpdate_title data with
                   | Some x => strip x
                   | None => Task_title t
                   end;
     Task_description := match TaskUpdate_description data with
                         | Some x => Some x
                         | None => Task_description t
                         end;
     Task_due_at := match TaskUpdate_due_at data with
                    | Some x => Some (isoformat x)
                    | None => Task_due_at t
                    end;
     Task_status := match TaskUpdate_status data with
                    | Some x => x
                    | None => Task_status t
                    end;
     Task_repeat_interval_minutes :=
       match TaskUpdate_repeat_interval_minutes data with
       | Some x => Some x
       | None => Task_repeat_interval_minutes t
       end;
     Task_created_at := Task_created_at t; Task_updated_at := Task_updated_at t |}.

Definition TaskUpdate_has_updates (data : TaskUpdate) : bool :=
  is_some (TaskUpdate_title data) || is_some (TaskUpdate_description data)
  || is_some (TaskUpdate_due_at data) || is_some (TaskUpdate_status data)
  || is_some (TaskUpdate_repeat_interval_minutes data).

Definition update_task (task_id : Z) (data : TaskUpdate) (current : UserResponse)
  : M TaskResponse :=
  row <- query (fun d => task_by_id d task_id) ;;
  match row with
  | None => raise (HTTPException 404 "Task not found")
  | Some row =>
      ensure_task_access (Task_user_id row) current ;;;
      when (TaskUpdate_has_updates data)
        (execute_ (fun d =>
           set_tTask d (update_rows (fun t => Task_id t =? task_id)
                          (apply_TaskUpdate data) (tTask d)))) ;;;
      sync_task_tags task_id (Task_user_id row) (TaskUpdate_tag_ids data) ;;;
      updated <- query (fun d => task_by_id d task_id) ;;
      updated <- expect updated ;;
      task_response updated
  end.

Definition delete_task (env : Env) (task_id : Z) (current : UserResponse) : M string :=
  row <- query (fun d => task_by_id d task_id) ;;
  match row with
  | None => raise (HTTPException 404 "Task not found")
  | Some row =>
      ensure_task_access (Task_user_id row) current ;;;
      files <- query (fun d => fetchall (fun f => File_task_id f =? task_id) (tFile d)) ;;
      for_each files (fun f => remove_if_exists env (File_storage_path f)) ;;;
      execute_ (DELETE_Task task_id) ;;;
      ret "Task deleted"
  end.

Definition generate_next_occurrence (env : Env) (task_id : Z) (current : UserResponse)
  : M TaskResponse :=
  row <- query (fun d => task_by_id d task_id) ;;
  match row with
  | None => raise (HTTPException 404 "Task not found")
  | Some row =>
      ensure_task_access (Task_user_id row) current ;;;
      if negb (truthy_int (Task_repeat_interval_minutes row))
      then raise (HTTPException 400
                    "Task is not repeating (repeat_interval_minutes is null)")
      else if negb (truthy_str (Task_due_at row))
      then raise (HTTPException 400
                    "Task has no due_at, cannot generate next occurrence")
      else
        due <- match Task_due_at row with
               | Some s =>
                   match fromisoformat s with
                   | Some due => ret (default_utc due)
                   | None => raise (HTTPException 400 "Invalid due_at stored in DB")
                   end
               | None => raise (HTTPException 400 "Invalid due_at stored in DB")
               end ;;
        next_due <- lift (plus_minutes due
            (match Task_repeat_interval_minutes row with Some m => m | None => 0 end)) ;;
        new_id <- execute (INSERT_Task (Task_user_id row) (Task_title row)
                             (Task_description row) (Some (isoformat next_due)) TODO
                             (Task_repeat_interval_minutes row)
                             (CURRENT_TIMESTAMP env)) ;;
        tag_links <- query (fun d =>
          filter (fun l => TaskTag_task_id l =? task_id) (tTaskTag d)) ;;
        for_each tag_links (fun tl =>
          execute (INSERT_OR_IGNORE_TaskTag new_id (TaskTag_tag_id tl))) ;;;
        created <- query (fun d => task_by_id d new_id) ;;
        created <- expect created ;;
        task_response created
  end.

(** *** main.py: SubTasks *)

Definition SubTaskResponse_of (row : SubTaskRow) : SubTaskResponse :=
  {| SubTaskResponse_id := SubTask_id row; SubTaskResponse_task_id := SubTask_task_id row;
     SubTaskResponse_user_id := SubTask_user_id row;
     SubTaskResponse_title := SubTask_title row;
     SubTaskResponse_is_done := bool_of_int (SubTask_is_done row);
     SubTaskResponse_created_at := SubTask_created_at row;
     SubTaskResponse_updated_at := SubTask_updated_at row |}.

Definition create_subtask (env : Env) (data : SubTaskCreate) (current : UserResponse)
  : M SubTaskResponse :=
  task <- query (fun d => task_by_id d (SubTaskCreate_task_id data)) ;;
  match task with
  | None => raise (HTTPException 404 "Task not found")
  | Some task =>
      ensure_task_access (Task_user_id task) current ;;;
      sid <- execute (INSERT_SubTask (SubTaskCreate_task_id data) (Task_user_id task)
                        (strip (SubTaskCreate_title data))
                        (int_of_bool (SubTaskCreate_is_done data))
                        (CURRENT_TIMESTAMP env)) ;;
      row <- query (fun d => subtask_by_id d sid) ;;
      row <- expect row ;;
      ret (SubTaskResponse_of row)
  end.

Definition list_subtasks (task_id : Z) (current : UserResponse)
  : M (list SubTaskResponse) :=
  task <- query (fun d => task_by_id d task_id) ;;
  match task with
  | None => raise (HTTPException 404 "Task not found")
  | Some task =>
      ensure_task_access (Task_user_id task) current ;;;
      rows <- query (fun d =>
        order_by (fun a b => String.leb (SubTask_created_at a) (SubTask_created_at b))
          (fetchall (fun r => SubTask_task_id r =? task_id) (tSubTask d))) ;;
      ret (map SubTaskResponse_of rows)
  end.

Definition apply_SubTaskUpdate (data : SubTaskUpdate) (r : SubTaskRow) : SubTaskRow :=
  {| SubTask_id := SubTask_id r; SubTask_task_id := SubTask_task_id r;
     SubTask_user_id := SubTask_user_id r;
     SubTask_title := match SubTaskUpdate_title data with
                      | Some x => strip x
                      | None => SubTask_title r
                      end;
     SubTask_is_done := match SubTaskUpdate_is_done data with
                        | Some b => int_of_bool b
                        | None => SubTask_is_done r
                        end;
     SubTask_created_at := SubTask_created_at r;
     SubTask_updated_at := SubTask_updated_at r |}.

Definition update_subtask (subtask_id : Z) (data : SubTaskUpdate) (current : UserResponse)
  : M SubTaskResponse :=
  row <- query (fun d => subtask_by_id d subtask_id) ;;
  match row with
  | None => raise (HTTPException 404 "Subtask not found")
  | Some row =>
      task <- query (fun d => task_by_id d (SubTask_task_id row)) ;;
      match task with
      | None => raise (HTTPException 404 "Task not found")
      | Some task =>
          ensure_task_access (Task_user_id task) current ;;;
          when (is_some (SubTaskUpdate_title data) || is_some (SubTaskUpdate_is_done data))
            (execute_ (fun d =>
               set_tSubTask d (update_rows (fun r => SubTask_id r =? subtask_id)
                                 (apply_SubTaskUpdate data) (tSubTask d)))) ;;;
          updated <- query (fun d => subtask_by_id d subtask_id) ;;
          updated <- expect updated ;;
          ret (SubTaskResponse_of updated)
      end
  end.

Definition delete_subtask (subtask_id : Z) (current : UserResponse) : M string :=
  row <- query (fun d => subtask_by_id d subtask_id) ;;
  match row with
  | None => raise (HTTPException 404 "Subtask not found")
  | Some row =>
      task <- query (fun d => task_by_id d (SubTask_task_id row)) ;;
      match task with
      | None => raise (HTTPException 404 "Task not found")
      | Some task =>
          ensure_task_access (Task_user_id task) current ;;;
          execute_ (DELETE_SubTask subtask_id) ;;;
          ret "Subtask deleted"
      end
  end.

(** *** main.py: Calendar *)

Definition calendar_view (date_from date_to : datetime) (user_id : option Z)
  (current : UserResponse) : M (list CalendarItem) :=
  target_user_id <-
    match user_id with
    | None => ret (UserResponse_id current)
    | Some user_id =>
        if negb (UserRole_eqb (UserResponse_role current) ADMIN)
        then raise (HTTPException 403 "Admin access required for user_id")
        else ret user_id
    end ;;
  rows <- query (fun d =>
    order_by (fun a b => String.leb (COALESCE (Task_due_at a) "") (COALESCE (Task_due_at b) ""))
      (fetchall (fun t =>
         (Task_user_id t =? target_user_id)
         && match Task_due_at t with
            | Some due => String.leb (isoformat date_from) due
                          && String.leb due (isoformat date_to)
            | None => false
            end) (tTask d))) ;;
  (fix each (rs : list TaskRow) : M (list CalendarItem) :=
     match rs with
     | [] => ret []
     | r :: rest =>
         due <- match Task_due_at r with
                | Some s =>
                    match fromisoformat s with
                    | Some due => ret due
                    | None => raise (Exception "ValueError")
                    end
                | None => raise (Exception "TypeError")
                end ;;
         out <- each rest ;;
         ret ({| CalendarItem_task_id := Task_id r; CalendarItem_title := Task_title r;
                 CalendarItem_due_at := due; CalendarItem_status := Task_status r;
                 CalendarItem_user_id := Task_user_id r |} :: out)
     end) rows.

(** *** main.py: Files *)

Definition MAX_UPLOAD : Z := 25 * 1024 * 1024.

Definition upload_file (env : Env) (task_id : Z) (file : UploadFile)
  (current : UserResponse) : M FileRow :=
  task <- query (fun d => task_by_id d task_id) ;;
  match task with
  | None => raise (HTTPException 404 "Task not found")
  | Some task =>
      ensure_task_access (Task_user_id task) current ;;;
      let safe_name := if truthy_str (UploadFile_filename file)
                       then match UploadFile_filename file with
                            | Some n => n
                            | None => "file"
                            end
                       else "file" in
      let file_id := uuid4 env in
      let storage_path := os_path_join UPLOAD_DIR (file_id ++ "__" ++ safe_name)%string in
      let content := UploadFile_content file in
      let size := len content in
      if size =? 0 then raise (HTTPException 400 "Empty file")
      else if size >? MAX_UPLOAD then raise (HTTPException 400 "File too large (max 25MB)")
      else
        write_file storage_path content ;;;
        fid <- execute (INSERT_File task_id (Task_user_id task) safe_name
                          (UploadFile_content_type file) size storage_path
                          (CURRENT_TIMESTAMP env)) ;;
        row <- query (fun d => file_by_id d fid) ;;
        expect row
  end.

Definition list_files (task_id : Z) (current : UserResponse) : M (list FileRow) :=
  task <- query (fun d => task_by_id d task_id) ;;
  match task with
  | None => raise (HTTPException 404 "Task not found")
  | Some task =>
      ensure_task_access (Task_user_id task) current ;;;
      query (fun d =>
        order_by (fun a b => String.leb (File_created_at b) (File_created_at a))
          (fetchall (fun r => File_task_id r =? task_id) (tFile d)))
  end.

Definition download_file (file_id : Z) (current : UserResponse)
  : M (string * string * string) :=
  row <- query (fun d => file_by_id d file_id) ;;
  match row with
  | None => raise (HTTPException 404 "File not found")
  | Some row =>
      task <- query (fun d => task_by_id d (File_task_id row)) ;;
      match task with
      | None => raise (HTTPException 404 "Task not found")
      | Some task =>
          ensure_task_access (Task_user_id task) current ;;;
          present <- os_path_exists (File_storage_path row) ;;
          if negb present then raise (HTTPException 404 "File missing on disk")
          else ret (File_storage_path row, File_filename row,
                    if truthy_str (File_content_type row)
                    then COALESCE (File_content_type row) "application/octet-stream"
                    else "application/octet-stream")
      end
  end.

Definition delete_file (env : Env) (file_id : Z) (current : UserResponse) : M string :=
  row <- query (fun d => file_by_id d file_id) ;;
  match row with
  | None => raise (HTTPException 404 "File not found")
  | Some row =>
      task <- query (fun d => task_by_id d (File_task_id row)) ;;
      match task with
      | None => raise (HTTPException 404 "Task not found")
      | Some task =>
          ensure_task_access (Task_user_id task) current ;;;
          remove_if_exists env (File_storage_path row) ;;;
          execute_ (DELETE_File file_id) ;;;
          ret "File deleted"
      end
  end.

(** *** main.py: Reminders *)

Definition create_reminder (env : Env) (task_id : Z) (data : ReminderCreate)
  (current : UserResponse) : M ReminderRow :=
  task <- query (fun d => task_by_id d task_id) ;;
  match task with
  | None => raise (HTTPException 404 "Task not found")
  | Some task =>
      ensure_task_access (Task_user_id task) current ;;;
      let start_at := option_map isoformat (ReminderCreate_start_at data) in
      let end_at := option_map isoformat (ReminderCreate_end_at data) in
      next_run_at <- lift (compute_next_run env start_at
                             (ReminderCreate_every_minutes data)) ;;
      rid <- execute (INSERT_Reminder task_id (Task_user_id task)
                        (ReminderCreate_every_minutes data) start_at end_at
                        (int_of_bool (ReminderCreate_is_enabled data))
                        next_run_at
                        (CURRENT_TIMESTAMP env)) ;;
      row <- query (fun d => reminder_by_id d rid) ;;
      expect row
  end.

Definition list_reminders (task_id : Z) (current : UserResponse) : M (list ReminderRow) :=
  task <- query (fun d => task_by_id d task_id) ;;
  match task with
  | None => raise (HTTPException 404 "Task not found")
  | Some task =>
      ensure_task_access (Task_user_id task) current ;;;
      query (fun d =>
        order_by (fun a b => String.leb (Reminder_created_at b) (Reminder_created_at a))
          (fetchall (fun r => Reminder_task_id r =? task_id) (tReminder d)))
  end.

Definition ReminderUpdate_has_updates (data : ReminderUpdate) : bool :=
  is_some (ReminderUpdate_every_minutes data) || is_some (ReminderUpdate_start_at data)
  || is_some (ReminderUpdate_end_at data) || is_some (ReminderUpdate_is_enabled data).

Definition apply_ReminderUpdate (data : ReminderUpdate) (next_run_at : string)
  (r : ReminderRow) : ReminderRow :=
  {| Reminder_id := Reminder_id r; Reminder_task_id := Reminder_task_id r;
     Reminder_user_id := Reminder_user_id r;
     Reminder_every_minutes := match ReminderUpdate_every_minutes data with
                               | Some x => x
                               | None => Reminder_every_minutes r
                               end;
     Reminder_start_at := match ReminderUpdate_start_at data with
                          | Some x => Some (isoformat x)
                          | None => Reminder_start_at r
                          end;
     Reminder_end_at := match ReminderUpdate_end_at data with
                        | Some x => Some (isoformat x)
                        | None => Reminder_end_at r
                        end;
     Reminder_is_enabled := match ReminderUpdate_is_enabled data with
                            | Some b => int_of_bool b
                            | None => Reminder_is_enabled r
                            end;
     Reminder_next_run_at := Some next_run_at;
     Reminder_created_at := Reminder_created_at r |}.

Definition update_reminder (env : Env) (task_id reminder_id : Z) (data : ReminderUpdate)
  (current : UserResponse) : M ReminderRow :=
  task <- query (fun d => task_by_id d task_id) ;;
  match task with
  | None => raise (HTTPException 404 "Task not found")
  | Some task =>
      ensure_task_access (Task_user_id task) current ;;;
      row <- query (fun d =>
        fetchone (fun r => (Reminder_id r =? reminder_id)
                           && (Reminder_task_id r =? task_id)) (tReminder d)) ;;
      match row with
      | None => raise (HTTPException 404 "Reminder not found")
      | Some row =>
          when (ReminderUpdate_has_updates data)
            (let new_every := match ReminderUpdate_every_minutes data with
                              | Some x => x
                              | None => Reminder_every_minutes row
                              end in
             let new_start := match ReminderUpdate_start_at data with
                              | Some x => Some (isoformat x)
                              | None => Reminder_start_at row
                              end in
             next_run_at <- lift (compute_next_run env new_start new_every) ;;
             execute_ (fun d =>
               set_tReminder d
                 (update_rows (fun r => Reminder_id r =? reminder_id)
                    (apply_ReminderUpdate data next_run_at)
                    (tReminder d)))) ;;;
          out <- query (fun d => reminder_by_id d reminder_id) ;;
          expect out
      end
  end.

Definition delete_reminder (task_id reminder_id : Z) (current : UserResponse) : M string :=
  task <- query (fun d => task_by_id d task_id) ;;
  match task with
  | None => raise (HTTPException 404 "Task not found")
  | Some task =>
      ensure_task_access (Task_user_id task) current ;;;
      row <- query (fun d =>
        fetchone (fun r => (Reminder_id r =? reminder_id)
                           && (Reminder_task_id r =? task_id)) (tReminder d)) ;;
      match row with
      | None => raise (HTTPException 404 "Reminder not found")
      | Some _ =>
          execute_ (DELETE_Reminder reminder_id) ;;;
          ret "Reminder deleted"
      end
  end.

(** *** main.py: NLU stub *)

Definition nlu_stub (data : NLUInput) (current : UserResponse) : M NLUResult :=
  ret {| NLUResult_intent := "create_task_stub";
         NLUResult_extracted :=
           [("raw_text", NLUInput_text data);
            ("hint", "NLU not implemented yet. Map this text to TaskCreate on client side.")] |}.

(** *** The endpoints as one request type

    All routes of [main.py] but [/health] and [/metrics], which look at
    neither the store nor the upload directory. *)

Inductive Request :=
| Register (user : UserCreate)
| Login (data : LoginRequest)
| Profile
| ListUsers (limit offset : option Z) (search : option string)
| GetUser (user_id : Z)
| UpdateUser (user_id : Z) (data : UserUpdate)
| DeleteUser (user_id : Z)
| CreateTag (data : TagCreate) (user_id : option Z)
| ListTags (user_id : option Z)
| UpdateTag (tag_id : Z) (data : TagUpdate)
| DeleteTag (tag_id : Z)
| CreateTask (data : TaskCreate) (user_id : option Z)
| ListTasks (search : option string) (status_filter : option TaskStatus)
    (due_from due_to : option datetime) (user_id : option Z) (limit offset : option Z)
| GetTask (task_id : Z)
| UpdateTask (task_id : Z) (data : TaskUpdate)
| DeleteTask (task_id : Z)
| GenerateNext (task_id : Z)
| CreateSubtask (data : SubTaskCreate)
| ListSubtasks (task_id : Z)
| UpdateSubtask (subtask_id : Z) (data : SubTaskUpdate)
| DeleteSubtask (subtask_id : Z)
| CalendarView (date_from date_to : datetime) (user_id : option Z)
| UploadFileTo (task_id : Z) (file : UploadFile)
| ListFiles (task_id : Z)
| DownloadFile (file_id : Z)
| DeleteFile (file_id : Z)
| CreateReminder (task_id : Z) (data : ReminderCreate)
| ListReminders (task_id : Z)
| UpdateReminder (task_id reminder_id : Z) (data : ReminderUpdate)
| DeleteReminder (task_id reminder_id : Z)
| NluStub (data : NLUInput).

Inductive Response :=
| R_Auth (a : AuthResponse)
| R_User (u : UserResponse)
| R_Users (l : list UserResponse)
| R_Message (message : string)
| R_Tag (t : TagRow)
| R_Tags (l : list TagRow)
| R_Task (t : TaskResponse)
| R_Tasks (l : list TaskResponse)
| R_SubTask (s : SubTaskResponse)
| R_SubTasks (l : list SubTaskResponse)
| R_Calendar (l : list CalendarItem)
| R_File (f : FileRow)
| R_Files (l : list FileRow)
| R_Download (path filename media_type : string)
| R_Reminder (r : ReminderRow)
| R_Reminders (l : list ReminderRow)
| R_NLU (r : NLUResult).

Definition fmap {A B : Type} (f : A -> B) (m : M A) : M B := x <- m ;; ret (f x).

(** The request of an authenticated actor [current], dispatched as the
    routes of [main.py] do.  [Register] and [Login] need no actor and do
    not look at it. *)
Definition handle (env : Env) (current : UserResponse) (req : Request) : M Response :=
  match req with
  | Register user => fmap R_Auth (register env user)
  | Login data => fmap R_Auth (login data)
  | Profile => fmap R_User (profile current)
  | ListUsers limit offset search => fmap R_Users (list_users limit offset search current)
  | GetUser user_id => fmap R_User (get_user user_id current)
  | UpdateUser user_id data => fmap R_User (update_user user_id data current)
  | DeleteUser user_id => fmap R_Message (delete_user user_id current)
  | CreateTag data user_id => fmap R_Tag (create_tag env data user_id current)
  | ListTags user_id => fmap R_Tags (list_tags user_id current)
  | UpdateTag tag_id data => fmap R_Tag (update_tag tag_id data current)
  | DeleteTag tag_id => fmap R_Message (delete_tag tag_id current)
  | CreateTask data user_id => fmap R_Task (create_task env data user_id current)
  | ListTasks search status_filter due_from due_to user_id limit offset =>
      fmap R_Tasks
        (list_tasks search status_filter due_from due_to user_id limit offset current)
  | GetTask task_id => fmap R_Task (get_task task_id current)
  | UpdateTask task_id data => fmap R_Task (update_task task_id data current)
  | DeleteTask task_id => fmap R_Message (delete_task env task_id current)
  | GenerateNext task_id => fmap R_Task (generate_next_occurrence env task_id current)
  | CreateSubtask data => fmap R_SubTask (create_subtask env data current)
  | ListSubtasks task_id => fmap R_SubTasks (list_subtasks task_id current)
  | UpdateSubtask subtask_id data => fmap R_SubTask (update_subtask subtask_id data current)
  | DeleteSubtask subtask_id => fmap R_Message (delete_subtask subtask_id current)
  | CalendarView date_from date_to user_id =>
      fmap R_Calendar (calendar_view date_from date_to user_id current)
  | UploadFileTo task_id file => fmap R_File (upload_file env task_id file current)
  | ListFiles task_id => fmap R_Files (list_files task_id current)
  | DownloadFile file_id =>
      fmap (fun r => let '(p, n, m) := r in R_Download p n m) (download_file file_id current)
  | DeleteFile file_id => fmap R_Message (delete_file env file_id current)
  | CreateReminder task_id data => fmap R_Reminder (create_reminder env task_id data current)
  | ListReminders task_id => fmap R_Reminders (list_reminders task_id current)
  | UpdateReminder task_id reminder_id data =>
      fmap R_Reminder (update_reminder env task_id reminder_id data current)
  | DeleteReminder task_id reminder_id =>
      fmap R_Message (delete_reminder task_id reminder_id current)
  | NluStub data => fmap R_NLU (nlu_stub data current)
  end.
End Backend.

(** ** Notions used to state the properties *)

Section Notions.

Context {P : Platform}.

(** The five kinds of owned resource. *)
Inductive Resource :=
| OfTask (task_id : Z)
| OfSubTask (subtask_id : Z)
| OfTag (tag_id : Z)
| OfFile (file_id : Z)
| OfReminder (reminder_id : Z).

(** The owner of a resource as the endpoints compute it: a tag carries it,
    everything else has the owner of its parent task. *)
Definition owner (d : DB) (r : Resource) : option Z :=
  match r with
  | OfTask i => option_map Task_user_id (task_by_id d i)
  | OfTag i => option_map Tag_user_id (tag_by_id d i)
  | OfSubTask i =>
      match subtask_by_id d i with
      | Some s => option_map Task_user_id (task_by_id d (SubTask_task_id s))
      | None => None
      end
  | OfFile i =>
      match file_by_id d i with
      | Some f => option_map Task_user_id (task_by_id d (File_task_id f))
      | None => None
      end
  | OfReminder i =>
      match reminder_by_id d i with
      | Some r => option_map Task_user_id (task_by_id d (Reminder_task_id r))
      | None => None
      end
  end.

(** The requests that read or write one resource.  Creating or listing the
    children of a task is an operation on the task; a reminder is addressed
    through the task it belongs to. *)
Inductive operates_on (d : DB) : Request -> Resource -> Prop :=
| on_GetTask i : operates_on d (GetTask i) (OfTask i)
| on_UpdateTask i data : operates_on d (UpdateTask i data) (OfTask i)
| on_DeleteTask i : operates_on d (DeleteTask i) (OfTask i)
| on_GenerateNext i : operates_on d (GenerateNext i) (OfTask i)
| on_CreateSubtask data :
    operates_on d (CreateSubtask data) (OfTask (SubTaskCreate_task_id data))
| on_ListSubtasks i : operates_on d (ListSubtasks i) (OfTask i)
| on_UploadFileTo i file : operates_on d (UploadFileTo i file) (OfTask i)
| on_ListFiles i : operates_on d (ListFiles i) (OfTask i)
| on_CreateReminder i data : operates_on d (CreateReminder i data) (OfTask i)
| on_ListReminders i : operates_on d (ListReminders i) (OfTask i)
| on_UpdateSubtask i data : operates_on d (UpdateSubtask i data) (OfSubTask i)
| on_DeleteSubtask i : operates_on d (DeleteSubtask i) (OfSubTask i)
| on_UpdateTag i data : operates_on d (UpdateTag i data) (OfTag i)
| on_DeleteTag i : operates_on d (DeleteTag i) (OfTag i)
| on_DownloadFile i : operates_on d (DownloadFile i) (OfFile i)
| on_DeleteFile i : operates_on d (DeleteFile i) (OfFile i)
| on_UpdateReminder i data r :
    reminder_by_id d i = Some r ->
    operates_on d (UpdateReminder (Reminder_task_id r) i data) (OfReminder i)
| on_DeleteReminder i r :
    reminder_by_id d i = Some r ->
    operates_on d (DeleteReminder (Reminder_task_id r) i) (OfReminder i).

(** The access rule in the words of the design: allowed iff the actor is an
    admin or owns the resource. *)
Definition canAccess (actorId : Z) (actorRole : UserRole) (resourceOwnerId : Z) : bool :=
  UserRole_eqb actorRole ADMIN || (actorId =? resourceOwnerId).

(** The inline gate of [update_tag] and [delete_tag]. *)
Definition tag_gate_denies (row : TagRow) (current : UserResponse) : bool :=
  negb (Tag_user_id row =? UserResponse_id current)
  && negb (UserRole_eqb (UserResponse_role current) ADMIN).

(** Every child row carries the owner of its parent task. *)
Definition child_owner_inv (d : DB) : Prop :=
  (forall s t, In s (rows (tSubTask d)) ->
     task_by_id d (SubTask_task_id s) = Some t -> SubTask_user_id s = Task_user_id t)
  /\ (forall f t, In f (rows (tFile d)) ->
     task_by_id d (File_task_id f) = Some t -> File_user_id f = Task_user_id t)
  /\ (forall r t, In r (rows (tReminder d)) ->
     task_by_id d (Reminder_task_id r) = Some t -> Reminder_user_id r = Task_user_id t).

(** No row carries, or refers to, an id the store has not handed out yet. *)
Definition ids_bounded (d : DB) : Prop :=
  (forall t, In t (rows (tTask d)) -> Task_id t <= lastrowid (tTask d))
  /\ (forall s, In s (rows (tSubTask d)) ->
        SubTask_id s <= lastrowid (tSubTask d)
        /\ SubTask_task_id s <= lastrowid (tTask d))
  /\ (forall f, In f (rows (tFile d)) ->
        File_id f <= lastrowid (tFile d) /\ File_task_id f <= lastrowid (tTask d))
  /\ (forall r, In r (rows (tReminder d)) ->
        Reminder_id r <= lastrowid (tReminder d)
        /\ Reminder_task_id r <= lastrowid (tTask d))
  /\ (forall l, In l (tTaskTag d) -> TaskTag_task_id l <= lastrowid (tTask d)).

Definition store_inv (d : DB) : Prop := child_owner_inv d /\ ids_bounded d.

(** The stores the server can get into: it starts on an empty store and
    answers one request after the other, from any actor. *)
Inductive reachable : World -> Prop :=
| reachable_start (k : list (string * bytes)) :
    reachable {| db := empty_db; disk := k |}
| reachable_step (env : Env) (current : UserResponse) (req : Request) (w : World) :
    reachable w -> reachable (snd (handle env current req w)).

(** The same invariant, table by table: a reference [(task_id, user_id)]
    carried by a child row is fine when the task id has been handed out and
    the task found under it, if any, has that owner. *)
Definition refs_ok (tasks : Table TaskRow) (task_id user_id : Z) : Prop :=
  task_id <= lastrowid tasks
  /\ forall t, fetchone (fun t => Task_id t =? task_id) tasks = Some t ->
               user_id = Task_user_id t.

Definition children_ok {R : Type} (id task_id user_id : R -> Z)
    (tasks : Table TaskRow) (t : Table R) : Prop :=
  forall r, In r (rows t) ->
    id r <= lastrowid t /\ refs_ok tasks (task_id r) (user_id r).

Definition tasks_bounded (tasks : Table TaskRow) : Prop :=
  forall t, In t (rows tasks) -> Task_id t <= lastrowid tasks.

Definition links_bounded (tasks : Table TaskRow) (links : list TaskTagRow) : Prop :=
  forall l, In l links -> TaskTag_task_id l <= lastrowid tasks.

Definition store_inv_tables (d : DB) : Prop :=
  tasks_bounded (tTask d)
  /\ children_ok SubTask_id SubTask_task_id SubTask_user_id (tTask d) (tSubTask d)
  /\ children_ok File_id File_task_id File_user_id (tTask d) (tFile d)
  /\ children_ok Reminder_id Reminder_task_id Reminder_user_id (tTask d) (tReminder d)
  /\ links_bounded (tTask d) (tTaskTag d).

(** The invariant together with a reference that is fine: what the loops
    of [sync_task_tags] and of the inline subtasks rely on. *)
Definition inv_with (task_id user_id : Z) (d : DB) : Prop :=
  store_inv_tables d /\ refs_ok (tTask d) task_id user_id.

(** A computation keeps a property of the store, whether it returns or
    raises. *)
Definition preserves {A : Type} (I : DB -> Prop) (m : M A) : Prop :=
  forall w, I (db w) -> I (db (snd (m w))).

(** A computation leaves the store and the upload directory alone. *)
Definition readonly {A : Type} (m : M A) : Prop := forall w, snd (m w) = w.

(** The failures that stand for a refused or ill-formed request: 403, 404,
    a rejected parameter, and 400 other than the one [sync_task_tags]
    raises. *)
Definition gate_failure (e : Failure) : bool :=
  match e with
  | HTTPException 403 _ | HTTPException 404 _ => true
  | HTTPException 400 detail => negb (String.prefix "Unknown tag_ids" detail)
  | HTTPException _ _ => false
  | RequestValidationError _ => true
  | Exception _ => false
  end.

(** A computation that, when it fails with such a failure, has changed
    nothing. *)
Definition fails_early {A : Type} (m : M A) : Prop :=
  forall w e w', m w = (Raise e, w') -> gate_failure e = true -> w' = w.

(** A computation that never fails with such a failure. *)
Definition no_gate {A : Type} (m : M A) : Prop :=
  forall w e w', m w = (Raise e, w') -> gate_failure e = false.

(** A computation that, when it fails, has changed nothing. *)
Definition clean_fail {A : Type} (m : M A) : Prop :=
  forall w e w', m w = (Raise e, w') -> w' = w.

(** A computation that never answers "Access denied". *)
Definition never_denied {A : Type} (m : M A) : Prop :=
  forall w e w', m w = (Raise e, w') -> e <> AccessDenied.

(** The ids that [sync_task_tags] reports as unknown for an owner. *)
Definition unknown_tag_ids (d : DB) (owner_id : Z) (tag_ids : list Z) : list Z :=
  let existing :=
    fetchall (fun t => (Tag_user_id t =? owner_id) && mem_int (Tag_id t) tag_ids) (tTag d) in
  filter (fun tid => negb (mem_int tid (map Tag_id existing))) tag_ids.

(** The SubTask rows that the inline subtasks [l] become, for the task
    [task_id] of [user_id], when the last id handed out was [last]. *)
Fixpoint inline_rows (task_id user_id : Z) (now : string) (last : Z)
    (l : list SubTaskInlineCreate) : list SubTaskRow :=
  match l with
  | [] => []
  | st :: rest =>
      {| SubTask_id := last + 1; SubTask_task_id := task_id; SubTask_user_id := user_id;
         SubTask_title := strip (SubTaskInlineCreate_title st);
         SubTask_is_done := if SubTaskInlineCreate_is_done st then 1 else 0;
         SubTask_created_at := now; SubTask_updated_at := now |}
      :: inline_rows task_id user_id now (last + 1) rest
  end.

(** The name under which [upload_file] keeps an upload, and the path it
    opens for it. *)
Definition upload_name (file : UploadFile) : string :=
  if truthy_str (UploadFile_filename file)
  then COALESCE (UploadFile_filename file) "file" else "file".

Definition upload_path (env : Env) (file : UploadFile) : string :=
  os_path_join UPLOAD_DIR (uuid4 env ++ "__" ++ upload_name file)%string.

(** Parameters that a statement can take: each an integer of 64 bits, and
    no more of them than the store takes in one statement. *)
Definition bindable (params : list Z) : Prop :=
  Forall (fun n => - 9223372036854775808 <= n < 9223372036854775808) params
  /\ Z.of_nat (List.length params) <= SQLITE_MAX_VARIABLE_NUMBER.

(** A reading of the calendar: from 0001-01-01T00:00:00 to
    9999-12-31T23:59:59.999999, in microseconds since the first. *)
Definition representable (d : datetime) : Prop :=
  0 <= wall_us d < 315537897600000000.

(** What the store needs to accept a row for [user_id], and a link to
    [tag_id], when it checks references. *)
Definition user_ref_ok (d : DB) (user_id : Z) : Prop :=
  checks_references = true -> is_some (user_by_id d user_id) = true.
Definition tag_ref_ok (d : DB) (tag_id : Z) : Prop :=
  checks_references = true -> is_some (tag_by_id d tag_id) = true.

End Notions.

(** ** A small platform to run the handlers on

    Content is known by its length, time stamps are written as their
    microsecond count, and [strip] removes blanks at both ends. *)

Fixpoint lstrip_blank (s : string) : string :=
  match s with
  | String " "%char rest => lstrip_blank rest
  | _ => s
  end.

Fixpoint rev_string (s acc : string) : string :=
  match s with
  | EmptyString => acc
  | String c rest => rev_string rest (String c acc)
  end.

Definition demo_strip (s : string) : string :=
  rev_string (lstrip_blank (rev_string (lstrip_blank s) "")) "".

Definition demo_isoformat (d : datetime) : string :=
  match tzinfo d with
  | None => str_int (wall_us d)
  | Some tz => (str_int (wall_us d) ++ "+" ++ str_int tz)%string
  end.

Definition demo_fromisoformat (s : string) : option datetime :=
  match NilZero.int_of_string s with
  | Some i => Some {| wall_us := Z.of_int i; tzinfo := None |}
  | None => None
  end.

Definition demo_platform (fks : bool) : Platform :=
  {| bytes := Z;
     len := fun n => n;
     strip := demo_strip;
     fromisoformat := demo_fromisoformat;
     isoformat := demo_isoformat;
     sql_like := fun _ _ => true;
     hash_password := fun s => ("hash:" ++ s)%string;
     verify_password := fun s h => String.eqb ("hash:" ++ s)%string h;
     create_access_token := fun sub _ _ => ("token:" ++ sub)%string;
     UPLOAD_DIR := "./uploads";
     checks_references := fks;
     SQLITE_MAX_VARIABLE_NUMBER := 32766;
     open_raises := fun _ => false |}.

Definition demo_env : Env :=
  {| utcnow := {| wall_us := 1000; tzinfo := Some 0 |};
     CURRENT_TIMESTAMP := "0";
     uuid4 := "u1";
     remove_raises := fun _ => false |}.

Definition alice : UserResponse :=
  {| UserResponse_id := 1; UserResponse_email := "alice@example.org";
     UserResponse_name := "Alice"; UserResponse_role := USER;
     UserResponse_created_at := Some "0" |}.

Definition bob : UserResponse :=
  {| UserResponse_id := 2; UserResponse_email := "bob@example.org";
     UserResponse_name := "Bob"; UserResponse_role := USER;
     UserResponse_created_at := Some "0" |}.

Definition root : UserResponse :=
  {| UserResponse_id := 3; UserResponse_email := "root@example.org";
     UserResponse_name := "Root"; UserResponse_role := ADMIN;
     UserResponse_created_at := Some "0" |}.

Definition demo_user (u : UserResponse) : UserRow :=
  {| User_id := UserResponse_id u; User_email := UserResponse_email u;
     User_name := UserResponse_name u; User_password := "hash:secret";
     User_role := UserResponse_role u; User_created_at := "0" |}.

Definition bob_task : TaskRow :=
  {| Task_id := 1; Task_user_id := 2; Task_title := "water plants";
     Task_description := None; Task_due_at := Some "5000"; Task_status := DONE;
     Task_repeat_interval_minutes := Some 1440;
     Task_created_at := "0"; Task_updated_at := "0" |}.

(** Bob owns task 1 (repeating daily, due at 5000), with one subtask, one
    file, one reminder and the tag "home" attached; Alice owns task 2. *)
Definition demo_db : DB :=
  {| tUser := {| rows := [demo_user alice; demo_user bob; demo_user root]; lastrowid := 3 |};
     tTag := {| rows := [{| Tag_id := 1; Tag_user_id := 2; Tag_name := "home";
                            Tag_created_at := "0" |}];
                lastrowid := 1 |};
     tTask := {| rows := [bob_task;
                          {| Task_id := 2; Task_user_id := 1; Task_title := "read";
                             Task_description := Some "chapter 3"; Task_due_at := None;
                             Task_status := TODO;
                             Task_repeat_interval_minutes := None;
                             Task_created_at := "0"; Task_updated_at := "0" |}];
                 lastrowid := 2 |};
     tTaskTag := [{| TaskTag_task_id := 1; TaskTag_tag_id := 1 |}];
     tSubTask := {| rows := [{| SubTask_id := 1; SubTask_task_id := 1; SubTask_user_id := 2;
                                SubTask_title := "fill the can"; SubTask_is_done := 0;
                                SubTask_created_at := "0"; SubTask_updated_at := "0" |}];
                    lastrowid := 1 |};
     tFile := {| rows := [{| File_id := 1; File_task_id := 1; File_user_id := 2;
                             File_filename := "plan.txt"; File_content_type := None;
                             File_size_bytes := 12;
                             File_storage_path := "./uploads/u0__plan.txt";
                             File_created_at := "0" |}];
                 lastrowid := 1 |};
     tReminder := {| rows := [{| Reminder_id := 1; Reminder_task_id := 1;
                                 Reminder_user_id := 2; Reminder_every_minutes := 60;
                                 Reminder_start_at := None; Reminder_end_at := None;
                                 Reminder_is_enabled := 1;
                                 Reminder_next_run_at := Some "4600";
                                 Reminder_created_at := "0" |}];
                     lastrowid := 1 |} |}.

(** Requests used in the examples. *)

Definition task_with_tags (tag_ids : list Z) : TaskCreate :=
  {| TaskCreate_title := "buy milk"; TaskCreate_description := None;
     TaskCreate_due_at := None; TaskCreate_status := TODO;
     TaskCreate_repeat_interval_minutes := None;
     TaskCreate_tag_ids := Some tag_ids; TaskCreate_subtasks := None |}.

Definition retitle_with_tags (title : string) (tag_ids : list Z) : TaskUpdate :=
  {| TaskUpdate_title := Some title; TaskUpdate_description := None;
     TaskUpdate_due_at := None; TaskUpdate_status := None;
     TaskUpdate_repeat_interval_minutes := None;
     TaskUpdate_tag_ids := Some tag_ids |}.

Definition step_n (n : nat) : SubTaskInlineCreate :=
  {| SubTaskInlineCreate_title := ("step " ++ str_int (Z.of_nat n))%string;
     SubTaskInlineCreate_is_done := false |}.

Definition task_with_sixty_subtasks : TaskCreate :=
  {| TaskCreate_title := "move house"; TaskCreate_description := None;
     TaskCreate_due_at := None; TaskCreate_status := TODO;
     TaskCreate_repeat_interval_minutes := None;
     TaskCreate_tag_ids := None;
     TaskCreate_subtasks := Some (map step_n (seq 1 60)) |}.

Definition demo_world (fks : bool) : @World (demo_platform fks) :=
  @Build_World (demo_platform fks) demo_db [("./uploads/u0__plan.txt", 12)].

(** 9999-12-31T23:59:59, the last second of the calendar, in microseconds
    since 0001-01-01T00:00:00. *)
Definition last_second : datetime :=
  {| wall_us := 315537897599000000; tzinfo := None |}.

Definition daily_task_due_at_the_last_second : TaskCreate :=
  {| TaskCreate_title := "new year"; TaskCreate_description := None;
     TaskCreate_due_at := Some last_second; TaskCreate_status := TODO;
     TaskCreate_repeat_interval_minutes := Some 1440;
     TaskCreate_tag_ids := None; TaskCreate_subtasks := None |}.

Definition upload_named (fks : bool) (filename : string) (size : Z)
  : @UploadFile (demo_platform fks) :=
  @Build_UploadFile (demo_platform fks) (Some filename) None size.

Definition task_with_blank_subtasks : TaskCreate :=
  {| TaskCreate_title := "pack"; TaskCreate_description := None;
     TaskCreate_due_at := None; TaskCreate_status := TODO;
     TaskCreate_repeat_interval_minutes := None;
     TaskCreate_tag_ids := None;
     TaskCreate_subtasks :=
       Some [ {| SubTaskInlineCreate_title := "   "; SubTaskInlineCreate_is_done := false |};
              {| SubTaskInlineCreate_title := " boxes "; SubTaskInlineCreate_is_done := false |};
              {| SubTaskInlineCreate_title := " "; SubTaskInlineCreate_is_done := true |};
              {| SubTaskInlineCreate_title := "tape"; SubTaskInlineCreate_is_done := true |} ] |}.

(** ** main.py: the caller of a request

    [get_current_user] resolves the bearer token of a request to a user of
    the store.  [verify_token] is a function of [utilities.py], which is
    not among the sources, so it is a parameter here.  Of the payload it
    returns only [user_id] is read; [register] and [login] issue tokens
    with the integer id of the user there. *)

Section Caller.

Context {P : Platform}.

Notation "x <- m ;; k" := (bind m (fun x => k))
  (at level 61, m at next level, right associativity).

(** The payload of a token as far as it is read: [payload.get("user_id")]. *)
Record Payload := { Payload_user_id : option Z }.

Variable verify_token : string -> option Payload.

Definition get_current_user (credentials : string) : M UserResponse :=
  match verify_token credentials with
  | None => raise (HTTPException 401 "Invalid token")
  | Some payload =>
      if negb (truthy_int (Payload_user_id payload))
      then raise (HTTPException 401 "Invalid token")
      else
        let user_id := match Payload_user_id payload with Some i => i | None => 0 end in
        row <- query (fun d => user_by_id d user_id) ;;
        match row with
        | None => raise (HTTPException 401 "User not found")
        | Some row => ret (UserResponse_of row)
        end
  end.

End Caller.

(** ** models.py: the e-mail validator

    [EMAIL_REGEX] uses character classes, single characters, sequence,
    [+] and [{2,}].  A pattern is matched by taking derivatives; the
    patterns below have no back-references or look-around, so [re.match]
    finds a match exactly when the text is in the language of the
    pattern. *)

Inductive regex :=
| Empty
| Eps
| Chr (c : ascii)
| Class (p : ascii -> bool)
| Seq (r s : regex)
| Alt (r s : regex)
| Star (r : regex).

(** [r+] and [r{2,}] *)
Definition Plus (r : regex) : regex := Seq r (Star r).
Definition AtLeast2 (r : regex) : regex := Seq r (Seq r (Star r)).

Fixpoint nullable (r : regex) : bool :=
  match r with
  | Empty => false
  | Eps => true
  | Chr _ => false
  | Class _ => false
  | Seq r s => nullable r && nullable s
  | Alt r s => nullable r || nullable s
  | Star _ => true
  end.

Fixpoint deriv (c : ascii) (r : regex) : regex :=
  match r with
  | Empty => Empty
  | Eps => Empty
  | Chr c' => if Ascii.eqb c c' then Eps else Empty
  | Class p => if p c then Eps else Empty
  | Seq r s =>
      if nullable r then Alt (Seq (deriv c r) s) (deriv c s)
      else Seq (deriv c r) s
  | Alt r s => Alt (deriv c r) (deriv c s)
  | Star r => Seq (deriv c r) (Star r)
  end.

(** The whole text is in the language of the pattern. *)
Fixpoint matches (r : regex) (s : string) : bool :=
  match s with
  | EmptyString => nullable r
  | String c rest => matches (deriv c r) rest
  end.

(** The text without its last character, when that is a line feed. *)
Fixpoint chop_newline (s : string) : option string :=
  match s with
  | EmptyString => None
  | String c rest =>
      match rest with
      | EmptyString => if Ascii.eqb c "010"%char then Some EmptyString else None
      | _ => option_map (String c) (chop_newline rest)
      end
  end.

(** [re.match] of a pattern written between [^] and [$]: the match starts
    at the first character, and [$] holds at the end of the text and also
    just before a line feed that ends the text. *)
Definition re_match (r : regex) (s : string) : bool :=
  matches r s
  || match chop_newline s with
     | Some s' => matches r s'
     | None => false
     end.

Definition in_range (lo hi c : ascii) : bool :=
  (N_of_ascii lo <=? N_of_ascii c)%N && (N_of_ascii c <=? N_of_ascii hi)%N.

(** [[a-zA-Z]], [[a-zA-Z0-9._%+-]] and [[a-zA-Z0-9.-]] *)
Definition is_letter (c : ascii) : bool :=
  in_range "a" "z" c || in_range "A" "Z" c.
Definition is_local_char (c : ascii) : bool :=
  is_letter c || in_range "0" "9" c
  || Ascii.eqb c "." || Ascii.eqb c "_" || Ascii.eqb c "%"
  || Ascii.eqb c "+" || Ascii.eqb c "-".
Definition is_domain_char (c : ascii) : bool :=
  is_letter c || in_range "0" "9" c || Ascii.eqb c "." || Ascii.eqb c "-".

(** [^[a-zA-Z0-9._%+-]+@[a-zA-Z0-9.-]+\.[a-zA-Z]{2,}$] *)
Definition EMAIL_REGEX : regex :=
  Seq (Plus (Class is_local_char))
    (Seq (Chr "@")
       (Seq (Plus (Class is_domain_char))
          (Seq (Chr ".") (AtLeast2 (Class is_letter))))).

(** [str.lower] on the characters that an accepted address can hold. *)
Definition lower_ascii (c : ascii) : ascii :=
  if in_range "A" "Z" c then ascii_of_N (N_of_ascii c + 32) else c.

Fixpoint lower (s : string) : string :=
  match s with
  | EmptyString => EmptyString
  | String c rest => String (lower_ascii c) (lower rest)
  end.

(** The validator of [UserCreate.email] and [LoginRequest.email]. *)
Definition validate_email (v : string) : Result string :=
  if negb (re_match EMAIL_REGEX v)
  then Raise (Exception "ValueError")
  else Ok (lower v).

(** Every character of a text passes a test. *)
Fixpoint all_chars (p : ascii -> bool) (s : string) : bool :=
  match s with
  | EmptyString => true
  | String c rest => p c && all_chars p rest
  end.

(** A pattern that does not tell a capital letter from its small one. *)
Fixpoint case_blind (r : regex) : Prop :=
  match r with
  | Empty | Eps => True
  | Chr c => forall c', Ascii.eqb (lower_ascii c') c = Ascii.eqb c' c
  | Class p => forall c, p (lower_ascii c) = p c
  | Seq r s | Alt r s => case_blind r /\ case_blind s
  | Star r => case_blind r
  end.

(** ** main.py: the middleware

    [security_headers] wraps every request: it passes the request on, sets
    five headers on the response, and in its [finally] block counts the
    request, observes its duration and logs one line.  The header map of
    the response, the reading of [time.perf_counter] and the rounding of
    the duration belong to the libraries and are the fields of [Wire]. *)

Class Wire := {
  headers : Type;
  set_header : string -> string -> headers -> headers;
  get_header : headers -> string -> option string;
  seconds : Type;
  elapsed : seconds -> seconds -> seconds;
  round_ms : seconds -> seconds }.

Section Middleware.

Context {P : Platform} {W : Wire}.

Record HttpRequest := {
  request_method : string; request_url_path : string;
  request_client_host : option string }.

Record HttpResponse := {
  resp_status_code : Z; resp_headers : headers; resp_body : string }.

(** What the [finally] block reads from outside: the two readings of the
    clock, and whether the counter, the histogram and the logger raise. *)
Record Probe := {
  perf_counter_start : seconds; perf_counter_end : seconds;
  inc_raises : bool; observe_raises : bool; info_raises : bool }.

Record LogLine := {
  log_event : string; log_method : string; log_path : string; log_status : Z;
  log_duration_ms : seconds; log_client : option string }.

(** The counter and the histogram, one entry per call under its labels,
    and the lines logged. *)
Record Telemetry := {
  HTTP_REQUESTS_TOTAL : list (string * string * string);
  HTTP_REQUEST_DURATION_SECONDS : list (string * string * seconds);
  logged : list LogLine }.

Definition with_header (k v : string) (resp : HttpResponse) : HttpResponse :=
  {| resp_status_code := resp_status_code resp;
     resp_headers := set_header k v (resp_headers resp);
     resp_body := resp_body resp |}.

Definition security_headers (probe : Probe) (request : HttpRequest)
    (call_next : M HttpResponse) (st : World * Telemetry)
  : Result HttpResponse * (World * Telemetry) :=
  let start := perf_counter_start probe in
  let path := request_url_path request in
  let method := request_method request in
  let '(outcome, w', status_code) :=
    match call_next (fst st) with
    | (Ok resp, w') =>
        let status_code := resp_status_code resp in
        let resp := with_header "X-Content-Type-Options" "nosniff" resp in
        let resp := with_header "X-Frame-Options" "DENY" resp in
        let resp := with_header "Referrer-Policy" "no-referrer" resp in
        let resp := with_header "Permissions-Policy"
                      "geolocation=(), microphone=(), camera=()" resp in
        let resp := with_header "Cache-Control" "no-store" resp in
        (Ok resp, w', status_code)
    | (Raise e, w') => (Raise e, w', 500)
    end in
  let duration := elapsed (perf_counter_end probe) start in
  let t := snd st in
  let t :=
    if inc_raises probe then t
    else
      let t := {| HTTP_REQUESTS_TOTAL :=
                    HTTP_REQUESTS_TOTAL t ++ [(method, path, str_int status_code)];
                  HTTP_REQUEST_DURATION_SECONDS := HTTP_REQUEST_DURATION_SECONDS t;
                  logged := logged t |} in
      if observe_raises probe then t
      else {| HTTP_REQUESTS_TOTAL := HTTP_REQUESTS_TOTAL t;
              HTTP_REQUEST_DURATION_SECONDS :=
                HTTP_REQUEST_DURATION_SECONDS t ++ [(method, path, duration)];
              logged := logged t |} in
  let t :=
    if info_raises probe then t
    else {| HTTP_REQUESTS_TOTAL := HTTP_REQUESTS_TOTAL t;
            HTTP_REQUEST_DURATION_SECONDS := HTTP_REQUEST_DURATION_SECONDS t;
            logged := logged t
                      ++ [{| log_event := "http_request"; log_method := method;
                             log_path := path; log_status := status_code;
                             log_duration_ms := round_ms duration;
                             log_client := request_client_host request |}] |} in
  (outcome, (w', t)).

(** The value of the counter under its labels. *)
Definition counter_value (t : Telemetry) (method path status : string) : nat :=
  List.length
    (filter (fun l => let '(m, p, s) := l in
                      String.eqb m method && String.eqb p path && String.eqb s status)
       (HTTP_REQUESTS_TOTAL t)).

End Middleware.

(** ** Further notions used to state the properties *)

(** The line feed, and the addresses that [EMAIL_REGEX] describes: a local
    part, an at sign, a domain, a dot and a top-level name of two letters
    or more, possibly followed by one line feed. *)
Definition line_feed : string := String "010"%char EmptyString.

Definition email_shape (v : string) : Prop :=
  exists local domain tld ending,
    v = (local ++ "@" ++ domain ++ "." ++ tld ++ ending)%string
    /\ local <> "" /\ all_chars is_local_char local = true
    /\ domain <> "" /\ all_chars is_domain_char domain = true
    /\ (2 <= String.length tld)%nat /\ all_chars is_letter tld = true
    /\ (ending = "" \/ ending = line_feed).

Section FurtherNotions.

Context {P : Platform}.

(** No user row carries an id the store has not handed out yet. *)
Definition users_bounded (d : DB) : Prop :=
  forall u, In u (rows (tUser d)) -> User_id u <= lastrowid (tUser d).

(** The bytes kept under a path of the upload directory. *)
Definition stored_bytes (w : World) (path : string) : option bytes :=
  option_map snd (find (fun e => String.eqb (fst e) path) (disk w)).

(** The requests of the routes declared with [@app.get]. *)
Definition is_get (req : Request) : bool :=
  match req with
  | Profile | ListUsers _ _ _ | GetUser _ | ListTags _ | ListTasks _ _ _ _ _ _ _
  | GetTask _ | ListSubtasks _ | CalendarView _ _ _ | ListFiles _ | DownloadFile _
  | ListReminders _ => true
  | _ => false
  end.

End FurtherNotions.

(** ** Further examples *)

(** Carol registers as an admin; the tokens of the example platform carry
    the e-mail, and [demo_verify_token] knows the ids behind them. *)
Definition carol : UserCreate :=
  {| UserCreate_email := "carol@example.org"; UserCreate_name := "Carol";
     UserCreate_password := "secret"; UserCreate_role := ADMIN |}.

Definition demo_verify_token (credentials : string) : option Payload :=
  if String.eqb credentials "token:carol@example.org"
  then Some {| Payload_user_id := Some 4 |}
  else if String.eqb credentials "token:bob@example.org"
  then Some {| Payload_user_id := Some 2 |}
  else None.

(** A header map kept as a list under names in small letters, and a clock
    that counts in whole units. *)
Definition demo_set_header (k v : string) (h : list (string * string))
  : list (string * string) :=
  (lower k, v) :: filter (fun e => negb (String.eqb (fst e) (lower k))) h.

Definition demo_get_header (h : list (string * string)) (k : string) : option string :=
  option_map snd (find (fun e => String.eqb (fst e) (lower k)) h).

Definition demo_wire : Wire :=
  {| headers := list (string * string);
     set_header := demo_set_header;
     get_header := demo_get_header;
     seconds := Z;
     elapsed := Z.sub;
     round_ms := fun d => d * 1000 |}.

Definition demo_probe : @Probe demo_wire :=
  @Build_Probe demo_wire 10 12 false false false.

Definition demo_request : HttpRequest :=
  {| request_method := "GET"; request_url_path := "/tasks";
     request_client_host := Some "127.0.0.1" |}.

(** A response whose handler allowed caching. *)
Definition demo_response : @HttpResponse demo_wire :=
  @Build_HttpResponse demo_wire 200
    [("cache-control", "public"); ("content-type", "application/json")] "[]".

Definition demo_telemetry : @Telemetry demo_wire :=
  @Build_Telemetry demo_wire [] [] [].

(** ** Properties *)

Unset Implicit Arguments.

Section Properties.

Context {P : Platform}.

Notation "x <- m ;; k" := (bind m (fun x => k))
  (at level 61, m at next level, right associativity).

Lemma UserRole_eqb_eq a b : UserRole_eqb a b = true <-> a = b.
Proof. destruct a, b; simpl; split; congruence. Qed.

(** *** Reasoning in the monad *)

Lemma bind_Ok {A B : Type} (m : M A) (k : A -> M B) w a w' :
  m w = (Ok a, w') -> bind m k w = k a w'.
Proof. intros H. unfold bind. rewrite H. reflexivity. Qed.

Lemma bind_Raise {A B : Type} (m : M A) (k : A -> M B) w e w' :
  m w = (Raise e, w') -> bind m k w = (Raise e, w').
Proof. intros H. unfold bind. rewrite H. reflexivity. Qed.

Lemma set_db_same (w : World) : set_db w (db w) = w.
Proof. destruct w; reflexivity. Qed.

Ltac munfold :=
  unfold fmap, bind, ret, raise, query_bound, query, lift, execute_, execute, when,
    expect, try_except in *.

(** *** The reminder schedule *)

Lemma representable_in_calendar (d : datetime) :
  representable d <-> in_calendar d = true.
Proof.
  unfold representable, in_calendar, MAXORDINAL, us_per_day.
  rewrite andb_true_iff, Z.leb_le, Z.ltb_lt. lia.
Qed.

Lemma plus_minutes_within (d : datetime) (minutes : Z) :
  representable d -> representable (add_minutes d minutes) ->
  plus_minutes d minutes = Ok (add_minutes d minutes).
Proof.
  intros Hd Hr. unfold plus_minutes.
  rewrite (proj1 (representable_in_calendar _) Hr), andb_true_r.
  assert (Hm : timedelta_ok minutes = true).
  { unfold representable in Hd, Hr. simpl in Hr. unfold timedelta_ok.
    rewrite andb_true_iff, !Z.leb_le.
    pose proof (Z.div_mod minutes 1440 ltac:(lia)) as Hq.
    pose proof (Z.mod_pos_bound minutes 1440 ltac:(lia)) as Hb. lia. }
  rewrite Hm. reflexivity.
Qed.

Lemma plus_minutes_beyond (d : datetime) (minutes : Z) :
  ~ representable (add_minutes d minutes) ->
  plus_minutes d minutes = Raise (Exception "OverflowError").
Proof.
  intros Hr. unfold plus_minutes.
  destruct (in_calendar (add_minutes d minutes)) eqn:E.
  - apply representable_in_calendar in E. contradiction.
  - rewrite andb_false_r. reflexivity.
Qed.

Lemma plus_minutes_Ok (d r : datetime) (minutes : Z) :
  plus_minutes d minutes = Ok r -> r = add_minutes d minutes.
Proof. unfold plus_minutes. destruct (_ && _); [congruence | discriminate]. Qed.

Lemma plus_minutes_Raise (d : datetime) (minutes : Z) (e : Failure) :
  plus_minutes d minutes = Raise e -> e = Exception "OverflowError".
Proof. unfold plus_minutes. destruct (_ && _); [discriminate | congruence]. Qed.

Lemma compute_next_run_Raise (env : Env) (start_at : option string) (every_minutes : Z)
    (e : Failure) :
  compute_next_run env start_at every_minutes = Raise e -> e = Exception "OverflowError".
Proof.
  unfold compute_next_run. destruct (plus_minutes _ _) as [next | e0] eqn:E; [discriminate |].
  intros [= <-]. exact (plus_minutes_Raise _ _ _ E).
Qed.

(** C8 (as the code has it).  As long as the base and the base plus the
    interval are readings of the calendar: with no start the next run is
    the clock plus the interval, and with a start that parses it is the
    start (read as UTC when it carries no offset) plus the interval.  With
    a start that does not parse the function does what it does with no
    start, whatever that is: the parse error is not passed on.  A sum past
    the calendar is an [OverflowError], raised by the addition, which
    stands outside the [try]. *)
Theorem compute_next_run_base (env : Env) (every_minutes : Z) :
  (representable (utcnow env) ->
     (representable (add_minutes (utcnow env) every_minutes) ->
        compute_next_run env None every_minutes
        = Ok (isoformat (add_minutes (utcnow env) every_minutes)))
     /\ (~ representable (add_minutes (utcnow env) every_minutes) ->
        compute_next_run env None every_minutes = Raise (Exception "OverflowError")))
  /\ (forall s start, s <> "" -> fromisoformat s = Some start ->
        representable start ->
        (representable (add_minutes start every_minutes) ->
           compute_next_run env (Some s) every_minutes
           = Ok (isoformat (add_minutes (default_utc start) every_minutes)))
        /\ (~ representable (add_minutes start every_minutes) ->
           compute_next_run env (Some s) every_minutes
           = Raise (Exception "OverflowError")))
  /\ (forall s, fromisoformat s = None ->
        compute_next_run env (Some s) every_minutes
        = compute_next_run env None every_minutes).
Proof.
  unfold compute_next_run. split; [| split].
  - intros Hnow. simpl. split; intros H.
    + rewrite plus_minutes_within by assumption. reflexivity.
    + rewrite plus_minutes_beyond by assumption. reflexivity.
  - intros s start Hs Hp Hstart. simpl.
    destruct (String.eqb_spec s ""); [contradiction |]. simpl.
    rewrite Hp.
    assert (Hd : forall d, representable d -> representable (default_utc d)).
    { intros d. unfold default_utc. destruct (tzinfo d); auto. }
    assert (Ha : forall d, wall_us (add_minutes (default_utc d) every_minutes)
                           = wall_us (add_minutes d every_minutes)).
    { intros d. unfold default_utc. destruct (tzinfo d); reflexivity. }
    split; intros H.
    + rewrite plus_minutes_within; [reflexivity | apply Hd; exact Hstart |].
      unfold representable. rewrite Ha. exact H.
    + rewrite plus_minutes_beyond; [reflexivity |].
      unfold representable. rewrite Ha. exact H.
  - intros s Hp. simpl. rewrite Hp.
    destruct (String.eqb s ""); reflexivity.
Qed.

(** *** Pagination *)

Lemma normalize_pagination_range (limit offset : Z) :
  let '(l, o) := normalize_pagination limit offset in
  1 <= l <= 100 /\ 0 <= o.
Proof. unfold normalize_pagination. lia. Qed.

Lemma normalize_pagination_id (limit offset : Z) :
  1 <= limit <= 100 -> 0 <= offset ->
  normalize_pagination limit offset = (limit, offset).
Proof. intros. unfold normalize_pagination. f_equal; lia. Qed.

(** C5 (as the code has it).  [normalize_pagination] clamps the limit into
    1..100 and the offset to 0 or more.  The task list declares its limit
    with the bounds 1..100 and its offset with the bound 0, so a value
    outside them is rejected before the handler body runs, the store is
    left as it was, and on every accepted value the clamp changes nothing. *)
Theorem list_tasks_pagination_gate search status_filter due_from due_to user_id
    (current : UserResponse) (w : World) :
  (forall limit offset,
      normalize_pagination limit offset = (Z.min (Z.max limit 1) 100, Z.max offset 0))
  /\ (forall limit offset,
      1 <= fst (normalize_pagination limit offset) <= 100
      /\ 0 <= snd (normalize_pagination limit offset))
  /\ (forall v offset, v < 1 \/ 100 < v ->
      list_tasks search status_filter due_from due_to user_id (Some v) offset current w
        = (Raise (RequestValidationError "limit"), w))
  /\ (forall limit v, v < 0 ->
      (forall l, limit = Some l -> 1 <= l <= 100) ->
      list_tasks search status_filter due_from due_to user_id limit (Some v) current w
        = (Raise (RequestValidationError "offset"), w))
  /\ (forall limit offset, 1 <= limit <= 100 -> 0 <= offset ->
      normalize_pagination limit offset = (limit, offset)).
Proof.
  repeat split.
  - unfold normalize_pagination; simpl; lia.
  - unfold normalize_pagination; simpl; lia.
  - unfold normalize_pagination; simpl; lia.
  - intros v offset Hv. unfold list_tasks, Query. munfold.
    destruct (1 <=? v) eqn:E1; destruct (v <=? 100) eqn:E2; simpl; try reflexivity.
    apply Z.leb_le in E1. apply Z.leb_le in E2. lia.
  - intros limit v Hv Hl. unfold list_tasks, Query in *. munfold.
    destruct limit as [l|]; simpl in *.
    + specialize (Hl l eq_refl).
      destruct (Z.leb_spec 1 l); [| lia]. destruct (Z.leb_spec l 100); [| lia]. simpl.
      destruct (0 <=? v) eqn:E; [apply Z.leb_le in E; lia | reflexivity].
    + destruct (0 <=? v) eqn:E; [apply Z.leb_le in E; lia | reflexivity].
  - intros. apply normalize_pagination_id; assumption.
Qed.

(** *** Access control *)

Lemma ensure_task_access_canAccess (task_user_id : Z) (current : UserResponse) (w : World) :
  ensure_task_access task_user_id current w
  = if canAccess (UserResponse_id current) (UserResponse_role current) task_user_id
    then (Ok tt, w) else (Raise AccessDenied, w).
Proof.
  unfold ensure_task_access, canAccess.
  destruct (UserRole_eqb (UserResponse_role current) ADMIN); simpl; [reflexivity |].
  rewrite (Z.eqb_sym (UserResponse_id current)).
  destruct (task_user_id =? UserResponse_id current); reflexivity.
Qed.

Lemma tag_gate_canAccess (row : TagRow) (current : UserResponse) :
  tag_gate_denies row current
  = negb (canAccess (UserResponse_id current) (UserResponse_role current) (Tag_user_id row)).
Proof.
  unfold tag_gate_denies, canAccess.
  rewrite (Z.eqb_sym (UserResponse_id current)).
  destruct (UserRole_eqb (UserResponse_role current) ADMIN),
           (Tag_user_id row =? UserResponse_id current); reflexivity.
Qed.

Lemma canAccess_iff actorId actorRole resourceOwnerId :
  canAccess actorId actorRole resourceOwnerId = true
  <-> actorRole = ADMIN \/ actorId = resourceOwnerId.
Proof.
  unfold canAccess. rewrite orb_true_iff, UserRole_eqb_eq, Z.eqb_eq. tauto.
Qed.

Lemma canAccess_stranger (current : UserResponse) (B : Z) :
  UserResponse_role current <> ADMIN -> B <> UserResponse_id current ->
  canAccess (UserResponse_id current) (UserResponse_role current) B = false.
Proof.
  intros Hr Hb. destruct (canAccess _ _ _) eqn:E; [| reflexivity].
  apply canAccess_iff in E. destruct E; congruence.
Qed.

(** X28.  A reminder asked for through a task it does not belong to is
    never reached: [update_reminder] and [delete_reminder] answer with a
    failure and nothing changes. *)
Lemma reminder_through_other_task (env : Env) (task_id reminder_id : Z)
    (data : ReminderUpdate) (current : UserResponse) (w : World) :
  (forall r, In r (rows (tReminder (db w))) ->
     Reminder_id r = reminder_id -> Reminder_task_id r <> task_id) ->
  (exists e, update_reminder env task_id reminder_id data current w = (Raise e, w))
  /\ (exists e, delete_reminder task_id reminder_id current w = (Raise e, w)).
Proof.
  intros Hno.
  assert (Hnone : fetchone (fun r => (Reminder_id r =? reminder_id)
                                     && (Reminder_task_id r =? task_id))
                    (tReminder (db w)) = None).
  { unfold fetchone. destruct (find _ _) as [r |] eqn:E; [| reflexivity].
    apply find_some in E. destruct E as (Hin & Hp). apply andb_true_iff in Hp.
    destruct Hp as (Hid & Ht). apply Z.eqb_eq in Hid. apply Z.eqb_eq in Ht.
    destruct (Hno r Hin Hid Ht). }
  split.
  - unfold update_reminder. munfold. simpl.
    destruct (task_by_id (db w) task_id) as [task |]; [| eexists; reflexivity].
    rewrite ensure_task_access_canAccess.
    destruct (canAccess _ _ _); [| eexists; reflexivity].
    rewrite Hnone. eexists. reflexivity.
  - unfold delete_reminder. munfold. simpl.
    destruct (task_by_id (db w) task_id) as [task |]; [| eexists; reflexivity].
    rewrite ensure_task_access_canAccess.
    destruct (canAccess _ _ _); [| eexists; reflexivity].
    rewrite Hnone. eexists. reflexivity.
Qed.

(** X29.  Listing for another user is for admins only: a caller who is no
    admin and names a user is answered 403 by [list_tags] and
    [calendar_view], and by [list_tasks] whenever the limit and the offset
    of the request are absent or within their declared bounds (1 to 100,
    0 or more); nothing changes.  A limit or an offset outside its bounds
    is rejected before the handler body runs, so the answer of
    [list_tasks] is then the validation error and not the 403. *)
Lemma listing_for_user_needs_admin (user_id : Z) (current : UserResponse) (w : World) :
  UserResponse_role current <> ADMIN ->
  list_tags (Some user_id) current w
    = (Raise (HTTPException 403 "Admin access required for user_id"), w)
  /\ (forall date_from date_to,
        calendar_view date_from date_to (Some user_id) current w
        = (Raise (HTTPException 403 "Admin access required for user_id"), w))
  /\ (forall search status_filter due_from due_to limit offset,
        (forall l, limit = Some l -> 1 <= l <= 100) ->
        (forall o, offset = Some o -> 0 <= o) ->
        list_tasks search status_filter due_from due_to (Some user_id) limit offset current w
        = (Raise (HTTPException 403 "Admin access required for user_id filter"), w))
  /\ (forall search status_filter due_from due_to limit offset,
        (exists l, limit = Some l /\ (l < 1 \/ 100 < l))
        \/ (exists o, offset = Some o /\ o < 0) ->
        exists loc,
          list_tasks search status_filter due_from due_to (Some user_id) limit offset
            current w
          = (Raise (RequestValidationError loc), w)).
Proof.
  intros Hr.
  split; [| split; [| split]].
  - unfold list_tags. munfold. simpl.
    destruct (UserResponse_role current); [reflexivity | contradiction].
  - intros date_from date_to. unfold calendar_view. munfold. simpl.
    destruct (UserResponse_role current); [reflexivity | contradiction].
  - intros search status_filter due_from due_to limit offset Hl Ho.
    unfold list_tasks, Query. munfold.
    destruct limit as [l |]; destruct offset as [o |]; simpl;
      try (specialize (Hl l eq_refl); destruct (Z.leb_spec 1 l); [| lia];
           destruct (Z.leb_spec l 100); [| lia]; simpl);
      try (specialize (Ho o eq_refl); destruct (Z.leb_spec 0 o); [| lia]; simpl);
      destruct (UserResponse_role current); try contradiction; reflexivity.
  - intros search status_filter due_from due_to limit offset Hbad.
    unfold list_tasks, Query. munfold.
    destruct Hbad as [(l & -> & Hl) | (o & -> & Ho)].
    + exists "limit". simpl.
      destruct (Z.leb_spec 1 l); destruct (Z.leb_spec l 100); simpl; try reflexivity. lia.
    + destruct limit as [l |]; simpl.
      * destruct ((1 <=? l) && (l <=? 100)); simpl.
        -- exists "offset". destruct (Z.leb_spec 0 o); [lia | reflexivity].
        -- exists "limit". reflexivity.
      * exists "offset". destruct (Z.leb_spec 0 o); [lia | reflexivity].
Qed.

(** *** Acting for another user *)

(** A caller who is no admin and names a target user is refused by both
    creating endpoints, before anything is written. *)
Lemma create_for_user_needs_admin (env : Env) (user_id : Z) (current : UserResponse)
    (w : World) :
  UserResponse_role current <> ADMIN ->
  (forall data, create_task env data (Some user_id) current w
     = (Raise (HTTPException 403 "Admin access required for user_id"), w))
  /\ (forall data, create_tag env data (Some user_id) current w
     = (Raise (HTTPException 403 "Admin access required for user_id"), w)).
Proof.
  intros Hr. unfold create_task, create_tag. munfold. simpl.
  destruct (UserResponse_role current); [| contradiction]. simpl.
  split; reflexivity.
Qed.

(** [create_task] answers 404 to an admin who names a user that does not
    exist. *)
Lemma create_task_missing_target (env : Env) (data : TaskCreate) (user_id : Z)
    (current : UserResponse) (w : World) :
  UserResponse_role current = ADMIN ->
  user_by_id (db w) user_id = None ->
  create_task env data (Some user_id) current w
  = (Raise (HTTPException 404 "Target user not found"), w).
Proof.
  intros Hr Hu. unfold create_task. rewrite Hr. munfold.
  cbn [UserRole_eqb negb]. rewrite Hu. reflexivity.
Qed.

(** [create_tag] has no path that answers 404. *)
Lemma create_tag_never_NotFound (env : Env) (data : TagCreate) (user_id : option Z)
    (current : UserResponse) (w : World) (e : Failure) :
  fst (create_tag env data user_id current w) = Raise e -> is_NotFound e = false.
Proof.
  unfold create_tag. munfold. simpl.
  destruct user_id as [uid |]; simpl.
  - destruct (negb (UserRole_eqb (UserResponse_role current) ADMIN)); simpl.
    + intros [= <-]. reflexivity.
    + destruct (INSERT_Tag _ _ _ _) as [[i d] |]; simpl.
      * destruct (tag_by_id d i); simpl; [discriminate | intros [= <-]; reflexivity].
      * intros [= <-]. reflexivity.
  - destruct (INSERT_Tag _ _ _ _) as [[i d] |]; simpl.
    + destruct (tag_by_id d i); simpl; [discriminate | intros [= <-]; reflexivity].
    + intros [= <-]. reflexivity.
Qed.

(** *** Tables *)

Lemma find_app_new {R : Type} (p : R -> bool) (l : list R) (x : R) :
  (forall y, In y l -> p y = false) -> p x = true -> find p (l ++ [x]) = Some x.
Proof.
  intros Hl Hx. induction l as [| y l IH]; simpl.
  - rewrite Hx. reflexivity.
  - rewrite (Hl y (or_introl eq_refl)). apply IH. intros z Hz. apply Hl. right. exact Hz.
Qed.

Lemma find_app_old {R : Type} (p : R -> bool) (l : list R) (x : R) :
  p x = false -> find p (l ++ [x]) = find p l.
Proof.
  intros Hx. induction l as [| y l IH]; simpl.
  - rewrite Hx. reflexivity.
  - destruct (p y); [reflexivity | exact IH].
Qed.

Lemma reference_ok_true (b : bool) :
  (checks_references = true -> b = true) -> reference_ok b = true.
Proof. unfold reference_ok. destruct checks_references, b; simpl; intros H; auto. Qed.

(** *** Uploads *)

Lemma has_slash_app (a b : string) :
  has_slash (a ++ b) = has_slash a || has_slash b.
Proof.
  induction a as [| c a IH]; simpl; [reflexivity |].
  rewrite IH. apply orb_assoc.
Qed.

Lemma after_prefix_app (p q s : string) :
  after_prefix (p ++ q) (p ++ s) = after_prefix q s.
Proof.
  induction p as [| c p IH]; simpl; [reflexivity |].
  rewrite Ascii.eqb_refl. exact IH.
Qed.

(** A path made of [UPLOAD_DIR] and a name goes through a sub-directory
    exactly when the name holds a "/". *)
Lemma through_subdirectory_join (name : string) :
  match name with String "/"%char _ => False | _ => True end ->
  through_subdirectory (os_path_join UPLOAD_DIR name) = has_slash name.
Proof.
  intros Hhead. unfold through_subdirectory, os_path_join.
  assert (Hjoin : match name with
                  | String "/"%char _ => name
                  | _ => if String.eqb UPLOAD_DIR "" || ends_with_slash UPLOAD_DIR
                         then (UPLOAD_DIR ++ name)%string
                         else (UPLOAD_DIR ++ "/" ++ name)%string
                  end
                  = if String.eqb UPLOAD_DIR "" || ends_with_slash UPLOAD_DIR
                    then (UPLOAD_DIR ++ name)%string
                    else (UPLOAD_DIR ++ "/" ++ name)%string).
  { destruct name as [| c name]; [reflexivity |].
    destruct c as [[] [] [] [] [] [] [] []]; try reflexivity. contradiction. }
  rewrite Hjoin.
  destruct (String.eqb UPLOAD_DIR "" || ends_with_slash UPLOAD_DIR).
  - rewrite after_prefix_app. reflexivity.
  - rewrite after_prefix_app. simpl. reflexivity.
Qed.

Lemma through_subdirectory_upload_path (env : Env) (file : UploadFile) :
  has_slash (uuid4 env) = false ->
  through_subdirectory (upload_path env file) = has_slash (upload_name file).
Proof.
  intros Hu. unfold upload_path. rewrite through_subdirectory_join.
  - rewrite has_slash_app, Hu. reflexivity.
  - destruct (uuid4 env) as [| c u]; simpl; [exact I |].
    simpl in Hu. apply orb_false_iff in Hu. destruct Hu as (Hc & _).
    destruct c as [[] [] [] [] [] [] [] []]; try exact I. discriminate.
Qed.

(** The size gate of [upload_file].  An upload of no bytes, or of more than
    26,214,400 bytes, changes neither the store nor the upload directory,
    whoever asks; for an actor allowed on the task it is answered "Empty
    file", respectively "File too large (max 25MB)".  Every other size up
    to 26,214,400 bytes (so 26,214,400 itself) reaches [open]: under a file
    name without "/" that the operating system takes, the content is
    written to the upload directory and recorded; under a file name with a
    "/" in it [open] raises and nothing is written or recorded. *)
Lemma upload_file_size_gate (env : Env) (task_id : Z) (file : UploadFile)
    (current : UserResponse) (w : World) (task : TaskRow) :
  MAX_UPLOAD = 26214400
  /\ (len (UploadFile_content file) = 0 \/ 26214400 < len (UploadFile_content file) ->
      snd (upload_file env task_id file current w) = w)
  /\ (task_by_id (db w) task_id = Some task ->
      canAccess (UserResponse_id current) (UserResponse_role current) (Task_user_id task)
        = true ->
      (len (UploadFile_content file) = 0 ->
         upload_file env task_id file current w
           = (Raise (HTTPException 400 "Empty file"), w))
      /\ (26214400 < len (UploadFile_content file) ->
         upload_file env task_id file current w
           = (Raise (HTTPException 400 "File too large (max 25MB)"), w))
      /\ (len (UploadFile_content file) <> 0 ->
          len (UploadFile_content file) <= 26214400 ->
          has_slash (uuid4 env) = false ->
          (has_slash (upload_name file) = false ->
           open_raises (upload_path env file) = false ->
           user_ref_ok (db w) (Task_user_id task) ->
           ids_bounded (db w) ->
           exists row w',
             upload_file env task_id file current w = (Ok row, w')
             /\ File_size_bytes row = len (UploadFile_content file)
             /\ File_task_id row = task_id
             /\ File_user_id row = Task_user_id task
             /\ File_storage_path row = upload_path env file
             /\ In row (rows (tFile (db w')))
             /\ In (File_storage_path row, UploadFile_content file) (disk w'))
          /\ (has_slash (upload_name file) = true ->
              upload_file env task_id file current w
                = (Raise (Exception "OSError"), w)))).
Proof.
  split; [reflexivity |]. split.
  - intros Hsize. unfold upload_file. munfold. simpl.
    destruct (task_by_id (db w) task_id) as [t |]; [| reflexivity].
    rewrite ensure_task_access_canAccess.
    destruct (canAccess _ _ _); [| reflexivity].
    destruct (Z.eqb_spec (len (UploadFile_content file)) 0); [reflexivity |].
    destruct (Z.gtb_spec (len (UploadFile_content file)) MAX_UPLOAD); [reflexivity |].
    unfold MAX_UPLOAD in *. lia.
  - intros Htask Hacc. unfold upload_file. munfold. simpl.
    rewrite Htask, ensure_task_access_canAccess, Hacc.
    split; [| split].
    + intros H0. rewrite H0. reflexivity.
    + intros Hbig.
      destruct (Z.eqb_spec (len (UploadFile_content file)) 0); [lia |].
      destruct (Z.gtb_spec (len (UploadFile_content file)) MAX_UPLOAD); [reflexivity |].
      unfold MAX_UPLOAD in *. lia.
    + intros Hnz Hle Hu.
      destruct (Z.eqb_spec (len (UploadFile_content file)) 0); [contradiction |].
      destruct (Z.gtb_spec (len (UploadFile_content file)) MAX_UPLOAD);
        [unfold MAX_UPLOAD in *; lia |].
      change (os_path_join UPLOAD_DIR (uuid4 env ++ _)%string) with (upload_path env file).
      unfold write_file.
      rewrite (through_subdirectory_upload_path env file Hu).
      split.
      * intros Hname Hos Hfk Hb. rewrite Hname, Hos. unfold INSERT_File. simpl.
        rewrite Htask. simpl.
        rewrite reference_ok_true by exact Hfk. simpl.
        unfold file_by_id, fetchone. simpl.
        rewrite find_app_new.
        -- eexists. eexists. split; [reflexivity |]. simpl.
           repeat split; try reflexivity.
           ++ apply in_or_app. right. left. reflexivity.
           ++ left. reflexivity.
        -- intros y Hy. destruct Hb as (_ & _ & Hf & _).
           destruct (Hf y Hy) as [Hid _]. apply Z.eqb_neq. lia.
        -- simpl. apply Z.eqb_refl.
      * intros Hname. rewrite Hname. reflexivity.
Qed.

(** *** Deleting a task *)

Lemma path_exists_filter (k : list (string * bytes)) (p q : string) :
  path_exists (filter (fun e => negb (String.eqb (fst e) p)) k) q
  = path_exists k q && negb (String.eqb q p).
Proof.
  unfold path_exists. induction k as [| e k IH]; simpl; [reflexivity |].
  destruct (String.eqb_spec (fst e) p) as [Hp | Hp]; simpl.
  - rewrite IH. destruct (String.eqb_spec (fst e) q) as [Hq | Hq]; simpl; [| reflexivity].
    subst. rewrite String.eqb_refl. simpl. rewrite andb_false_r. reflexivity.
  - rewrite IH. destruct (String.eqb_spec (fst e) q) as [Hq | Hq]; simpl; [| reflexivity].
    subst. destruct (String.eqb_spec (fst e) p); [contradiction | reflexivity].
Qed.

Lemma set_disk_set_disk (w : World) k k' : set_disk (set_disk w k) k' = set_disk w k'.
Proof. reflexivity. Qed.

Lemma set_disk_same (w : World) : set_disk w (disk w) = w.
Proof. destruct w; reflexivity. Qed.

(** One best-effort removal: it never fails, touches only the upload
    directory, only removes, and removes the path unless [os.remove] raises. *)
Lemma remove_if_exists_run (env : Env) (path : string) (w : World) :
  exists k,
    remove_if_exists env path w = (Ok tt, set_disk w k)
    /\ (forall q, path_exists k q = true -> path_exists (disk w) q = true)
    /\ (remove_raises env path = false -> path_exists k path = false).
Proof.
  unfold remove_if_exists, try_except, os_path_exists, os_remove, when, bind, ret.
  destruct (path_exists (disk w) path) eqn:Ex; simpl.
  - rewrite Ex. simpl. destruct (remove_raises env path) eqn:Er; simpl.
    + exists (disk w). rewrite set_disk_same. repeat split; auto. discriminate.
    + eexists. split; [reflexivity |]. split.
      * intros q. rewrite path_exists_filter. intros H.
        apply andb_true_iff in H. tauto.
      * intros _. rewrite path_exists_filter, String.eqb_refl. apply andb_false_r.
  - exists (disk w). rewrite set_disk_same. repeat split; auto.
Qed.

Lemma remove_all_run (env : Env) (files : list FileRow) (w : World) :
  exists k,
    for_each files (fun f => remove_if_exists env (File_storage_path f)) w
      = (Ok tt, set_disk w k)
    /\ (forall q, path_exists k q = true -> path_exists (disk w) q = true)
    /\ (forall f, In f files -> remove_raises env (File_storage_path f) = false ->
          path_exists k (File_storage_path f) = false).
Proof.
  revert w. induction files as [| f files IH]; intros w; simpl.
  - exists (disk w). unfold ret. rewrite set_disk_same. repeat split; auto.
    intros f [].
  - destruct (remove_if_exists_run env (File_storage_path f) w) as (k1 & H1 & Hmono1 & Hgone1).
    destruct (IH (set_disk w k1)) as (k2 & H2 & Hmono2 & Hgone2).
    exists k2. unfold bind. rewrite H1, H2. split; [reflexivity |]. split.
    + intros q Hq. apply Hmono1. apply (Hmono2 q Hq).
    + intros g [-> | Hin] Hr.
      * destruct (path_exists k2 (File_storage_path g)) eqn:E; [| reflexivity].
        apply Hmono2 in E. simpl in E. rewrite (Hgone1 Hr) in E. discriminate.
      * apply Hgone2; assumption.
Qed.

Lemma mem_int_ids_of (k i : Z) (l : list TaskRow) :
  mem_int i (map Task_id (filter (fun t => Task_id t =? k) l)) = true ->
  i = k.
Proof.
  unfold mem_int. rewrite existsb_exists. intros (x & Hin & Hx).
  apply in_map_iff in Hin. destruct Hin as (t & <- & Ht).
  apply filter_In in Ht. destruct Ht as (_ & Ht).
  apply Z.eqb_eq in Hx. apply Z.eqb_eq in Ht. congruence.
Qed.

Lemma mem_int_ids_of_found (k : Z) (l : list TaskRow) (row : TaskRow) :
  find (fun t => Task_id t =? k) l = Some row ->
  mem_int k (map Task_id (filter (fun t => Task_id t =? k) l)) = true.
Proof.
  intros H. apply find_some in H. destruct H as (Hin & Hid).
  unfold mem_int. rewrite existsb_exists. exists k. split; [| apply Z.eqb_refl].
  apply in_map_iff. exists row. split; [apply Z.eqb_eq; exact Hid |].
  apply filter_In. split; assumption.
Qed.

(** C6.  When an actor allowed on a task deletes it, the answer is "Task
    deleted" whatever [os.remove] does; afterwards the store holds no Task
    row of that id and no SubTask, Reminder, File or association row of that
    task, every row of another task is still there, and the stored bytes of
    each of its files are gone from the upload directory unless their
    removal raised. *)
Theorem delete_task_cascade (env : Env) (task_id : Z) (current : UserResponse)
    (w : World) (row : TaskRow) :
  task_by_id (db w) task_id = Some row ->
  canAccess (UserResponse_id current) (UserResponse_role current) (Task_user_id row) = true ->
  exists w',
    delete_task env task_id current w = (Ok "Task deleted", w')
    /\ (forall t, In t (rows (tTask (db w'))) <->
                  In t (rows (tTask (db w))) /\ Task_id t <> task_id)
    /\ (forall s, In s (rows (tSubTask (db w'))) <->
                  In s (rows (tSubTask (db w))) /\ SubTask_task_id s <> task_id)
    /\ (forall r, In r (rows (tReminder (db w'))) <->
                  In r (rows (tReminder (db w))) /\ Reminder_task_id r <> task_id)
    /\ (forall f, In f (rows (tFile (db w'))) <->
                  In f (rows (tFile (db w))) /\ File_task_id f <> task_id)
    /\ (forall l, In l (tTaskTag (db w')) <->
                  In l (tTaskTag (db w)) /\ TaskTag_task_id l <> task_id)
    /\ (forall f, In f (rows (tFile (db w))) -> File_task_id f = task_id ->
          remove_raises env (File_storage_path f) = false ->
          path_exists (disk w') (File_storage_path f) = false).
Proof.
  intros Hrow Hacc.
  unfold delete_task. munfold. simpl.
  rewrite Hrow, ensure_task_access_canAccess, Hacc.
  destruct (remove_all_run env
              (fetchall (fun f => File_task_id f =? task_id) (tFile (db w))) w)
    as (k & Hrun & _ & Hgone).
  fold (@bind P) in *. unfold bind in Hrun |- *.
  rewrite Hrun. simpl.
  eexists. split; [reflexivity |]. simpl.
  assert (Hmem : forall i,
    mem_int i (map Task_id (filter (fun t => Task_id t =? task_id) (rows (tTask (db w)))))
    = (i =? task_id)).
  { intros i. destruct (Z.eqb_spec i task_id) as [-> | Hne].
    - eapply mem_int_ids_of_found. exact Hrow.
    - destruct (mem_int i _) eqn:E; [| reflexivity].
      apply mem_int_ids_of in E. contradiction. }
  repeat match goal with
         | |- (forall x, In x _ <-> _) /\ _ =>
             split; [intros x; rewrite filter_In; cbv beta; try rewrite Hmem;
                     rewrite negb_true_iff, Z.eqb_neq; tauto |]
         end.
  intros f Hin Hid Hr. apply Hgone; [| exact Hr].
  apply filter_In. split; [exact Hin | apply Z.eqb_eq; exact Hid].
Qed.

(** *** Tag associations *)

Lemma find_is_some {R : Type} (p : R -> bool) (l : list R) (x : R) :
  In x l -> p x = true -> is_some (find p l) = true.
Proof.
  intros Hin Hp. destruct (find p l) eqn:E; [reflexivity |].
  rewrite (find_none _ _ E x Hin) in Hp. discriminate.
Qed.

Lemma known_tags_exist (d : DB) (owner_id : Z) (l : list Z) :
  unknown_tag_ids d owner_id l = [] ->
  forall g, In g l ->
    exists t, In t (rows (tTag d)) /\ Tag_id t = g /\ Tag_user_id t = owner_id.
Proof.
  unfold unknown_tag_ids, fetchall. intros Hbad g Hg.
  assert (Hm : negb (mem_int g (map Tag_id
            (filter (fun t => (Tag_user_id t =? owner_id) && mem_int (Tag_id t) l)
               (rows (tTag d))))) = false).
  { destruct (negb _) eqn:E; [| reflexivity].
    assert (Hin : In g []) by (rewrite <- Hbad; apply filter_In; split; assumption).
    destruct Hin. }
  apply negb_false_iff in Hm. unfold mem_int in Hm. apply existsb_exists in Hm.
  destruct Hm as (x & Hx & Hgx). apply Z.eqb_eq in Hgx. subst x.
  apply in_map_iff in Hx. destruct Hx as (t & Hid & Ht).
  apply filter_In in Ht. destruct Ht as (Hin & Hp).
  apply andb_true_iff in Hp. destruct Hp as (Hu & _). apply Z.eqb_eq in Hu.
  exists t. auto.
Qed.

Lemma has_link_In (d : DB) (a b : Z) :
  has_link d a b = true <-> In {| TaskTag_task_id := a; TaskTag_tag_id := b |} (tTaskTag d).
Proof.
  unfold has_link. rewrite existsb_exists. split.
  - intros ([x y] & Hin & Hp). simpl in Hp. apply andb_true_iff in Hp.
    destruct Hp as (Hx & Hy). apply Z.eqb_eq in Hx. apply Z.eqb_eq in Hy. subst. exact Hin.
  - intros Hin. eexists. split; [exact Hin |]. simpl. rewrite !Z.eqb_refl. reflexivity.
Qed.

(** The loop of [INSERT OR IGNORE INTO TaskTag]. *)
Lemma insert_links_run (task_id : Z) (l : list Z) : forall w : World,
  (checks_references = true ->
     is_some (task_by_id (db w) task_id) = true
     /\ forall g, In g l -> is_some (tag_by_id (db w) g) = true) ->
  exists links,
    for_each l (fun tid => execute (INSERT_OR_IGNORE_TaskTag task_id tid)) w
      = (Ok tt, set_db w (set_tTaskTag (db w) links))
    /\ (forall x, In x links <->
          In x (tTaskTag (db w))
          \/ (TaskTag_task_id x = task_id /\ In (TaskTag_tag_id x) l)).
Proof.
  induction l as [| g l IH]; intros w Hfk; simpl.
  - exists (tTaskTag (db w)). split.
    + unfold ret. destruct w as [[] ?]; reflexivity.
    + intros x. tauto.
  - set (links1 := if has_link (db w) task_id g then tTaskTag (db w)
                   else tTaskTag (db w)
                        ++ [{| TaskTag_task_id := task_id; TaskTag_tag_id := g |}]).
    assert (H1 : execute (INSERT_OR_IGNORE_TaskTag task_id g) w
                 = (Ok tt, set_db w (set_tTaskTag (db w) links1))).
    { unfold execute, INSERT_OR_IGNORE_TaskTag.
      rewrite reference_ok_true.
      - simpl. subst links1. destruct (has_link (db w) task_id g); [| reflexivity].
        destruct w as [[] ?]; reflexivity.
      - intros Hf. destruct (Hfk Hf) as (Ht & Hg). rewrite Ht, (Hg g (or_introl eq_refl)).
        reflexivity. }
    destruct (IH (set_db w (set_tTaskTag (db w) links1))) as (links & Hrun & Hin).
    { intros Hf. destruct (Hfk Hf) as (Ht & Hg). simpl. split; [exact Ht |].
      intros g' Hg'. apply Hg. right. exact Hg'. }
    exists links. split.
    + unfold bind. rewrite H1. exact Hrun.
    + intros x. rewrite Hin. simpl. subst links1.
      destruct (has_link (db w) task_id g) eqn:Hl.
      * apply has_link_In in Hl. split; [tauto |].
        intros [H | (Ht & [Hg | Hg])]; auto.
        left. destruct x; simpl in *; subst. exact Hl.
      * rewrite in_app_iff. simpl. split.
        -- intros [[H | [H | []]] | (Ht & Hg)]; [tauto | subst x; simpl; tauto | tauto].
        -- intros [H | (Ht & [Hg | Hg])]; auto.
           left. right. left. destruct x; simpl in *; subst. reflexivity.
Qed.

Lemma bindable_binds (params : list Z) : bindable params <-> binds params = true.
Proof.
  unfold bindable, binds. rewrite andb_true_iff, forallb_forall, Forall_forall, Z.leb_le.
  unfold sqlite_int. split; intros (H & Hn); (split; [| exact Hn]); intros x Hx;
    specialize (H x Hx).
  - rewrite andb_true_iff, Z.leb_le, Z.ltb_lt. change (2 ^ 63) with 9223372036854775808. lia.
  - rewrite andb_true_iff, Z.leb_le, Z.ltb_lt in H.
    change (2 ^ 63) with 9223372036854775808 in H. lia.
Qed.

Lemma not_bindable_binds (params : list Z) : ~ bindable params <-> binds params = false.
Proof.
  rewrite bindable_binds. destruct (binds params); split; congruence.
Qed.

(** [sync_task_tags] with ids that all belong to the owner: it succeeds,
    touches the association table only, and the task ends up linked to
    exactly the given ids. *)
Lemma sync_task_tags_ok (task_id owner_id : Z) (tag_ids : option (list Z)) (w : World) :
  (forall l, tag_ids = Some l -> l <> [] -> binds (owner_id :: l) = true) ->
  (forall l, tag_ids = Some l -> unknown_tag_ids (db w) owner_id l = []) ->
  (checks_references = true -> is_some (task_by_id (db w) task_id) = true) ->
  exists links,
    sync_task_tags task_id owner_id tag_ids w
      = (Ok tt, set_db w (set_tTaskTag (db w) links))
    /\ (forall x, In x links <->
          match tag_ids with
          | None => In x (tTaskTag (db w))
          | Some l =>
              (In x (tTaskTag (db w)) /\ TaskTag_task_id x <> task_id)
              \/ (TaskTag_task_id x = task_id /\ In (TaskTag_tag_id x) l)
          end).
Proof.
  intros Hbind Hknown Hfk. unfold sync_task_tags.
  destruct tag_ids as [l |].
  - specialize (Hknown l eq_refl). specialize (Hbind l eq_refl).
    pose proof (known_tags_exist _ _ _ Hknown) as Hex.
    set (w1 := set_db w (set_tTaskTag (db w)
                 (filter (fun x => negb (TaskTag_task_id x =? task_id)) (tTaskTag (db w))))).
    destruct (insert_links_run task_id l w1) as (links & Hrun & Hin).
    { intros Hf. simpl. split; [exact (Hfk Hf) |].
      intros g Hg. destruct (Hex g Hg) as (t & Ht & Hid & _).
      unfold tag_by_id, fetchone. eapply find_is_some; [exact Ht |].
      apply Z.eqb_eq. exact Hid. }
    exists links. split.
    + assert (Hcheck :
        (match l with
         | [] => ret tt
         | _ :: _ =>
             bind (query_bound (owner_id :: l) (fun d =>
                     fetchall (fun t => (Tag_user_id t =? owner_id)
                                        && mem_int (Tag_id t) l) (tTag d)))
               (fun existing =>
                  match filter (fun tid => negb (mem_int tid (map Tag_id existing))) l with
                  | [] => ret tt
                  | _ :: _ =>
                      raise (HTTPException 400
                        ("Unknown tag_ids for this user: "
                         ++ repr_int_list
                              (filter (fun tid => negb (mem_int tid (map Tag_id existing))) l)))
                  end)
         end) w = (Ok tt, w)).
      { destruct l as [| g l']; [reflexivity |].
        unfold bind, query_bound, query. rewrite Hbind by discriminate.
        unfold unknown_tag_ids in Hknown. rewrite Hknown. reflexivity. }
      unfold bind at 1. rewrite Hcheck.
      unfold bind at 1. unfold execute_, execute. simpl. exact Hrun.
    + intros x. rewrite Hin. simpl. rewrite filter_In, negb_true_iff, Z.eqb_neq. tauto.
  - exists (tTaskTag (db w)). split.
    + unfold ret. destruct w as [[] ?]; reflexivity.
    + intros x. tauto.
Qed.

(** *** Creating a task *)

Lemma table_eta {R : Type} (t : Table R) :
  {| rows := rows t; lastrowid := lastrowid t |} = t.
Proof. destruct t; reflexivity. Qed.

Lemma set_tSubTask_same (d : DB) : set_tSubTask d (tSubTask d) = d.
Proof. destruct d; reflexivity. Qed.

Lemma inline_rows_length task_id user_id now last l :
  List.length (inline_rows task_id user_id now last l) = List.length l.
Proof. revert last. induction l; intros; simpl; [reflexivity | f_equal; apply IHl]. Qed.

Lemma inline_rows_task task_id user_id now last l :
  forall s, In s (inline_rows task_id user_id now last l) ->
    SubTask_task_id s = task_id /\ SubTask_user_id s = user_id.
Proof.
  revert last. induction l as [| st l IH]; intros last s; simpl; [intros [] |].
  intros [<- | H]; [split; reflexivity | eapply IH; exact H].
Qed.

(** The loop that inserts the inline subtasks. *)
Lemma insert_subtasks_run (env : Env) (task_id user_id : Z)
    (l : list SubTaskInlineCreate) : forall w : World,
  (checks_references = true ->
     is_some (task_by_id (db w) task_id) = true
     /\ is_some (user_by_id (db w) user_id) = true) ->
  for_each l (fun st =>
      _ <- execute (INSERT_SubTask task_id user_id
                      (strip (SubTaskInlineCreate_title st))
                      (if SubTaskInlineCreate_is_done st then 1 else 0)
                      (CURRENT_TIMESTAMP env)) ;;
      ret tt) w
  = (Ok tt,
     set_db w (set_tSubTask (db w)
       {| rows := rows (tSubTask (db w))
                  ++ inline_rows task_id user_id (CURRENT_TIMESTAMP env)
                       (lastrowid (tSubTask (db w))) l;
          lastrowid := lastrowid (tSubTask (db w)) + Z.of_nat (List.length l) |})).
Proof.
  induction l as [| st l IH]; intros w Hfk.
  - simpl. rewrite app_nil_r, Z.add_0_r, table_eta, set_tSubTask_same, set_db_same.
    reflexivity.
  - cbn [for_each]. unfold bind at 1. unfold bind at 1.
    unfold execute at 1. unfold INSERT_SubTask at 1.
    rewrite reference_ok_true.
    2:{ intros Hf. destruct (Hfk Hf) as (Ht & Hu). rewrite Ht, Hu. reflexivity. }
    cbn [negb insert_row ret]. rewrite IH.
    2:{ intros Hf. exact (Hfk Hf). }
    change (List.length (st :: l)) with (S (List.length l)).
    rewrite Nat2Z.inj_succ.
    unfold set_db, set_tSubTask. cbn [db disk tUser tTag tTask tTaskTag tSubTask tFile
      tReminder rows lastrowid inline_rows].
    rewrite <- app_assoc. cbn [app].
    do 4 f_equal. lia.
Qed.

Lemma task_response_run (row : TaskRow) (w : World) :
  exists resp,
    task_response row w = (Ok resp, w)
    /\ TaskResponse_id resp = Task_id row
    /\ TaskResponse_user_id resp = Task_user_id row
    /\ TaskResponse_title resp = Task_title row
    /\ TaskResponse_description resp = Task_description row
    /\ TaskResponse_due_at resp = Task_due_at row
    /\ TaskResponse_status resp = Task_status row
    /\ TaskResponse_repeat_interval_minutes resp = Task_repeat_interval_minutes row
    /\ TaskResponse_subtasks_count resp
       = COUNT (fun r => SubTask_task_id r =? Task_id row) (tSubTask (db w))
    /\ fst (load_task_tags (Task_id row) w) = Ok (TaskResponse_tags resp).
Proof.
  eexists. unfold task_response, task_counters, load_task_tags. munfold. simpl.
  repeat split; reflexivity.
Qed.

Lemma filter_all {A : Type} (p : A -> bool) (l : list A) :
  (forall x, In x l -> p x = true) -> filter p l = l.
Proof.
  induction l as [| a l IH]; intros H; simpl; [reflexivity |].
  rewrite (H a (or_introl eq_refl)). f_equal. apply IH. intros x Hx. apply H. right. exact Hx.
Qed.

Lemma filter_none {A : Type} (p : A -> bool) (l : list A) :
  (forall x, In x l -> p x = false) -> filter p l = [].
Proof.
  induction l as [| a l IH]; intros H; simpl; [reflexivity |].
  rewrite (H a (or_introl eq_refl)). apply IH. intros x Hx. apply H. right. exact Hx.
Qed.

(** The acting-as rule of [create_task]: oneself, or for an admin any
    existing user. *)
Lemma create_task_target (user_id : option Z) (current : UserResponse) (w : World)
    (target : Z) :
  (user_id = None /\ target = UserResponse_id current)
  \/ (user_id = Some target /\ UserResponse_role current = ADMIN
      /\ is_some (user_by_id (db w) target) = true) ->
  match user_id with
  | None => ret (UserResponse_id current)
  | Some user_id =>
      if negb (UserRole_eqb (UserResponse_role current) ADMIN)
      then raise (HTTPException 403 "Admin access required for user_id")
      else
        u <- query (fun d => user_by_id d user_id) ;;
        if negb (is_some u)
        then raise (HTTPException 404 "Target user not found")
        else ret user_id
  end w = (Ok target, w).
Proof.
  intros [(-> & ->) | (-> & Hr & Hu)]; [reflexivity |].
  rewrite Hr. simpl. munfold. rewrite Hu. reflexivity.
Qed.

Lemma In_firstn {A : Type} (n : nat) (l : list A) (x : A) :
  In x (firstn n l) -> In x l.
Proof.
  revert l. induction n as [| n IH]; intros [| a l]; simpl; try tauto.
  intros [H | H]; [left; exact H | right; apply IH; exact H].
Qed.

Lemma inline_rows_title task_id user_id now last l :
  forall s, In s (inline_rows task_id user_id now last l) ->
    exists st, In st l /\ SubTask_title s = strip (SubTaskInlineCreate_title st).
Proof.
  revert last. induction l as [| st l IH]; intros last s; simpl; [intros [] |].
  intros [<- | H].
  - exists st. split; [left |]; reflexivity.
  - destruct (IH _ _ H) as (st' & Hin & Ht). exists st'. split; [right |]; assumption.
Qed.

(** C10.  When a task is created, the inline subtasks that become rows are
    the first 50 of the entries whose title is not empty, neither as it is
    given nor after [strip], in their order, each for the new task and its
    owner, with the stripped title; the other entries are dropped without
    an error, so no row with an empty title is stored.  With 60 entries,
    none with such an empty title, exactly the first 50 are stored. *)
Theorem create_task_inline_subtasks (env : Env) (data : TaskCreate) (user_id : option Z)
    (current : UserResponse) (w : World) (target : Z) :
  (user_id = None /\ target = UserResponse_id current)
  \/ (user_id = Some target /\ UserResponse_role current = ADMIN
      /\ is_some (user_by_id (db w) target) = true) ->
  user_ref_ok (db w) target ->
  ids_bounded (db w) ->
  (forall l, TaskCreate_tag_ids data = Some l ->
     (l <> [] -> bindable (target :: l))
     /\ unknown_tag_ids (db w) target l = []) ->
  let given := match TaskCreate_subtasks data with Some l => l | None => [] end in
  let titled := fun st =>
    negb (String.eqb (SubTaskInlineCreate_title st) "")
    && negb (String.eqb (strip (SubTaskInlineCreate_title st)) "") in
  let kept := firstn 50 (filter titled given) in
  let new_id := lastrowid (tTask (db w)) + 1 in
  exists resp w',
    create_task env data user_id current w = (Ok resp, w')
    /\ TaskResponse_id resp = new_id
    /\ TaskResponse_user_id resp = target
    /\ rows (tSubTask (db w'))
       = rows (tSubTask (db w))
         ++ inline_rows new_id target (CURRENT_TIMESTAMP env)
              (lastrowid (tSubTask (db w))) kept
    /\ (List.length kept <= 50)%nat
    /\ TaskResponse_subtasks_count resp = Z.of_nat (List.length kept)
    /\ (forall r, In r (rows (tSubTask (db w'))) ->
          In r (rows (tSubTask (db w)))
          \/ (SubTask_task_id r = new_id /\ SubTask_user_id r = target
              /\ SubTask_title r <> ""
              /\ exists st, In st given
                   /\ SubTaskInlineCreate_title st <> ""
                   /\ SubTask_title r = strip (SubTaskInlineCreate_title st)))
    /\ (List.length given = 60%nat ->
        (forall st, In st given ->
           SubTaskInlineCreate_title st <> ""
           /\ strip (SubTaskInlineCreate_title st) <> "") ->
        kept = firstn 50 given /\ List.length kept = 50%nat).
Proof.
  intros Htarget Hfk Hb Htags given titled kept new_id.
  unfold create_task.
  rewrite (bind_Ok _ _ _ _ _ (create_task_target user_id current w target Htarget)).
  (* the Task row *)
  set (task := {| Task_id := new_id; Task_user_id := target;
                  Task_title := strip (TaskCreate_title data);
                  Task_description := TaskCreate_description data;
                  Task_due_at := option_map isoformat (TaskCreate_due_at data);
                  Task_status := TaskCreate_status data;
                  Task_repeat_interval_minutes := TaskCreate_repeat_interval_minutes data;
                  Task_created_at := CURRENT_TIMESTAMP env;
                  Task_updated_at := CURRENT_TIMESTAMP env |}).
  set (d1 := set_tTask (db w)
               {| rows := rows (tTask (db w)) ++ [task]; lastrowid := new_id |}).
  assert (Hins : execute (INSERT_Task target (strip (TaskCreate_title data))
                    (TaskCreate_description data)
                    (option_map isoformat (TaskCreate_due_at data))
                    (TaskCreate_status data)
                    (TaskCreate_repeat_interval_minutes data)
                    (CURRENT_TIMESTAMP env)) w = (Ok new_id, set_db w d1)).
  { unfold execute, INSERT_Task. rewrite reference_ok_true by exact Hfk. reflexivity. }
  rewrite (bind_Ok _ _ _ _ _ Hins).
  assert (Hfind : task_by_id d1 new_id = Some task).
  { unfold task_by_id, fetchone. simpl. apply find_app_new.
    - intros y Hy. destruct Hb as (Ht & _). specialize (Ht y Hy).
      apply Z.eqb_neq. subst new_id. lia.
    - simpl. apply Z.eqb_refl. }
  (* the tags *)
  destruct (sync_task_tags_ok new_id target (TaskCreate_tag_ids data) (set_db w d1))
    as (links & Hsync & _).
  { intros l Hl Hne. apply bindable_binds. exact (proj1 (Htags l Hl) Hne). }
  { intros l Hl. exact (proj2 (Htags l Hl)). }
  { intros _. change (is_some (task_by_id d1 new_id) = true). rewrite Hfind. reflexivity. }
  rewrite (bind_Ok _ _ _ _ _ Hsync).
  (* the subtasks *)
  set (w2 := set_db (set_db w d1) (set_tTaskTag (db (set_db w d1)) links)).
  assert (Hloop :
    match TaskCreate_subtasks data with
    | None | Some [] => ret tt
    | Some l =>
        for_each (inline_subtasks l) (fun st =>
          _ <- execute (INSERT_SubTask new_id target
                          (strip (SubTaskInlineCreate_title st))
                          (if SubTaskInlineCreate_is_done st then 1 else 0)
                          (CURRENT_TIMESTAMP env)) ;;
          ret tt)
    end w2
    = (Ok tt, set_db w2 (set_tSubTask (db w2)
         {| rows := rows (tSubTask (db w2))
                    ++ inline_rows new_id target (CURRENT_TIMESTAMP env)
                         (lastrowid (tSubTask (db w2))) kept;
            lastrowid := lastrowid (tSubTask (db w2)) + Z.of_nat (List.length kept) |}))).
  { assert (Hgen := insert_subtasks_run env new_id target kept w2).
    rewrite <- Hgen.
    - subst kept given. destruct (TaskCreate_subtasks data) as [[| st l] |]; reflexivity.
    - intros Hf. split; [| exact (Hfk Hf)].
      change (is_some (task_by_id d1 new_id) = true). rewrite Hfind. reflexivity. }
  rewrite (bind_Ok _ _ _ _ _ Hloop).
  unfold query at 1.
  set (w3 := set_db w2 _).
  assert (Hfind3 : task_by_id (db w3) new_id = Some task) by exact Hfind.
  unfold bind at 1. rewrite Hfind3.
  unfold bind at 1. unfold expect, ret at 1.
  destruct (task_response_run task w3) as (resp & Hresp & Hid & Huid & _ & _ & _ & _ & _ & Hcnt & _).
  exists resp, w3. rewrite Hresp.
  split; [reflexivity |]. split; [exact Hid |]. split; [exact Huid |].
  split; [reflexivity |].
  assert (Hlen : (List.length kept <= 50)%nat).
  { subst kept. apply firstn_le_length. }
  split; [exact Hlen |]. split.
  - rewrite Hcnt. unfold COUNT, fetchall. simpl.
    rewrite filter_app, length_app.
    rewrite (filter_none _ (rows (tSubTask (db w)))).
    + rewrite filter_all.
      * simpl. rewrite inline_rows_length. reflexivity.
      * intros s Hs. apply inline_rows_task in Hs. destruct Hs as (-> & _).
        apply Z.eqb_refl.
    + intros s Hs. destruct Hb as (_ & Hsub & _). destruct (Hsub s Hs) as (_ & Hle).
      apply Z.eqb_neq. subst new_id. lia.
  - split.
    + intros r Hr. change (rows (tSubTask (db w3)))
        with (rows (tSubTask (db w))
              ++ inline_rows new_id target (CURRENT_TIMESTAMP env)
                   (lastrowid (tSubTask (db w))) kept) in Hr.
      apply in_app_or in Hr. destruct Hr as [Hr | Hr]; [left; exact Hr | right].
      destruct (inline_rows_task _ _ _ _ _ _ Hr) as (Ht & Hu).
      destruct (inline_rows_title _ _ _ _ _ _ Hr) as (st & Hst & Htitle).
      subst kept. apply In_firstn in Hst. apply filter_In in Hst.
      destruct Hst as (Hgiven & Hkeep). subst titled. cbv beta in Hkeep.
      apply andb_true_iff in Hkeep. destruct Hkeep as (H1 & H2).
      apply negb_true_iff in H1. apply negb_true_iff in H2.
      apply String.eqb_neq in H1. apply String.eqb_neq in H2.
      split; [exact Ht |]. split; [exact Hu |]. split; [rewrite Htitle; exact H2 |].
      exists st. repeat split; assumption.
    + intros H60 Hall. subst kept. rewrite filter_all.
      * split; [reflexivity |]. rewrite length_firstn, H60. reflexivity.
      * intros st Hst. destruct (Hall st Hst) as (H1 & H2). subst titled. cbv beta.
        apply String.eqb_neq in H1. apply String.eqb_neq in H2. rewrite H1, H2.
        reflexivity.
Qed.

(** *** The next occurrence of a repeating task *)

Lemma for_each_map {A B : Type} (f : A -> B) (body : B -> M unit) (l : list A) (w : World) :
  for_each l (fun x => body (f x)) w = for_each (map f l) body w.
Proof.
  revert w. induction l as [| a l IH]; intros w; simpl; [reflexivity |].
  unfold bind. destruct (body (f a) w) as [[[] | e] w1]; [apply IH | reflexivity].
Qed.

Lemma insert_sorted_In {R : Type} (le : R -> R -> bool) (x y : R) (l : list R) :
  In y (insert_sorted le x l) <-> y = x \/ In y l.
Proof.
  induction l as [| z l IH]; simpl.
  - intuition congruence.
  - destruct (le x z); simpl; [intuition congruence |].
    rewrite IH. intuition congruence.
Qed.

Lemma order_by_In {R : Type} (le : R -> R -> bool) (y : R) (l : list R) :
  In y (order_by le l) <-> In y l.
Proof.
  unfold order_by. induction l as [| x l IH]; simpl; [tauto |].
  rewrite insert_sorted_In, IH. intuition congruence.
Qed.

(** The tags that [load_task_tags] returns: the tags linked to the task. *)
Lemma load_task_tags_In (task_id : Z) (w : World) (l : list TagRow) :
  fst (load_task_tags task_id w) = Ok l ->
  forall t, In t l <-> In t (rows (tTag (db w))) /\ has_link (db w) task_id (Tag_id t) = true.
Proof.
  unfold load_task_tags, query. simpl. intros [= <-] t.
  rewrite order_by_In, in_flat_map. split.
  - intros (x & Hx & Ht). apply filter_In in Hx. destruct Hx as (Hx & Hid).
    apply filter_In in Ht. destruct Ht as (Ht & Hg).
    split; [exact Ht |]. apply has_link_In.
    apply Z.eqb_eq in Hid. apply Z.eqb_eq in Hg.
    destruct x; simpl in *; subst. exact Hx.
  - intros (Ht & Hl). apply has_link_In in Hl.
    eexists. split.
    + apply filter_In. split; [exact Hl |]. simpl. apply Z.eqb_refl.
    + apply filter_In. split; [exact Ht |]. simpl. apply Z.eqb_refl.
Qed.

Lemma bool_eq_iff (a b : bool) : (a = true <-> b = true) -> a = b.
Proof. destruct a, b; intros [H1 H2]; auto; try (symmetry; auto). Qed.

Lemma default_utc_representable (d : datetime) :
  representable d -> representable (default_utc d).
Proof. unfold default_utc. destruct (tzinfo d); tauto. Qed.

Lemma default_utc_add_minutes (d : datetime) (minutes : Z) :
  representable (add_minutes (default_utc d) minutes)
  <-> representable (add_minutes d minutes).
Proof. unfold default_utc. destruct (tzinfo d); tauto. Qed.

(** C7 (as the code has it).  For an actor allowed on the task: without an
    interval the answer is "Task is not repeating"; with an interval but
    without a due date it is "Task has no due_at"; both leave the store as
    it was.  With the interval M and a due date that reads as T, as long as
    T plus M minutes is a reading of the calendar, a new task is stored and
    returned: due at T plus M minutes (T taken as UTC when it carries no
    offset), status todo, with the title, description, owner and interval
    of the source, and linked by rows of its own to exactly the tags the
    source is linked to, whose rows, like those of every other task, stay
    as they were.  When T plus M minutes is past the calendar the addition
    raises [OverflowError] and nothing is stored. *)
Theorem generate_next_occurrence_copy (env : Env) (task_id : Z) (current : UserResponse)
    (w : World) (row : TaskRow) :
  task_by_id (db w) task_id = Some row ->
  canAccess (UserResponse_id current) (UserResponse_role current) (Task_user_id row) = true ->
  (Task_repeat_interval_minutes row = None ->
     generate_next_occurrence env task_id current w
     = (Raise (HTTPException 400
                 "Task is not repeating (repeat_interval_minutes is null)"), w))
  /\ (forall M, Task_repeat_interval_minutes row = Some M -> M <> 0 ->
       Task_due_at row = None ->
       generate_next_occurrence env task_id current w
       = (Raise (HTTPException 400
                   "Task has no due_at, cannot generate next occurrence"), w))
  /\ (forall M s T,
       Task_repeat_interval_minutes row = Some M -> M <> 0 ->
       Task_due_at row = Some s -> s <> "" -> fromisoformat s = Some T ->
       representable T ->
       representable (add_minutes T M) ->
       ids_bounded (db w) ->
       user_ref_ok (db w) (Task_user_id row) ->
       (forall g, has_link (db w) task_id g = true -> tag_ref_ok (db w) g) ->
       exists resp w',
         generate_next_occurrence env task_id current w = (Ok resp, w')
         /\ TaskResponse_id resp = lastrowid (tTask (db w)) + 1
         /\ TaskResponse_due_at resp = Some (isoformat (add_minutes (default_utc T) M))
         /\ TaskResponse_status resp = TODO
         /\ TaskResponse_title resp = Task_title row
         /\ TaskResponse_description resp = Task_description row
         /\ TaskResponse_user_id resp = Task_user_id row
         /\ TaskResponse_repeat_interval_minutes resp = Some M
         /\ (exists created,
               task_by_id (db w') (TaskResponse_id resp) = Some created
               /\ Task_due_at created = TaskResponse_due_at resp
               /\ Task_status created = TODO
               /\ Task_user_id created = Task_user_id row)
         /\ (forall g, has_link (db w') (TaskResponse_id resp) g = has_link (db w) task_id g)
         /\ (forall a g, a <> TaskResponse_id resp ->
               has_link (db w') a g = has_link (db w) a g)
         /\ (forall t, In t (TaskResponse_tags resp) <->
               In t (rows (tTag (db w))) /\ has_link (db w) task_id (Tag_id t) = true))
  /\ (forall M s T,
       Task_repeat_interval_minutes row = Some M -> M <> 0 ->
       Task_due_at row = Some s -> s <> "" -> fromisoformat s = Some T ->
       ~ representable (add_minutes T M) ->
       generate_next_occurrence env task_id current w
       = (Raise (Exception "OverflowError"), w)).
Proof.
  intros Hrow Hacc.
  split; [| split; [| split]].
  - intros Hnone. unfold generate_next_occurrence.
    unfold bind at 1. unfold query at 1. rewrite Hrow.
    unfold bind at 1. rewrite ensure_task_access_canAccess, Hacc.
    rewrite Hnone. reflexivity.
  - intros M HM HM0 Hdue. unfold generate_next_occurrence.
    unfold bind at 1. unfold query at 1. rewrite Hrow.
    unfold bind at 1. rewrite ensure_task_access_canAccess, Hacc.
    rewrite HM, Hdue. simpl. destruct (Z.eqb_spec M 0); [contradiction | reflexivity].
  - intros M s T HM HM0 Hs Hs0 HT HrT Hsum Hb Hfk Htags. unfold generate_next_occurrence.
    unfold bind at 1. unfold query at 1. rewrite Hrow.
    unfold bind at 1. rewrite ensure_task_access_canAccess, Hacc.
    rewrite HM, Hs. unfold truthy_int, truthy_str.
    destruct (Z.eqb_spec M 0); [contradiction |].
    destruct (String.eqb_spec s ""); [contradiction |].
    cbn [negb]. rewrite HT.
    unfold bind at 1. unfold ret at 1. cbv beta.
    unfold bind at 1. unfold lift at 1.
    rewrite plus_minutes_within;
      [| apply default_utc_representable; exact HrT
       | apply default_utc_add_minutes; exact Hsum].
    set (new_id := lastrowid (tTask (db w)) + 1).
    set (task := {| Task_id := new_id; Task_user_id := Task_user_id row;
                    Task_title := Task_title row;
                    Task_description := Task_description row;
                    Task_due_at := Some (isoformat (add_minutes (default_utc T) M));
                    Task_status := TODO;
                    Task_repeat_interval_minutes := Some M;
                    Task_created_at := CURRENT_TIMESTAMP env;
                    Task_updated_at := CURRENT_TIMESTAMP env |}).
    set (d1 := set_tTask (db w)
                 {| rows := rows (tTask (db w)) ++ [task]; lastrowid := new_id |}).
    assert (Hins : execute (INSERT_Task (Task_user_id row) (Task_title row)
                      (Task_description row)
                      (Some (isoformat (add_minutes (default_utc T) M))) TODO
                      (Some M) (CURRENT_TIMESTAMP env)) w = (Ok new_id, set_db w d1)).
    { unfold execute, INSERT_Task. rewrite reference_ok_true by exact Hfk. reflexivity. }
    rewrite (bind_Ok _ _ _ _ _ Hins).
    assert (Hfind : task_by_id d1 new_id = Some task).
    { unfold task_by_id, fetchone. simpl. apply find_app_new.
      - intros y Hy. destruct Hb as (Ht & _). specialize (Ht y Hy).
        apply Z.eqb_neq. subst new_id. lia.
      - simpl. apply Z.eqb_refl. }
    unfold bind at 1. unfold query at 1.
    change (tTaskTag (db (set_db w d1))) with (tTaskTag (db w)).
    set (src := filter (fun l => TaskTag_task_id l =? task_id) (tTaskTag (db w))).
    destruct (insert_links_run new_id (map TaskTag_tag_id src) (set_db w d1))
      as (links & Hrun & Hin).
    { intros Hf. split.
      - change (is_some (task_by_id d1 new_id) = true). rewrite Hfind. reflexivity.
      - intros g Hg. apply in_map_iff in Hg. destruct Hg as (x & <- & Hx).
        apply filter_In in Hx. destruct Hx as (Hx & Hid). apply Z.eqb_eq in Hid.
        change (is_some (tag_by_id (db w) (TaskTag_tag_id x)) = true).
        apply Htags; [| exact Hf]. apply has_link_In.
        destruct x; simpl in *; subst. exact Hx. }
    rewrite <- for_each_map in Hrun.
    unfold bind at 1. rewrite Hrun.
    set (w3 := set_db (set_db w d1) _).
    unfold bind at 1. unfold query at 1.
    assert (Hfind3 : task_by_id (db w3) new_id = Some task) by exact Hfind.
    rewrite Hfind3. unfold bind at 1. unfold expect, ret at 1.
    destruct (task_response_run task w3)
      as (resp & Hresp & Hid & Huid & Htitle & Hdesc & Hdue & Hst & Hrep & _ & Hload).
    assert (Hlinks : forall a g,
      has_link (db w3) a g
      = if a =? new_id then has_link (db w) task_id g else has_link (db w) a g).
    { intros a g. apply bool_eq_iff. rewrite has_link_In.
      change (tTaskTag (db w3)) with links. rewrite Hin. simpl.
      change (tTaskTag (db (set_db w d1))) with (tTaskTag (db w)).
      destruct (Z.eqb_spec a new_id) as [-> | Hne].
      - rewrite has_link_In. split.
        + intros [Hold | (_ & Hg)].
          * destruct Hb as (_ & _ & _ & _ & Hl). specialize (Hl _ Hold).
            simpl in Hl. subst new_id. lia.
          * apply in_map_iff in Hg. destruct Hg as (x & Hx & Hsrc).
            apply filter_In in Hsrc. destruct Hsrc as (Hsrc & Hxid).
            apply Z.eqb_eq in Hxid. destruct x; simpl in *; subst. exact Hsrc.
        + intros Hsrc. right. split; [reflexivity |].
          apply in_map_iff. eexists. split; [| apply filter_In; split; [exact Hsrc |]].
          * reflexivity.
          * simpl. apply Z.eqb_refl.
      - rewrite has_link_In. split; [| tauto].
        intros [Hold | (Ha & _)]; [exact Hold | contradiction]. }
    exists resp, w3. rewrite Hresp.
    split; [reflexivity |]. split; [exact Hid |]. split; [rewrite Hdue; reflexivity |].
    split; [exact Hst |]. split; [exact Htitle |]. split; [exact Hdesc |].
    split; [exact Huid |]. split; [exact Hrep |].
    rewrite Hid. change (Task_id task) with new_id.
    split; [| split; [| split]].
    + exists task. rewrite Hdue. repeat split; try reflexivity. exact Hfind3.
    + intros g. rewrite Hlinks, Z.eqb_refl. reflexivity.
    + intros a g Ha. rewrite Hlinks. destruct (Z.eqb_spec a new_id); [contradiction |].
      reflexivity.
    + intros t. rewrite (load_task_tags_In _ _ _ Hload t).
      change (Task_id task) with new_id. rewrite Hlinks, Z.eqb_refl.
      change (tTag (db w3)) with (tTag (db w)). tauto.
  - intros M s T HM HM0 Hs Hs0 HT Hsum. unfold generate_next_occurrence.
    unfold bind at 1. unfold query at 1. rewrite Hrow.
    unfold bind at 1. rewrite ensure_task_access_canAccess, Hacc.
    rewrite HM, Hs. unfold truthy_int, truthy_str.
    destruct (Z.eqb_spec M 0); [contradiction |].
    destruct (String.eqb_spec s ""); [contradiction |].
    cbn [negb]. rewrite HT.
    unfold bind at 1. unfold ret at 1. cbv beta.
    unfold bind at 1. unfold lift at 1.
    rewrite plus_minutes_beyond; [reflexivity |].
    intros H. apply Hsum. apply default_utc_add_minutes. exact H.
Qed.

(** *** The ownership invariant *)

Lemma store_inv_tables_iff (d : DB) : store_inv d <-> store_inv_tables d.
Proof.
  unfold store_inv, child_owner_inv, ids_bounded, store_inv_tables, children_ok,
    refs_ok, tasks_bounded, links_bounded, task_by_id.
  split.
  - intros ((Hs & Hf & Hr) & (Hbt & Hbs & Hbf & Hbr & Hbl)).
    repeat split; try assumption;
      try (intros; first [eapply Hbs | eapply Hbf | eapply Hbr]; eassumption);
      intros; first [eapply Hs | eapply Hf | eapply Hr]; eassumption.
  - intros (Hbt & Hs & Hf & Hr & Hbl).
    repeat split; try assumption;
      intros; first [eapply Hs | eapply Hf | eapply Hr]; eassumption.
Qed.

Lemma store_inv_empty : store_inv empty_db.
Proof.
  apply store_inv_tables_iff. unfold store_inv_tables, tasks_bounded, children_ok,
    links_bounded. simpl. repeat split; intros; contradiction.
Qed.

Lemma find_map_same {R : Type} (q : R -> bool) (p : R -> bool) (f : R -> R) (l : list R) :
  (forall r, q (f r) = q r) ->
  find q (map (fun r => if p r then f r else r) l)
  = option_map (fun r => if p r then f r else r) (find q l).
Proof.
  intros Hq. induction l as [| a l IH]; simpl; [reflexivity |].
  destruct (p a) eqn:Ep.
  - rewrite Hq. destruct (q a); simpl; [rewrite Ep; reflexivity | exact IH].
  - destruct (q a); simpl; [rewrite Ep; reflexivity | exact IH].
Qed.

Lemma find_filter_same {R : Type} (q keep : R -> bool) (l : list R) :
  (forall r, In r l -> q r = true -> keep r = true) ->
  find q (filter keep l) = find q l.
Proof.
  induction l as [| a l IH]; intros H; simpl; [reflexivity |].
  destruct (keep a) eqn:Ek; simpl.
  - destruct (q a); [reflexivity |]. apply IH. intros r Hr. apply H. right. exact Hr.
  - destruct (q a) eqn:Eq.
    + rewrite (H a (or_introl eq_refl) Eq) in Ek. discriminate.
    + apply IH. intros r Hr. apply H. right. exact Hr.
Qed.

(** A new task leaves every reference that was fine, fine. *)
Lemma refs_ok_insert_task (tasks : Table TaskRow) (mk : Z -> TaskRow) (tid uid : Z) :
  (forall i, Task_id (mk i) = i) ->
  refs_ok tasks tid uid ->
  refs_ok (snd (insert_row mk tasks)) tid uid.
Proof.
  intros Hmk (Hle & Hown). unfold refs_ok, insert_row, fetchone in *. simpl. split; [lia |].
  intros t Ht. apply Hown. rewrite find_app_old in Ht; [exact Ht |].
  rewrite Hmk. apply Z.eqb_neq. lia.
Qed.

Lemma refs_ok_update_task (tasks : Table TaskRow) (p : TaskRow -> bool)
    (f : TaskRow -> TaskRow) (tid uid : Z) :
  (forall t, Task_id (f t) = Task_id t /\ Task_user_id (f t) = Task_user_id t) ->
  refs_ok tasks tid uid ->
  refs_ok (update_rows p f tasks) tid uid.
Proof.
  intros Hf (Hle & Hown). unfold refs_ok, update_rows, fetchone in *. simpl.
  split; [exact Hle |]. intros t Ht.
  rewrite find_map_same in Ht by (intros r; rewrite (proj1 (Hf r)); reflexivity).
  destruct (find _ (rows tasks)) as [y |] eqn:E; [| discriminate].
  simpl in Ht. injection Ht as <-. rewrite (Hown y eq_refl).
  destruct (p y); [symmetry; apply Hf | reflexivity].
Qed.

Lemma refs_ok_delete_tasks (tasks : Table TaskRow) (p : TaskRow -> bool) (tid uid : Z) :
  mem_int tid (map Task_id (filter p (rows tasks))) = false ->
  refs_ok tasks tid uid ->
  refs_ok (delete_rows p tasks) tid uid.
Proof.
  intros Hgone (Hle & Hown). unfold refs_ok, delete_rows, fetchone in *. simpl.
  split; [exact Hle |]. intros t Ht. apply Hown.
  rewrite find_filter_same in Ht; [exact Ht |].
  intros r Hr Hid. apply Z.eqb_eq in Hid.
  destruct (p r) eqn:Ep; [| reflexivity].
  assert (Hin : mem_int tid (map Task_id (filter p (rows tasks))) = true).
  { unfold mem_int. apply existsb_exists. exists tid. split; [| apply Z.eqb_refl].
    apply in_map_iff. exists r. split; [exact Hid |]. apply filter_In. split; assumption. }
  congruence.
Qed.

Section Children.

Context {R : Type} (id task_id user_id : R -> Z).

Lemma children_ok_tasks (tasks tasks' : Table TaskRow) (t : Table R) :
  (forall r, In r (rows t) ->
     refs_ok tasks (task_id r) (user_id r) -> refs_ok tasks' (task_id r) (user_id r)) ->
  children_ok id task_id user_id tasks t ->
  children_ok id task_id user_id tasks' t.
Proof.
  intros H Hc r Hr. destruct (Hc r Hr) as (Hid & Href). split; [exact Hid |].
  apply H; assumption.
Qed.

Lemma children_ok_insert (tasks : Table TaskRow) (t : Table R) (mk : Z -> R) :
  (forall i, id (mk i) = i) ->
  refs_ok tasks (task_id (mk (lastrowid t + 1))) (user_id (mk (lastrowid t + 1))) ->
  children_ok id task_id user_id tasks t ->
  children_ok id task_id user_id tasks (snd (insert_row mk t)).
Proof.
  intros Hmk Hnew Hc r Hr. unfold insert_row in *. simpl in *.
  apply in_app_or in Hr. destruct Hr as [Hr | [<- | []]].
  - destruct (Hc r Hr) as (Hid & Href). split; [lia | exact Href].
  - rewrite Hmk. split; [lia | exact Hnew].
Qed.

Lemma children_ok_delete (tasks : Table TaskRow) (t : Table R) (p : R -> bool) :
  children_ok id task_id user_id tasks t ->
  children_ok id task_id user_id tasks (delete_rows p t).
Proof.
  intros Hc r Hr. unfold delete_rows in Hr. simpl in *.
  apply filter_In in Hr. apply Hc. tauto.
Qed.

Lemma children_ok_update (tasks : Table TaskRow) (t : Table R) (p : R -> bool)
    (f : R -> R) :
  (forall r, id (f r) = id r /\ task_id (f r) = task_id r /\ user_id (f r) = user_id r) ->
  children_ok id task_id user_id tasks t ->
  children_ok id task_id user_id tasks (update_rows p f t).
Proof.
  intros Hf Hc r Hr. unfold update_rows in Hr. simpl in *.
  apply in_map_iff in Hr. destruct Hr as (x & <- & Hx).
  destruct (Hc x Hx) as (Hid & Href).
  destruct (p x); [| tauto].
  destruct (Hf x) as (-> & -> & ->). tauto.
Qed.

(** Deleting tasks together with the rows that hang on them. *)
Lemma children_ok_cascade (tasks : Table TaskRow) (t : Table R) (p : TaskRow -> bool) :
  children_ok id task_id user_id tasks t ->
  children_ok id task_id user_id (delete_rows p tasks)
    (delete_rows (fun r => mem_int (task_id r) (map Task_id (filter p (rows tasks)))) t).
Proof.
  intros Hc r Hr. unfold delete_rows in Hr at 1. simpl in Hr.
  apply filter_In in Hr. destruct Hr as (Hr & Hkeep). apply negb_true_iff in Hkeep.
  destruct (Hc r Hr) as (Hid & Href). split; [exact Hid |].
  apply refs_ok_delete_tasks; assumption.
Qed.

End Children.

(** Each kind of write keeps the invariant. *)

Ltac split5 := split; [| split; [| split; [| split]]].

Lemma inv_insert_task (d : DB) (mk : Z -> TaskRow) :
  (forall i, Task_id (mk i) = i) ->
  store_inv_tables d ->
  store_inv_tables (set_tTask d (snd (insert_row mk (tTask d))))
  /\ refs_ok (snd (insert_row mk (tTask d))) (lastrowid (tTask d) + 1)
       (Task_user_id (mk (lastrowid (tTask d) + 1))).
Proof.
  intros Hmk (Hbt & Hs & Hf & Hr & Hbl). split.
  - unfold store_inv_tables. simpl.
    split5.
    + intros t Ht. apply in_app_or in Ht. destruct Ht as [Ht | [<- | []]].
      * specialize (Hbt t Ht). simpl. lia.
      * rewrite Hmk. simpl. lia.
    + revert Hs. apply children_ok_tasks. intros. apply refs_ok_insert_task; assumption.
    + revert Hf. apply children_ok_tasks. intros. apply refs_ok_insert_task; assumption.
    + revert Hr. apply children_ok_tasks. intros. apply refs_ok_insert_task; assumption.
    + intros l Hl. specialize (Hbl l Hl). simpl. lia.
  - unfold refs_ok, fetchone. simpl. split; [lia |]. intros t Ht.
    rewrite find_app_new in Ht.
    + injection Ht as <-. reflexivity.
    + intros y Hy. specialize (Hbt y Hy). apply Z.eqb_neq. lia.
    + rewrite Hmk. apply Z.eqb_refl.
Qed.

Lemma inv_update_task (d : DB) (p : TaskRow -> bool) (f : TaskRow -> TaskRow) :
  (forall t, Task_id (f t) = Task_id t /\ Task_user_id (f t) = Task_user_id t) ->
  store_inv_tables d ->
  store_inv_tables (set_tTask d (update_rows p f (tTask d))).
Proof.
  intros Hf (Hbt & Hs & Hfl & Hr & Hbl). unfold store_inv_tables. simpl.
  split5.
  - intros t Ht. apply in_map_iff in Ht. destruct Ht as (x & <- & Hx).
    specialize (Hbt x Hx). destruct (p x); [rewrite (proj1 (Hf x)) |]; exact Hbt.
  - revert Hs. apply children_ok_tasks. intros. apply refs_ok_update_task; assumption.
  - revert Hfl. apply children_ok_tasks. intros. apply refs_ok_update_task; assumption.
  - revert Hr. apply children_ok_tasks. intros. apply refs_ok_update_task; assumption.
  - exact Hbl.
Qed.

Lemma inv_delete_tasks (d : DB) (p : TaskRow -> bool) :
  store_inv_tables d -> store_inv_tables (DELETE_Task_where p d).
Proof.
  intros (Hbt & Hs & Hf & Hr & Hbl). unfold store_inv_tables, DELETE_Task_where. simpl.
  split5.
  - intros t Ht. apply filter_In in Ht. apply Hbt. tauto.
  - apply (children_ok_cascade _ _ _ _ _ p Hs).
  - apply (children_ok_cascade _ _ _ _ _ p Hf).
  - apply (children_ok_cascade _ _ _ _ _ p Hr).
  - intros l Hl. apply filter_In in Hl. apply Hbl. tauto.
Qed.

Lemma inv_set_links (d : DB) (links : list TaskTagRow) :
  links_bounded (tTask d) links ->
  store_inv_tables d -> store_inv_tables (set_tTaskTag d links).
Proof. intros Hl (Hbt & Hs & Hf & Hr & _). split5; assumption. Qed.

Lemma inv_set_tUser (d : DB) t : store_inv_tables d -> store_inv_tables (set_tUser d t).
Proof. intros H. exact H. Qed.

Lemma inv_set_tTag (d : DB) t : store_inv_tables d -> store_inv_tables (set_tTag d t).
Proof. intros H. exact H. Qed.

Lemma inv_set_tSubTask (d : DB) t :
  children_ok SubTask_id SubTask_task_id SubTask_user_id (tTask d) t ->
  store_inv_tables d -> store_inv_tables (set_tSubTask d t).
Proof. intros Hc (Hbt & _ & Hf & Hr & Hl). split5; assumption. Qed.

Lemma inv_set_tFile (d : DB) t :
  children_ok File_id File_task_id File_user_id (tTask d) t ->
  store_inv_tables d -> store_inv_tables (set_tFile d t).
Proof. intros Hc (Hbt & Hs & _ & Hr & Hl). split5; assumption. Qed.

Lemma inv_set_tReminder (d : DB) t :
  children_ok Reminder_id Reminder_task_id Reminder_user_id (tTask d) t ->
  store_inv_tables d -> store_inv_tables (set_tReminder d t).
Proof. intros Hc (Hbt & Hs & Hf & _ & Hl). split5; assumption. Qed.

Lemma inv_delete_tags (d : DB) (p : TagRow -> bool) :
  store_inv_tables d -> store_inv_tables (DELETE_Tag_where p d).
Proof.
  intros H. unfold DELETE_Tag_where. apply inv_set_links; [| exact H].
  intros l Hl. apply filter_In in Hl. destruct H as (_ & _ & _ & _ & Hb). apply Hb. tauto.
Qed.

Lemma inv_delete_user (d : DB) (user_id : Z) :
  store_inv_tables d -> store_inv_tables (DELETE_User user_id d).
Proof.
  intros H. unfold DELETE_User. destruct (is_some _); [| exact H].
  apply inv_set_tUser, inv_delete_tags, inv_delete_tasks, H.
Qed.

(** The reference a handler has just looked up. *)
Lemma refs_ok_found (d : DB) (task_id : Z) (task : TaskRow) :
  store_inv_tables d ->
  task_by_id d task_id = Some task ->
  refs_ok (tTask d) task_id (Task_user_id task).
Proof.
  intros (Hbt & _) Hfind. split.
  - unfold task_by_id, fetchone in Hfind. apply find_some in Hfind.
    destruct Hfind as (Hin & Hid). apply Z.eqb_eq in Hid. rewrite <- Hid. apply Hbt, Hin.
  - intros t Ht. unfold task_by_id in Hfind. congruence.
Qed.

Lemma inv_INSERT_Task user_id title description due_at status rim now (d d' : DB) (i : Z) :
  store_inv_tables d ->
  INSERT_Task user_id title description due_at status rim now d = Some (i, d') ->
  store_inv_tables d' /\ refs_ok (tTask d') i user_id /\ i = lastrowid (tTask d) + 1.
Proof.
  intros H. unfold INSERT_Task. destruct (negb _); [discriminate |].
  intros [= <- <-].
  destruct (inv_insert_task d (fun i =>
    {| Task_id := i; Task_user_id := user_id; Task_title := title;
       Task_description := description; Task_due_at := due_at; Task_status := status;
       Task_repeat_interval_minutes := rim; Task_created_at := now;
       Task_updated_at := now |}) (fun i => eq_refl) H) as (H1 & H2).
  split; [exact H1 |]. split; [exact H2 | reflexivity].
Qed.

Lemma inv_INSERT_SubTask task_id user_id title is_done now (d d' : DB) (i : Z) :
  store_inv_tables d ->
  refs_ok (tTask d) task_id user_id ->
  INSERT_SubTask task_id user_id title is_done now d = Some (i, d') ->
  store_inv_tables d' /\ tTask d' = tTask d.
Proof.
  intros H Href. unfold INSERT_SubTask. destruct (negb _); [discriminate |].
  intros [= <- <-]. split; [| reflexivity].
  apply inv_set_tSubTask; [| exact H].
  apply (children_ok_insert SubTask_id SubTask_task_id SubTask_user_id (tTask d)
           (tSubTask d) (fun i =>
             {| SubTask_id := i; SubTask_task_id := task_id; SubTask_user_id := user_id;
                SubTask_title := title; SubTask_is_done := is_done;
                SubTask_created_at := now; SubTask_updated_at := now |}));
    [reflexivity | exact Href | apply H].
Qed.

Lemma inv_INSERT_File task_id user_id filename content_type size path now
    (d d' : DB) (i : Z) :
  store_inv_tables d ->
  refs_ok (tTask d) task_id user_id ->
  INSERT_File task_id user_id filename content_type size path now d = Some (i, d') ->
  store_inv_tables d'.
Proof.
  intros H Href. unfold INSERT_File. destruct (negb _); [discriminate |].
  intros [= <- <-].
  apply inv_set_tFile; [| exact H].
  apply (children_ok_insert File_id File_task_id File_user_id (tTask d) (tFile d)
           (fun i =>
             {| File_id := i; File_task_id := task_id; File_user_id := user_id;
                File_filename := filename; File_content_type := content_type;
                File_size_bytes := size; File_storage_path := path;
                File_created_at := now |}));
    [reflexivity | exact Href | apply H].
Qed.

Lemma inv_INSERT_Reminder task_id user_id every start_at end_at enabled next now
    (d d' : DB) (i : Z) :
  store_inv_tables d ->
  refs_ok (tTask d) task_id user_id ->
  INSERT_Reminder task_id user_id every start_at end_at enabled next now d = Some (i, d') ->
  store_inv_tables d'.
Proof.
  intros H Href. unfold INSERT_Reminder. destruct (negb _); [discriminate |].
  intros [= <- <-].
  apply inv_set_tReminder; [| exact H].
  apply (children_ok_insert Reminder_id Reminder_task_id Reminder_user_id (tTask d)
           (tReminder d) (fun i =>
             {| Reminder_id := i; Reminder_task_id := task_id; Reminder_user_id := user_id;
                Reminder_every_minutes := every; Reminder_start_at := start_at;
                Reminder_end_at := end_at; Reminder_is_enabled := enabled;
                Reminder_next_run_at := Some next; Reminder_created_at := now |}));
    [reflexivity | exact Href | apply H].
Qed.

Lemma inv_INSERT_OR_IGNORE_TaskTag task_id tag_id (d d' : DB) :
  store_inv_tables d ->
  task_id <= lastrowid (tTask d) ->
  INSERT_OR_IGNORE_TaskTag task_id tag_id d = Some (tt, d') ->
  store_inv_tables d' /\ tTask d' = tTask d.
Proof.
  intros H Hle. unfold INSERT_OR_IGNORE_TaskTag. destruct (negb _); [discriminate |].
  destruct (has_link d task_id tag_id); intros [= <-]; [split; [exact H | reflexivity] |].
  split; [| reflexivity]. apply inv_set_links; [| exact H].
  intros l Hl. apply in_app_or in Hl. destruct Hl as [Hl | [<- | []]]; [| exact Hle].
  destruct H as (_ & _ & _ & _ & Hb). apply Hb, Hl.
Qed.

(** Computations that only read. *)

Lemma readonly_ret {A : Type} (a : A) : readonly (ret a).
Proof. intros w. reflexivity. Qed.

Lemma readonly_raise {A : Type} (e : Failure) : readonly (@raise P A e).
Proof. intros w. reflexivity. Qed.

Lemma readonly_query {A : Type} (f : DB -> A) : readonly (query f).
Proof. intros w. reflexivity. Qed.

Lemma readonly_query_bound {A : Type} (params : list Z) (f : DB -> A) :
  readonly (query_bound params f).
Proof. intros w. unfold query_bound. destruct (binds params); reflexivity. Qed.

Lemma readonly_lift {A : Type} (r : Result A) : readonly (@lift P A r).
Proof. intros w. reflexivity. Qed.

Lemma readonly_expect {A : Type} (o : option A) : readonly (expect o).
Proof. intros w. destruct o; reflexivity. Qed.

Lemma readonly_os_path_exists (path : string) : readonly (os_path_exists path).
Proof. intros w. reflexivity. Qed.

Lemma readonly_bind {A B : Type} (m : M A) (k : A -> M B) :
  readonly m -> (forall a, readonly (k a)) -> readonly (bind m k).
Proof.
  intros Hm Hk w. unfold bind. specialize (Hm w).
  destruct (m w) as [[a | e] w1]; simpl in Hm; subst w1; [apply Hk | reflexivity].
Qed.

Lemma readonly_ensure_task_access (o : Z) (current : UserResponse) :
  readonly (ensure_task_access o current).
Proof.
  intros w. rewrite ensure_task_access_canAccess. destruct (canAccess _ _ _); reflexivity.
Qed.

Lemma readonly_get_current_admin (current : UserResponse) :
  readonly (get_current_admin current).
Proof. intros w. unfold get_current_admin. destruct (negb _); reflexivity. Qed.

Lemma readonly_Query loc default ge le raw : readonly (Query loc default ge le raw).
Proof.
  intros w. unfold Query. destruct raw; [| reflexivity].
  destruct (_ && _); reflexivity.
Qed.

Ltac ro :=
  repeat first
    [ assumption
    | apply readonly_ret | apply readonly_raise | apply readonly_query
    | apply readonly_query_bound | apply readonly_lift
    | apply readonly_expect | apply readonly_os_path_exists
    | apply readonly_ensure_task_access | apply readonly_get_current_admin
    | apply readonly_Query
    | apply readonly_bind; [| intros ?]
    | match goal with
      | |- readonly (match ?x with _ => _ end) => destruct x
      end ].

Lemma readonly_task_response (row : TaskRow) : readonly (task_response row).
Proof. unfold task_response, task_counters, load_task_tags. ro. Qed.

Lemma readonly_sync_check (owner_id : Z) (tag_ids : list Z) :
  readonly
    (match tag_ids with
     | [] => ret tt
     | _ :: _ =>
         existing <- query_bound (owner_id :: tag_ids) (fun d =>
           fetchall (fun t => (Tag_user_id t =? owner_id)
                              && mem_int (Tag_id t) tag_ids) (tTag d)) ;;
         match filter (fun tid => negb (mem_int tid (map Tag_id existing))) tag_ids with
         | [] => ret tt
         | _ :: _ =>
             raise (HTTPException 400
               ("Unknown tag_ids for this user: "
                ++ repr_int_list
                     (filter (fun tid => negb (mem_int tid (map Tag_id existing))) tag_ids)))
         end
     end).
Proof. ro. Qed.

(** Keeping a property of the store. *)

Lemma preserves_readonly {A : Type} (I : DB -> Prop) (m : M A) :
  readonly m -> preserves I m.
Proof. intros Hm w Hw. rewrite Hm. exact Hw. Qed.

Lemma preserves_bind {A B : Type} (I : DB -> Prop) (m : M A) (k : A -> M B) :
  preserves I m -> (forall a, preserves I (k a)) -> preserves I (bind m k).
Proof.
  intros Hm Hk w Hw. unfold bind. specialize (Hm w Hw).
  destruct (m w) as [[a | e] w1]; simpl in *; [apply Hk; exact Hm | exact Hm].
Qed.

Lemma preserves_execute {A : Type} (I : DB -> Prop) (f : DB -> option (A * DB)) :
  (forall d a d', I d -> f d = Some (a, d') -> I d') -> preserves I (execute f).
Proof.
  intros Hf w Hw. unfold execute. destruct (f (db w)) as [[a d'] |] eqn:E; simpl.
  - eapply Hf; eassumption.
  - exact Hw.
Qed.

Lemma preserves_execute_ (I : DB -> Prop) (f : DB -> DB) :
  (forall d, I d -> I (f d)) -> preserves I (execute_ f).
Proof.
  intros Hf. unfold execute_. apply preserves_execute.
  intros d a d' Hd [= _ <-]. apply Hf, Hd.
Qed.

Lemma preserves_for_each {A : Type} (I : DB -> Prop) (body : A -> M unit) (l : list A) :
  (forall x, preserves I (body x)) -> preserves I (for_each l body).
Proof.
  intros Hb. induction l as [| x l IH]; simpl.
  - apply preserves_readonly, readonly_ret.
  - apply preserves_bind; [apply Hb | intros _; exact IH].
Qed.

Lemma preserves_when (I : DB -> Prop) (b : bool) (m : M unit) :
  preserves I m -> preserves I (when b m).
Proof.
  intros Hm. unfold when. destruct b; [exact Hm |].
  apply preserves_readonly, readonly_ret.
Qed.

Lemma preserves_remove_if_exists (I : DB -> Prop) (env : Env) (path : string) :
  preserves I (remove_if_exists env path).
Proof.
  intros w Hw. destruct (remove_if_exists_run env path w) as (k & -> & _). exact Hw.
Qed.

Lemma sync_task_tags_keeps (task_id owner_id user_id : Z) (tag_ids : option (list Z)) :
  preserves (inv_with task_id user_id) (sync_task_tags task_id owner_id tag_ids).
Proof.
  unfold sync_task_tags. destruct tag_ids as [l |];
    [| apply preserves_readonly, readonly_ret].
  apply preserves_bind; [apply preserves_readonly, readonly_sync_check | intros _].
  apply preserves_bind; [| intros _].
  - apply preserves_execute_. intros d (Hd & Href). split; [| exact Href].
    apply inv_set_links; [| exact Hd].
    intros x Hx. apply filter_In in Hx. destruct Hd as (_ & _ & _ & _ & Hb).
    apply Hb. tauto.
  - apply preserves_for_each. intros g. apply preserves_execute.
    intros d [] d' (Hd & Href) E.
    destruct (inv_INSERT_OR_IGNORE_TaskTag task_id g d d' Hd (proj1 Href) E) as (H1 & H2).
    split; [exact H1 | rewrite H2; exact Href].
Qed.

Lemma insert_subtasks_keeps (env : Env) (task_id user_id : Z)
    (l : list SubTaskInlineCreate) :
  preserves (inv_with task_id user_id)
    (for_each l (fun st =>
       _ <- execute (INSERT_SubTask task_id user_id
                       (strip (SubTaskInlineCreate_title st))
                       (if SubTaskInlineCreate_is_done st then 1 else 0)
                       (CURRENT_TIMESTAMP env)) ;;
       ret tt)).
Proof.
  apply preserves_for_each. intros st.
  apply preserves_bind; [| intros ?; apply preserves_readonly, readonly_ret].
  apply preserves_execute. intros d i d' (Hd & Href) E.
  destruct (inv_INSERT_SubTask _ _ _ _ _ d d' i Hd Href E) as (H1 & H2).
  split; [exact H1 | rewrite H2; exact Href].
Qed.

Lemma preserves_try_except {A : Type} (I : DB -> Prop) (body : M A)
    (handler : Failure -> M A) :
  preserves I body -> (forall e, preserves I (handler e)) ->
  preserves I (try_except body handler).
Proof.
  intros Hb Hh w Hw. unfold try_except. specialize (Hb w Hw).
  destruct (body w) as [[a | e] w1]; simpl in *; [exact Hb | apply Hh; exact Hb].
Qed.

Lemma preserves_bind_query {A B : Type} (I : DB -> Prop) (f : DB -> A) (k : A -> M B) :
  (forall w, I (db w) -> I (db (snd (k (f (db w)) w)))) ->
  preserves I (bind (query f) k).
Proof. intros H w Hw. exact (H w Hw). Qed.

Lemma preserves_bind_execute {A B : Type} (I : DB -> Prop) (f : DB -> option (A * DB))
    (k : A -> M B) :
  (forall w a d', I (db w) -> f (db w) = Some (a, d') ->
     I (db (snd (k a (set_db w d'))))) ->
  preserves I (bind (execute f) k).
Proof.
  intros H w Hw. unfold bind, execute.
  destruct (f (db w)) as [[a d'] |] eqn:E; [exact (H w a d' Hw E) | exact Hw].
Qed.

Lemma preserves_at {A : Type} (I I' : DB -> Prop) (m : M A) (w : World) :
  preserves I' m -> I' (db w) -> (forall d, I' d -> I d) -> I (db (snd (m w))).
Proof. intros Hm Hw Himp. apply Himp, Hm, Hw. Qed.

Ltac tail := apply preserves_readonly; ro.

(** Each endpoint keeps the invariant. *)

Lemma register_keeps env user : preserves store_inv_tables (register env user).
Proof.
  unfold register. apply preserves_bind; [tail | intros dup].
  destruct (is_some dup); [tail |].
  apply preserves_bind; [| intros ?; tail].
  apply preserves_execute. intros d a d' Hd. unfold INSERT_User.
  destruct (existsb _ _); [discriminate |]. intros [= _ <-]. exact Hd.
Qed.

Lemma login_readonly data : readonly (login data).
Proof. unfold login. ro. Qed.

Lemma list_users_readonly limit offset search current :
  readonly (list_users limit offset search current).
Proof. unfold list_users. ro. Qed.

Lemma get_user_readonly user_id current : readonly (get_user user_id current).
Proof. unfold get_user. ro. Qed.

Lemma update_user_keeps user_id data current :
  preserves store_inv_tables (update_user user_id data current).
Proof.
  unfold update_user. apply preserves_bind; [tail | intros _].
  apply preserves_bind; [tail | intros row]. destruct row; [| tail].
  apply preserves_bind; [| intros ?; tail].
  apply preserves_when, preserves_execute_. intros d Hd. exact Hd.
Qed.

Lemma delete_user_keeps user_id current :
  preserves store_inv_tables (delete_user user_id current).
Proof.
  unfold delete_user. apply preserves_bind; [tail | intros _].
  apply preserves_bind; [tail | intros row]. destruct row; [| tail].
  apply preserves_bind; [| intros ?; tail].
  apply preserves_execute_. intros d. apply inv_delete_user.
Qed.

Lemma create_tag_keeps env data user_id current :
  preserves store_inv_tables (create_tag env data user_id current).
Proof.
  unfold create_tag. apply preserves_bind; [tail | intros target].
  apply preserves_bind; [| intros ?; tail].
  apply preserves_try_except; [| intros e; destruct e; tail].
  apply preserves_execute. intros d a d' Hd. unfold INSERT_Tag.
  destruct (existsb _ _); [discriminate |].
  destruct (negb _); [discriminate |]. intros [= _ <-]. exact Hd.
Qed.

Lemma list_tags_readonly user_id current : readonly (list_tags user_id current).
Proof. unfold list_tags. ro. Qed.

Lemma update_tag_keeps tag_id data current :
  preserves store_inv_tables (update_tag tag_id data current).
Proof.
  unfold update_tag. apply preserves_bind; [tail | intros row]. destruct row; [| tail].
  destruct (_ && _); [tail |].
  apply preserves_bind; [| intros ?; tail].
  destruct (TagUpdate_name data); [| tail].
  apply preserves_execute. intros d a d' Hd. unfold UPDATE_Tag_name.
  destruct (tag_by_id d tag_id); [| intros [= _ <-]; exact Hd].
  destruct (existsb _ _); [discriminate |]. intros [= _ <-]. exact Hd.
Qed.

Lemma delete_tag_keeps tag_id current :
  preserves store_inv_tables (delete_tag tag_id current).
Proof.
  unfold delete_tag. apply preserves_bind; [tail | intros row]. destruct row; [| tail].
  destruct (_ && _); [tail |].
  apply preserves_bind; [| intros ?; tail].
  apply preserves_execute_. intros d. apply inv_delete_tags.
Qed.

Lemma inv_with_weaken task_id user_id d : inv_with task_id user_id d -> store_inv_tables d.
Proof. intros (H & _). exact H. Qed.

Lemma inv_with_found (d : DB) (task_id : Z) (task : TaskRow) :
  store_inv_tables d -> task_by_id d task_id = Some task ->
  inv_with task_id (Task_user_id task) d.
Proof. intros H E. split; [exact H | apply refs_ok_found; assumption]. Qed.

Lemma create_task_keeps env data user_id current :
  preserves store_inv_tables (create_task env data user_id current).
Proof.
  unfold create_task. apply preserves_bind; [tail | intros target].
  apply preserves_bind_execute. intros w new_id d' Hw E.
  destruct (inv_INSERT_Task _ _ _ _ _ _ _ _ _ _ Hw E) as (H1 & H2 & _).
  apply (preserves_at _ (inv_with new_id target)); [| split; assumption
                                                    | apply inv_with_weaken].
  apply preserves_bind; [apply sync_task_tags_keeps | intros _].
  apply preserves_bind; [| intros _; tail].
  destruct (TaskCreate_subtasks data) as [[| st l] |]; try solve [tail].
  apply insert_subtasks_keeps.
Qed.

Lemma list_tasks_readonly search status_filter due_from due_to user_id limit offset current :
  readonly (list_tasks search status_filter due_from due_to user_id limit offset current).
Proof.
  unfold list_tasks. ro.
  match goal with |- readonly (_ ?l) => induction l as [| r l IH] end; ro.
Qed.

Lemma get_task_readonly task_id current : readonly (get_task task_id current).
Proof. unfold get_task. ro. Qed.

Lemma update_task_keeps task_id data current :
  preserves store_inv_tables (update_task task_id data current).
Proof.
  unfold update_task. apply preserves_bind_query. intros w Hw.
  destruct (task_by_id (db w) task_id) as [row |] eqn:E; [| exact Hw].
  apply (preserves_at _ (inv_with task_id (Task_user_id row)));
    [| apply inv_with_found; assumption | apply inv_with_weaken].
  apply preserves_bind; [tail | intros _].
  apply preserves_bind; [| intros _].
  - apply preserves_when, preserves_execute_. intros d (Hd & Href). split.
    + apply inv_update_task; [| exact Hd]. intros t. split; reflexivity.
    + apply refs_ok_update_task; [| exact Href]. intros t. split; reflexivity.
  - apply preserves_bind; [apply sync_task_tags_keeps | intros _].
    tail.
Qed.

Lemma delete_task_keeps env task_id current :
  preserves store_inv_tables (delete_task env task_id current).
Proof.
  unfold delete_task. apply preserves_bind; [tail | intros row]. destruct row; [| tail].
  apply preserves_bind; [tail | intros _].
  apply preserves_bind; [tail | intros files].
  apply preserves_bind; [| intros _].
  - apply preserves_for_each. intros f. apply preserves_remove_if_exists.
  - apply preserves_bind; [| intros ?; tail].
    apply preserves_execute_. intros d. apply inv_delete_tasks.
Qed.

Lemma generate_next_occurrence_keeps env task_id current :
  preserves store_inv_tables (generate_next_occurrence env task_id current).
Proof.
  unfold generate_next_occurrence.
  apply preserves_bind; [tail | intros row]. destruct row as [row |]; [| tail].
  apply preserves_bind; [tail | intros _].
  destruct (negb _); [tail |]. destruct (negb _); [tail |].
  apply preserves_bind; [tail | intros due].
  apply preserves_bind; [tail | intros next_due].
  apply preserves_bind_execute. intros w new_id d' Hw E.
  destruct (inv_INSERT_Task _ _ _ _ _ _ _ _ _ _ Hw E) as (H1 & H2 & _).
  apply (preserves_at _ (inv_with new_id (Task_user_id row)));
    [| split; assumption | apply inv_with_weaken].
  apply preserves_bind; [tail | intros links].
  apply preserves_bind; [| intros _; tail].
  apply preserves_for_each. intros tl. apply preserves_execute.
  intros d [] d2 (Hd & Href) E2.
  destruct (inv_INSERT_OR_IGNORE_TaskTag _ _ d d2 Hd (proj1 Href) E2) as (H3 & H4).
  split; [exact H3 | rewrite H4; exact Href].
Qed.

Lemma create_subtask_keeps env data current :
  preserves store_inv_tables (create_subtask env data current).
Proof.
  unfold create_subtask. apply preserves_bind_query. intros w Hw.
  destruct (task_by_id (db w) (SubTaskCreate_task_id data)) as [task |] eqn:E; [| exact Hw].
  apply (preserves_at _ (inv_with (SubTaskCreate_task_id data) (Task_user_id task)));
    [| apply inv_with_found; assumption | apply inv_with_weaken].
  apply preserves_bind; [tail | intros _].
  apply preserves_bind; [| intros ?; tail].
  apply preserves_execute. intros d i d' (Hd & Href) Ei.
  destruct (inv_INSERT_SubTask _ _ _ _ _ d d' i Hd Href Ei) as (H1 & H2).
  split; [exact H1 | rewrite H2; exact Href].
Qed.

Lemma list_subtasks_readonly task_id current : readonly (list_subtasks task_id current).
Proof. unfold list_subtasks. ro. Qed.

Lemma update_subtask_keeps subtask_id data current :
  preserves store_inv_tables (update_subtask subtask_id data current).
Proof.
  unfold update_subtask. apply preserves_bind; [tail | intros row]. destruct row; [| tail].
  apply preserves_bind; [tail | intros task]. destruct task; [| tail].
  apply preserves_bind; [tail | intros _].
  apply preserves_bind; [| intros ?; tail].
  apply preserves_when, preserves_execute_. intros d Hd.
  apply inv_set_tSubTask; [| exact Hd].
  apply children_ok_update; [| apply Hd]. intros x. repeat split; reflexivity.
Qed.

Lemma delete_subtask_keeps subtask_id current :
  preserves store_inv_tables (delete_subtask subtask_id current).
Proof.
  unfold delete_subtask. apply preserves_bind; [tail | intros row]. destruct row; [| tail].
  apply preserves_bind; [tail | intros task]. destruct task; [| tail].
  apply preserves_bind; [tail | intros _].
  apply preserves_bind; [| intros ?; tail].
  apply preserves_execute_. intros d Hd. unfold DELETE_SubTask.
  apply inv_set_tSubTask; [| exact Hd]. apply children_ok_delete, Hd.
Qed.

Lemma calendar_view_readonly date_from date_to user_id current :
  readonly (calendar_view date_from date_to user_id current).
Proof.
  unfold calendar_view. ro.
  match goal with |- readonly (_ ?l) => induction l as [| r l IH] end; ro.
Qed.

Lemma preserves_write_file (I : DB -> Prop) path content :
  preserves I (write_file path content).
Proof. intros w Hw. unfold write_file. destruct (_ || _); exact Hw. Qed.

Lemma upload_file_keeps env task_id file current :
  preserves store_inv_tables (upload_file env task_id file current).
Proof.
  unfold upload_file. apply preserves_bind_query. intros w Hw.
  destruct (task_by_id (db w) task_id) as [task |] eqn:E; [| exact Hw].
  apply (preserves_at _ (inv_with task_id (Task_user_id task)));
    [| apply inv_with_found; assumption | apply inv_with_weaken].
  apply preserves_bind; [tail | intros _].
  destruct (_ =? 0); [tail |]. destruct (_ >? _); [tail |].
  apply preserves_bind; [apply preserves_write_file | intros _].
  apply preserves_bind; [| intros ?; tail].
  apply preserves_execute. intros d i d' (Hd & Href) Ei.
  pose proof (inv_INSERT_File _ _ _ _ _ _ _ d d' i Hd Href Ei) as H1.
  split; [exact H1 |].
  unfold INSERT_File in Ei. destruct (negb _); [discriminate |].
  injection Ei as _ <-. exact Href.
Qed.

Lemma list_files_readonly task_id current : readonly (list_files task_id current).
Proof. unfold list_files. ro. Qed.

Lemma download_file_readonly file_id current : readonly (download_file file_id current).
Proof. unfold download_file. ro. Qed.

Lemma delete_file_keeps env file_id current :
  preserves store_inv_tables (delete_file env file_id current).
Proof.
  unfold delete_file. apply preserves_bind; [tail | intros row]. destruct row; [| tail].
  apply preserves_bind; [tail | intros task]. destruct task; [| tail].
  apply preserves_bind; [tail | intros _].
  apply preserves_bind; [apply preserves_remove_if_exists | intros _].
  apply preserves_bind; [| intros ?; tail].
  apply preserves_execute_. intros d Hd. unfold DELETE_File.
  apply inv_set_tFile; [| exact Hd]. apply children_ok_delete, Hd.
Qed.

Lemma create_reminder_keeps env task_id data current :
  preserves store_inv_tables (create_reminder env task_id data current).
Proof.
  unfold create_reminder. apply preserves_bind_query. intros w Hw.
  destruct (task_by_id (db w) task_id) as [task |] eqn:E; [| exact Hw].
  apply (preserves_at _ (inv_with task_id (Task_user_id task)));
    [| apply inv_with_found; assumption | apply inv_with_weaken].
  apply preserves_bind; [tail | intros _].
  apply preserves_bind; [tail | intros next_run_at].
  apply preserves_bind; [| intros ?; tail].
  apply preserves_execute. intros d i d' (Hd & Href) Ei.
  pose proof (inv_INSERT_Reminder _ _ _ _ _ _ _ _ d d' i Hd Href Ei) as H1.
  split; [exact H1 |].
  unfold INSERT_Reminder in Ei. destruct (negb _); [discriminate |].
  injection Ei as _ <-. exact Href.
Qed.

Lemma list_reminders_readonly task_id current : readonly (list_reminders task_id current).
Proof. unfold list_reminders. ro. Qed.

Lemma update_reminder_keeps env task_id reminder_id data current :
  preserves store_inv_tables (update_reminder env task_id reminder_id data current).
Proof.
  unfold update_reminder. apply preserves_bind; [tail | intros task].
  destruct task; [| tail].
  apply preserves_bind; [tail | intros _].
  apply preserves_bind; [tail | intros row]. destruct row; [| tail].
  apply preserves_bind; [| intros ?; tail].
  apply preserves_when. apply preserves_bind; [tail | intros next_run_at].
  apply preserves_execute_. intros d Hd.
  apply inv_set_tReminder; [| exact Hd].
  apply children_ok_update; [| apply Hd]. intros x. repeat split; reflexivity.
Qed.

Lemma delete_reminder_keeps task_id reminder_id current :
  preserves store_inv_tables (delete_reminder task_id reminder_id current).
Proof.
  unfold delete_reminder. apply preserves_bind; [tail | intros task].
  destruct task; [| tail].
  apply preserves_bind; [tail | intros _].
  apply preserves_bind; [tail | intros row]. destruct row; [| tail].
  apply preserves_bind; [| intros ?; tail].
  apply preserves_execute_. intros d Hd. unfold DELETE_Reminder.
  apply inv_set_tReminder; [| exact Hd]. apply children_ok_delete, Hd.
Qed.

Lemma preserves_fmap {A B : Type} (I : DB -> Prop) (f : A -> B) (m : M A) :
  preserves I m -> preserves I (fmap f m).
Proof.
  intros Hm. unfold fmap. apply preserves_bind; [exact Hm | intros a].
  apply preserves_readonly, readonly_ret.
Qed.

Lemma handle_keeps env current req : preserves store_inv_tables (handle env current req).
Proof.
  destruct req; unfold handle; apply preserves_fmap;
    first
      [ apply register_keeps | apply update_user_keeps | apply delete_user_keeps
      | apply create_tag_keeps | apply update_tag_keeps | apply delete_tag_keeps
      | apply create_task_keeps | apply update_task_keeps | apply delete_task_keeps
      | apply generate_next_occurrence_keeps | apply create_subtask_keeps
      | apply update_subtask_keeps | apply delete_subtask_keeps
      | apply upload_file_keeps | apply delete_file_keeps
      | apply create_reminder_keeps | apply update_reminder_keeps
      | apply delete_reminder_keeps
      | apply preserves_readonly;
        first
          [ apply login_readonly | apply list_users_readonly | apply get_user_readonly
          | apply list_tags_readonly | apply list_tasks_readonly | apply get_task_readonly
          | apply list_subtasks_readonly | apply calendar_view_readonly
          | apply list_files_readonly | apply download_file_readonly
          | apply list_reminders_readonly
          | unfold profile, nlu_stub; apply readonly_ret ] ].
Qed.

(** Whatever requests the server has answered since it started, every child
    row carries the owner of its parent task. *)
Lemma reachable_child_owner (w : World) : reachable w -> child_owner_inv (db w).
Proof.
  intros H. apply (proj1 (A := child_owner_inv (db w)) (B := ids_bounded (db w))).
  change (store_inv (db w)). induction H as [k | env current req w _ IH].
  - apply store_inv_empty.
  - apply store_inv_tables_iff, handle_keeps, store_inv_tables_iff, IH.
Qed.

(** C2.  Every request, from whomever and whether it succeeds or fails,
    leaves a store in which each SubTask, File and Reminder row carries the
    owner of its parent task (and no row refers to an id not yet handed
    out), provided the store was so before; the empty store is so.  A
    subtask, file or reminder that is created carries the owner of the task
    found for it, not the id of the actor. *)
Theorem child_owner_kept (env : Env) (current : UserResponse) (req : Request) (w : World) :
  store_inv (db w) ->
  store_inv (db (snd (handle env current req w)))
  /\ (forall data resp w',
        create_subtask env data current w = (Ok resp, w') ->
        exists task,
          task_by_id (db w) (SubTaskCreate_task_id data) = Some task
          /\ SubTaskResponse_user_id resp = Task_user_id task)
  /\ (forall task_id file row w',
        upload_file env task_id file current w = (Ok row, w') ->
        exists task,
          task_by_id (db w) task_id = Some task
          /\ File_user_id row = Task_user_id task)
  /\ (forall task_id data row w',
        create_reminder env task_id data current w = (Ok row, w') ->
        exists task,
          task_by_id (db w) task_id = Some task
          /\ Reminder_user_id row = Task_user_id task).
Proof.
  intros Hinv. split; [| split; [| split]].
  - apply store_inv_tables_iff. apply handle_keeps. apply store_inv_tables_iff. exact Hinv.
  - intros data resp w'. unfold create_subtask. munfold. simpl.
    destruct (task_by_id (db w) (SubTaskCreate_task_id data)) as [task |] eqn:E;
      [| discriminate].
    rewrite ensure_task_access_canAccess. destruct (canAccess _ _ _); [| discriminate].
    unfold INSERT_SubTask. destruct (negb _); [discriminate |]. simpl.
    unfold subtask_by_id, fetchone. simpl. rewrite find_app_new.
    + intros [= <- _]. exists task. split; reflexivity.
    + intros y Hy. destruct Hinv as (_ & _ & Hb & _). destruct (Hb y Hy) as (Hid & _).
      apply Z.eqb_neq. lia.
    + simpl. apply Z.eqb_refl.
  - intros task_id file row w'. unfold upload_file. munfold. simpl.
    destruct (task_by_id (db w) task_id) as [task |] eqn:E; [| discriminate].
    rewrite ensure_task_access_canAccess. destruct (canAccess _ _ _); [| discriminate].
    destruct (_ =? 0); [discriminate |]. destruct (_ >? _); [discriminate |].
    unfold write_file. destruct (_ || _); [discriminate |].
    unfold INSERT_File. simpl. destruct (negb _); [discriminate |]. simpl.
    unfold file_by_id, fetchone. simpl. rewrite find_app_new.
    + intros [= <- _]. exists task. split; reflexivity.
    + intros y Hy. destruct Hinv as (_ & _ & _ & Hb & _). destruct (Hb y Hy) as (Hid & _).
      apply Z.eqb_neq. lia.
    + simpl. apply Z.eqb_refl.
  - intros task_id data row w'. unfold create_reminder. munfold. simpl.
    destruct (task_by_id (db w) task_id) as [task |] eqn:E; [| discriminate].
    rewrite ensure_task_access_canAccess. destruct (canAccess _ _ _); [| discriminate].
    destruct (compute_next_run _ _ _) as [next_run_at |]; [| discriminate].
    unfold INSERT_Reminder. destruct (negb _); [discriminate |]. simpl.
    unfold reminder_by_id, fetchone. simpl. rewrite find_app_new.
    + intros [= <- _]. exists task. split; reflexivity.
    + intros y Hy. destruct Hinv as (_ & _ & _ & _ & Hb & _).
      destruct (Hb y Hy) as (Hid & _). apply Z.eqb_neq. lia.
    + simpl. apply Z.eqb_refl.
Qed.

(** *** Failures before the first write *)

Lemma fails_early_readonly {A : Type} (m : M A) : readonly m -> fails_early m.
Proof. intros Hm w e w' E _. specialize (Hm w). rewrite E in Hm. exact Hm. Qed.

Lemma fails_early_bind {A B : Type} (m : M A) (k : A -> M B) :
  readonly m -> (forall a, fails_early (k a)) -> fails_early (bind m k).
Proof.
  intros Hm Hk w e w' E He. unfold bind in E. specialize (Hm w).
  destruct (m w) as [[a | e1] w1]; simpl in Hm; subst w1.
  - eapply Hk; eassumption.
  - injection E as _ <-. reflexivity.
Qed.

Lemma fails_early_write {A B : Type} (m : M A) (k : A -> M B) :
  clean_fail m -> (forall a, no_gate (k a)) -> fails_early (bind m k).
Proof.
  intros Hm Hk w e w' E He. unfold bind in E.
  destruct (m w) as [[a | e1] w1] eqn:Em.
  - rewrite (Hk a w1 e w' E) in He. discriminate.
  - injection E as _ <-. eapply Hm. exact Em.
Qed.

Lemma no_gate_ret {A : Type} (a : A) : no_gate (ret a).
Proof. intros w e w' E. discriminate. Qed.

Lemma no_gate_query {A : Type} (f : DB -> A) : no_gate (query f).
Proof. intros w e w' E. discriminate. Qed.

Lemma no_gate_query_bound {A : Type} (params : list Z) (f : DB -> A) :
  no_gate (query_bound params f).
Proof.
  intros w e w' E. unfold query_bound in E.
  destruct (binds params); [discriminate | injection E as <- _; reflexivity].
Qed.

Lemma no_gate_plus_minutes (d : datetime) (minutes : Z) :
  no_gate (lift (plus_minutes d minutes)).
Proof.
  intros w e w' E. unfold lift in E. injection E as E _.
  rewrite (plus_minutes_Raise _ _ _ E). reflexivity.
Qed.

Lemma no_gate_compute_next_run (env : Env) (start_at : option string) (minutes : Z) :
  no_gate (lift (compute_next_run env start_at minutes)).
Proof.
  intros w e w' E. unfold lift in E. injection E as E _.
  rewrite (compute_next_run_Raise _ _ _ _ E). reflexivity.
Qed.

Lemma no_gate_expect {A : Type} (o : option A) : no_gate (expect o).
Proof. intros w e w' E. destruct o; [discriminate | injection E as <- _; reflexivity]. Qed.

Lemma no_gate_execute {A : Type} (f : DB -> option (A * DB)) : no_gate (execute f).
Proof.
  intros w e w' E. unfold execute in E. destruct (f (db w)) as [[a d] |]; [discriminate |].
  injection E as <- _. reflexivity.
Qed.

Lemma no_gate_execute_ (f : DB -> DB) : no_gate (execute_ f).
Proof. apply no_gate_execute. Qed.

Lemma no_gate_bind {A B : Type} (m : M A) (k : A -> M B) :
  no_gate m -> (forall a, no_gate (k a)) -> no_gate (bind m k).
Proof.
  intros Hm Hk w e w' E. unfold bind in E.
  destruct (m w) as [[a | e1] w1] eqn:Em.
  - eapply Hk; eassumption.
  - injection E as <- _. eapply Hm. exact Em.
Qed.

Lemma no_gate_for_each {A : Type} (body : A -> M unit) (l : list A) :
  (forall x, no_gate (body x)) -> no_gate (for_each l body).
Proof.
  intros Hb. induction l as [| x l IH]; simpl; [apply no_gate_ret |].
  apply no_gate_bind; [apply Hb | intros _; exact IH].
Qed.

Lemma no_gate_sync_task_tags task_id owner_id tag_ids :
  no_gate (sync_task_tags task_id owner_id tag_ids).
Proof.
  unfold sync_task_tags. destruct tag_ids as [l |]; [| apply no_gate_ret].
  apply no_gate_bind; [| intros _].
  - destruct l as [| g l]; [apply no_gate_ret |].
    apply no_gate_bind; [apply no_gate_query_bound | intros existing].
    destruct (filter _ _); [apply no_gate_ret |].
    intros w e w' [= <- _]. reflexivity.
  - apply no_gate_bind; [apply no_gate_execute_ | intros _].
    apply no_gate_for_each. intros g. apply no_gate_execute.
Qed.

Ltac ng :=
  repeat first
    [ assumption
    | apply no_gate_ret | apply no_gate_query | apply no_gate_expect
    | apply no_gate_query_bound | apply no_gate_plus_minutes
    | apply no_gate_compute_next_run
    | apply no_gate_execute_ | apply no_gate_execute | apply no_gate_sync_task_tags
    | apply no_gate_for_each; intros ?
    | apply no_gate_bind; [| intros ?]
    | match goal with
      | |- no_gate (match ?x with _ => _ end) => destruct x
      end ].

Lemma clean_fail_execute {A : Type} (f : DB -> option (A * DB)) : clean_fail (execute f).
Proof.
  intros w e w' E. unfold execute in E. destruct (f (db w)) as [[a d] |]; [discriminate |].
  injection E as _ <-. reflexivity.
Qed.

Lemma clean_fail_execute_ (f : DB -> DB) : clean_fail (execute_ f).
Proof. apply clean_fail_execute. Qed.

Lemma clean_fail_when (b : bool) (m : M unit) : clean_fail m -> clean_fail (when b m).
Proof. intros Hm. unfold when. destruct b; [exact Hm |]. intros w e w' E. discriminate. Qed.

Lemma clean_fail_write_file path content : clean_fail (write_file path content).
Proof.
  intros w e w' E. unfold write_file in E.
  destruct (_ || _); [injection E as _ <-; reflexivity | discriminate].
Qed.

Lemma clean_fail_bind {A B : Type} (m : M A) (k : A -> M B) :
  readonly m -> (forall a, clean_fail (k a)) -> clean_fail (bind m k).
Proof.
  intros Hm Hk w e w' E. unfold bind in E. specialize (Hm w).
  destruct (m w) as [[a | e1] w1]; simpl in Hm; subst w1.
  - eapply Hk; eassumption.
  - injection E as _ <-. reflexivity.
Qed.

Lemma clean_fail_remove_if_exists env path : clean_fail (remove_if_exists env path).
Proof.
  intros w e w' E. destruct (remove_if_exists_run env path w) as (k & Hk & _).
  rewrite Hk in E. discriminate.
Qed.

Lemma clean_fail_remove_all env files :
  clean_fail (for_each files (fun f => remove_if_exists env (File_storage_path f))).
Proof.
  intros w e w' E. destruct (remove_all_run env files w) as (k & Hk & _).
  rewrite Hk in E. discriminate.
Qed.

Ltac early := apply fails_early_readonly; ro.
Ltac step := apply fails_early_bind; [ro | intros ?].

Lemma fails_early_fmap {A B : Type} (f : A -> B) (m : M A) :
  fails_early m -> fails_early (fmap f m).
Proof.
  intros Hm w e w' E He. unfold fmap, bind in E.
  destruct (m w) as [[a | e1] w1] eqn:Em; [discriminate |].
  injection E as <- <-. eapply Hm; eassumption.
Qed.

(** X27.  A refused request changes nothing: whenever a request is
    answered 403, 404, with a rejected parameter, or 400 other than the
    "Unknown tag_ids" of [sync_task_tags], the store and the upload
    directory are as they were before it. *)
Lemma handle_fails_early env current req : fails_early (handle env current req).
Proof.
  destruct req; unfold handle; apply fails_early_fmap.
  - (* register *)
    unfold register. step. destruct (is_some _); [early |].
    apply fails_early_write; [apply clean_fail_execute | intros; ng].
  - apply fails_early_readonly, login_readonly.
  - early.
  - apply fails_early_readonly, list_users_readonly.
  - apply fails_early_readonly, get_user_readonly.
  - (* update_user *)
    unfold update_user. step. step. destruct a0; [| early].
    apply fails_early_write;
      [apply clean_fail_when, clean_fail_execute_ | intros; ng].
  - unfold delete_user. step. step. destruct a0; [| early].
    apply fails_early_write; [apply clean_fail_execute_ | intros; ng].
  - (* create_tag *)
    unfold create_tag. step.
    apply fails_early_write; [| intros; ng].
    intros w e w' E. unfold try_except, execute in E.
    destruct (INSERT_Tag _ _ _ _) as [[i d] |]; [discriminate |].
    simpl in E. injection E as _ <-. reflexivity.
  - apply fails_early_readonly, list_tags_readonly.
  - (* update_tag *)
    unfold update_tag. step. destruct a; [| early]. destruct (_ && _); [early |].
    apply fails_early_write; [| intros; ng].
    destruct (TagUpdate_name data); [apply clean_fail_execute |].
    intros w e w' E. discriminate.
  - unfold delete_tag. step. destruct a; [| early]. destruct (_ && _); [early |].
    apply fails_early_write; [apply clean_fail_execute_ | intros; ng].
  - (* create_task *)
    unfold create_task. step.
    apply fails_early_write; [apply clean_fail_execute | intros; ng].
  - apply fails_early_readonly, list_tasks_readonly.
  - apply fails_early_readonly, get_task_readonly.
  - (* update_task *)
    unfold update_task. step. destruct a; [| early]. step.
    apply fails_early_write;
      [apply clean_fail_when, clean_fail_execute_ | intros; ng].
  - (* delete_task *)
    unfold delete_task. step. destruct a; [| early]. step. step.
    apply fails_early_write; [apply clean_fail_remove_all | intros; ng].
  - (* generate_next_occurrence *)
    unfold generate_next_occurrence. step. destruct a as [row |]; [| early]. step.
    destruct (negb _); [early |]. destruct (negb _); [early |]. step. step.
    apply fails_early_write; [apply clean_fail_execute | intros; ng].
  - (* create_subtask *)
    unfold create_subtask. step. destruct a; [| early]. step.
    apply fails_early_write; [apply clean_fail_execute | intros; ng].
  - apply fails_early_readonly, list_subtasks_readonly.
  - unfold update_subtask. step. destruct a; [| early]. step.
    destruct a; [| early]. step.
    apply fails_early_write;
      [apply clean_fail_when, clean_fail_execute_ | intros; ng].
  - unfold delete_subtask. step. destruct a; [| early]. step.
    destruct a; [| early]. step.
    apply fails_early_write; [apply clean_fail_execute_ | intros; ng].
  - apply fails_early_readonly, calendar_view_readonly.
  - (* upload_file *)
    unfold upload_file. step. destruct a; [| early]. step.
    destruct (_ =? 0); [early |]. destruct (_ >? _); [early |].
    apply fails_early_write; [apply clean_fail_write_file | intros; ng].
  - apply fails_early_readonly, list_files_readonly.
  - apply fails_early_readonly, download_file_readonly.
  - unfold delete_file. step. destruct a; [| early]. step.
    destruct a; [| early]. step.
    apply fails_early_write; [apply clean_fail_remove_if_exists | intros; ng].
  - unfold create_reminder. step. destruct a; [| early]. step. step.
    apply fails_early_write; [apply clean_fail_execute | intros; ng].
  - apply fails_early_readonly, list_reminders_readonly.
  - unfold update_reminder. step. destruct a; [| early]. step. step.
    destruct a0; [| early].
    apply fails_early_write; [| intros; ng].
    apply clean_fail_when, clean_fail_bind; [ro | intros ?; apply clean_fail_execute_].
  - unfold delete_reminder. step. destruct a; [| early]. step. step.
    destruct a0; [| early].
    apply fails_early_write; [apply clean_fail_execute_ | intros; ng].
  - early.
Qed.

(** X30.  The associations of a task are rows of their own: replacing the
    tags of one task, whether that succeeds or fails, leaves those of every
    other task as they were. *)
Lemma sync_task_tags_other_task (a b owner_id : Z) (tag_ids : option (list Z))
    (links : list TaskTagRow) :
  a <> b ->
  preserves (fun d => filter (fun l => TaskTag_task_id l =? b) (tTaskTag d) = links)
    (sync_task_tags a owner_id tag_ids).
Proof.
  intros Hab. unfold sync_task_tags.
  destruct tag_ids as [l |]; [| apply preserves_readonly, readonly_ret].
  apply preserves_bind; [apply preserves_readonly, readonly_sync_check | intros _].
  apply preserves_bind; [| intros _].
  - apply preserves_execute_. intros d <-. simpl.
    induction (tTaskTag d) as [| x xs IH]; [reflexivity |].
    simpl. destruct (Z.eqb_spec (TaskTag_task_id x) a) as [Ea | Ea]; simpl.
    + destruct (Z.eqb_spec (TaskTag_task_id x) b) as [Eb | Eb]; [congruence | exact IH].
    + destruct (Z.eqb_spec (TaskTag_task_id x) b); [f_equal |]; exact IH.
  - apply preserves_for_each. intros g. apply preserves_execute.
    intros d [] d' <-. unfold INSERT_OR_IGNORE_TaskTag.
    destruct (negb _); [discriminate |].
    destruct (has_link d a g); intros [= <-]; [reflexivity |].
    simpl. rewrite filter_app. simpl.
    destruct (Z.eqb_spec a b); [contradiction | apply app_nil_r].
Qed.

(** *** The access rule at the endpoints *)

Lemma never_denied_no_gate {A : Type} (m : M A) : no_gate m -> never_denied m.
Proof. intros H w e w' E ->. specialize (H _ _ _ E). discriminate H. Qed.

Lemma never_denied_raise {A : Type} (e : Failure) :
  e <> AccessDenied -> never_denied (@raise P A e).
Proof. intros He w e' w' [= <- _]. exact He. Qed.

Lemma never_denied_bind {A B : Type} (m : M A) (k : A -> M B) :
  never_denied m -> (forall a, never_denied (k a)) -> never_denied (bind m k).
Proof.
  intros Hm Hk w e w' E. unfold bind in E.
  destruct (m w) as [[a | e1] w1] eqn:Em.
  - eapply Hk; eassumption.
  - injection E as <- _. eapply Hm. exact Em.
Qed.

Lemma never_denied_when (b : bool) (m : M unit) : never_denied m -> never_denied (when b m).
Proof.
  intros Hm. unfold when. destruct b; [exact Hm |]. intros w e w' E. discriminate.
Qed.

Lemma never_denied_clean {A : Type} (m : M A) :
  (forall w, exists a w', m w = (Ok a, w')) -> never_denied m.
Proof. intros H w e w' E. destruct (H w) as (a & w1 & Hw). congruence. Qed.

Lemma never_denied_remove_if_exists env path : never_denied (remove_if_exists env path).
Proof.
  apply never_denied_clean. intros w.
  destruct (remove_if_exists_run env path w) as (k & Hk & _). eauto.
Qed.

Lemma never_denied_remove_all env files :
  never_denied (for_each files (fun f => remove_if_exists env (File_storage_path f))).
Proof.
  apply never_denied_clean. intros w.
  destruct (remove_all_run env files w) as (k & Hk & _). eauto.
Qed.

Lemma never_denied_write_file path content : never_denied (write_file path content).
Proof.
  intros w e w' E. unfold write_file in E.
  destruct (_ || _); [injection E as <- _; discriminate | discriminate].
Qed.

Lemma never_denied_os_path_exists path : never_denied (os_path_exists path).
Proof. intros w e w' E. discriminate. Qed.

Ltac nd :=
  repeat first
    [ assumption
    | apply never_denied_no_gate; solve [ng]
    | apply never_denied_raise; discriminate
    | apply never_denied_remove_all | apply never_denied_remove_if_exists
    | apply never_denied_write_file | apply never_denied_os_path_exists
    | apply never_denied_when
    | apply never_denied_bind; [| intros ?]
    | match goal with
      | |- never_denied (match ?x with _ => _ end) => destruct x
      end ].

Lemma open_fmap {A B : Type} (f : A -> B) (m : M A) (w : World) :
  fst (m w) <> Raise AccessDenied -> fst (fmap f m w) <> Raise AccessDenied.
Proof.
  unfold fmap, bind, ret. destruct (m w) as [[a | e] w1]; simpl; [discriminate |].
  intros H [= ->]. apply H. reflexivity.
Qed.

Lemma open_query {A B : Type} (f : DB -> A) (k : A -> M B) (w : World) :
  fst (k (f (db w)) w) <> Raise AccessDenied ->
  fst (bind (query f) k w) <> Raise AccessDenied.
Proof. intros H. exact H. Qed.

Lemma open_access {B : Type} (o : Z) (current : UserResponse) (k : unit -> M B)
    (w : World) :
  canAccess (UserResponse_id current) (UserResponse_role current) o = true ->
  fst (k tt w) <> Raise AccessDenied ->
  fst (bind (ensure_task_access o current) k w) <> Raise AccessDenied.
Proof.
  intros Hc H. unfold bind. rewrite ensure_task_access_canAccess, Hc. exact H.
Qed.

Lemma open_rest {A : Type} (m : M A) (w : World) :
  never_denied m -> fst (m w) <> Raise AccessDenied.
Proof.
  intros Hm. destruct (m w) as [[a | e] w1] eqn:E; simpl; [discriminate |].
  intros [= ->]. exact (Hm _ _ _ E eq_refl).
Qed.

Ltac lookup_owner H :=
  match type of H with
  | context [match ?x with _ => _ end] =>
      let E := fresh "E" in
      destruct x eqn:E; simpl in H; [| discriminate H]; lookup_owner H
  | option_map _ ?x = Some _ =>
      let E := fresh "E" in
      destruct x eqn:E; simpl in H; [| discriminate H];
      injection H as H
  end.

Ltac unfold_endpoint :=
  unfold handle;
  unfold get_task, update_task, delete_task, generate_next_occurrence,
    create_subtask, list_subtasks, upload_file, list_files, create_reminder,
    list_reminders, update_subtask, delete_subtask, update_tag, delete_tag,
    download_file, delete_file, update_reminder, delete_reminder.

(** Who may not, is answered "Access denied" and nothing happens. *)
Lemma gate_closed (env : Env) (current : UserResponse) (w : World)
    (req : Request) (res : Resource) (B : Z) :
  owner (db w) res = Some B ->
  operates_on (db w) req res ->
  canAccess (UserResponse_id current) (UserResponse_role current) B = false ->
  handle env current req w = (Raise AccessDenied, w).
Proof.
  intros Hown Hop Hdeny.
  inversion Hop; subst; simpl in Hown; lookup_owner Hown; subst B;
    unfold_endpoint; munfold; simpl;
    repeat match goal with
           | H : ?x = Some _ |- context [?x] => rewrite H
           end;
    simpl;
    try rewrite ensure_task_access_canAccess;
    try rewrite Hdeny;
    try reflexivity.
  - fold (tag_gate_denies t current). rewrite tag_gate_canAccess, Hdeny. reflexivity.
  - fold (tag_gate_denies t current). rewrite tag_gate_canAccess, Hdeny. reflexivity.
  - match goal with H : Some _ = Some _ |- _ => injection H as <- end.
    rewrite E0, ensure_task_access_canAccess, Hdeny. reflexivity.
  - match goal with H : Some _ = Some _ |- _ => injection H as <- end.
    rewrite E0, ensure_task_access_canAccess, Hdeny. reflexivity.
Qed.

(** Who may, is never answered "Access denied". *)
Lemma gate_open (env : Env) (current : UserResponse) (w : World)
    (req : Request) (res : Resource) (B : Z) :
  owner (db w) res = Some B ->
  operates_on (db w) req res ->
  canAccess (UserResponse_id current) (UserResponse_role current) B = true ->
  fst (handle env current req w) <> Raise AccessDenied.
Proof.
  intros Hown Hop Hallow.
  inversion Hop; subst; simpl in Hown; lookup_owner Hown; subst B;
    unfold_endpoint; apply open_fmap;
    repeat (apply open_query; cbv beta;
            repeat match goal with
                   | H : ?x = Some _ |- context [?x] => rewrite H
                   end);
    try (apply open_access; [exact Hallow |]);
    try (apply open_rest; solve [nd]).
  - fold (tag_gate_denies t current). rewrite tag_gate_canAccess, Hallow.
    apply open_rest. nd.
  - fold (tag_gate_denies t current). rewrite tag_gate_canAccess, Hallow.
    apply open_rest. nd.
  - match goal with H : Some _ = Some _ |- _ => injection H as <- end.
    rewrite E0. apply open_access; [exact Hallow |]. apply open_rest. nd.
  - match goal with H : Some _ = Some _ |- _ => injection H as <- end.
    rewrite E0. apply open_access; [exact Hallow |]. apply open_rest. nd.
Qed.

(** C1.  A non-admin actor who operates on a task, subtask, tag, file or
    reminder owned by somebody else gets "Access denied" (403) from every
    read and every write, and nothing is read or changed; an admin and the
    owner never get that answer; the gate every endpoint applies allows
    exactly the admins and the owner. *)
Theorem stranger_is_denied (env : Env) (current : UserResponse) (w : World)
    (req : Request) (res : Resource) (B : Z) :
  owner (db w) res = Some B ->
  operates_on (db w) req res ->
  (UserResponse_role current <> ADMIN -> B <> UserResponse_id current ->
     handle env current req w = (Raise AccessDenied, w))
  /\ (UserResponse_role current = ADMIN \/ UserResponse_id current = B ->
      fst (handle env current req w) <> Raise AccessDenied)
  /\ (forall o v,
        ensure_task_access o current v
        = if canAccess (UserResponse_id current) (UserResponse_role current) o
          then (Ok tt, v) else (Raise AccessDenied, v))
  /\ (forall row,
        tag_gate_denies row current
        = negb (canAccess (UserResponse_id current) (UserResponse_role current)
                  (Tag_user_id row)))
  /\ (forall a r o, canAccess a r o = true <-> r = ADMIN \/ a = o).
Proof.
  intros Hown Hop.
  split; [| split; [| split; [| split]]].
  - intros Hrole Hne. eapply gate_closed; try eassumption.
    apply canAccess_stranger; assumption.
  - intros Hallow. eapply gate_open; try eassumption.
    apply canAccess_iff. exact Hallow.
  - intros o v. apply ensure_task_access_canAccess.
  - intros row. apply tag_gate_canAccess.
  - intros a r o. apply canAccess_iff.
Qed.

(** *** Accounts *)

(** What a successful [register] has done: no row had the e-mail, one row
    was appended under the next id, and the answer is built from the row
    found under that id. *)
Lemma register_run (env : Env) (user : UserCreate) (w w' : World) (a : AuthResponse) :
  register env user w = (Ok a, w') ->
  let i := lastrowid (tUser (db w)) + 1 in
  let new := {| User_id := i; User_email := UserCreate_email user;
                User_name := UserCreate_name user;
                User_password := hash_password (UserCreate_password user);
                User_role := UserCreate_role user;
                User_created_at := CURRENT_TIMESTAMP env |} in
  (forall u, In u (rows (tUser (db w))) ->
     String.eqb (User_email u) (UserCreate_email user) = false)
  /\ w' = set_db w (set_tUser (db w)
                      {| rows := rows (tUser (db w)) ++ [new]; lastrowid := i |})
  /\ exists row,
       user_by_id (db w') i = Some row
       /\ a = {| AuthResponse_token :=
                   create_access_token (User_email row) (User_id row) (User_role row);
                 AuthResponse_user_data := UserResponse_of row |}.
Proof.
  intros Hrun. unfold register in Hrun. munfold. simpl in Hrun.
  destruct (fetchone _ (tUser (db w))) as [dup |] eqn:Edup; simpl in Hrun; [discriminate |].
  assert (Hfresh : forall u, In u (rows (tUser (db w))) ->
            String.eqb (User_email u) (UserCreate_email user) = false).
  { intros u Hu. exact (find_none _ _ Edup u Hu). }
  unfold INSERT_User in Hrun.
  assert (Hex : existsb (fun u => String.eqb (User_email u) (UserCreate_email user))
                  (rows (tUser (db w))) = false).
  { destruct (existsb _ _) eqn:E; [| reflexivity].
    apply existsb_exists in E. destruct E as (u & Hu & Hp).
    rewrite (Hfresh u Hu) in Hp. discriminate. }
  rewrite Hex in Hrun. simpl in Hrun.
  match type of Hrun with
  | context [user_by_id ?d ?i] => destruct (user_by_id d i) as [row |] eqn:Erow
  end; simpl in Hrun; [| discriminate].
  injection Hrun as <- <-.
  split; [exact Hfresh |]. split; [reflexivity |].
  exists row. split; [exact Erow | reflexivity].
Qed.

(** X1.  After a successful registration, logging in with the same e-mail
    and password succeeds, returns the very answer that [register] gave
    (token and user data) and changes nothing; a password that
    [verify_password] rejects against the stored hash is answered 400
    "Invalid password". *)
Theorem register_then_login (env : Env) (user : UserCreate) (w w' : World)
    (a : AuthResponse) :
  register env user w = (Ok a, w') ->
  (verify_password (UserCreate_password user) (hash_password (UserCreate_password user))
   = true ->
   login {| LoginRequest_email := UserCreate_email user;
            LoginRequest_password := UserCreate_password user |} w' = (Ok a, w'))
  /\ (forall password,
        verify_password password (hash_password (UserCreate_password user)) = false ->
        login {| LoginRequest_email := UserCreate_email user;
                 LoginRequest_password := password |} w'
        = (Raise (HTTPException 400 "Invalid password"), w')).
Proof.
  intros Hrun. destruct (register_run _ _ _ _ _ Hrun) as (Hfresh & Hw & row & Hrow & Ha).
  cbv zeta in *.
  assert (Hfind : forall (d := db w'),
    fetchone (fun u => String.eqb (User_email u) (UserCreate_email user)) (tUser d)
    = Some {| User_id := lastrowid (tUser (db w)) + 1;
              User_email := UserCreate_email user; User_name := UserCreate_name user;
              User_password := hash_password (UserCreate_password user);
              User_role := UserCreate_role user;
              User_created_at := CURRENT_TIMESTAMP env |}).
  { subst w'. unfold fetchone. simpl. apply find_app_new; [exact Hfresh |].
    simpl. apply String.eqb_refl. }
  cbv zeta in Hfind.
  split.
  - intros Hpw. unfold login. munfold. cbn [LoginRequest_email LoginRequest_password].
    rewrite Hfind. cbn [User_password User_id]. rewrite Hpw. cbn [negb].
    rewrite Hrow. subst a. reflexivity.
  - intros password Hpw. unfold login. munfold.
    cbn [LoginRequest_email LoginRequest_password].
    rewrite Hfind. cbn [User_password User_id]. rewrite Hpw. reflexivity.
Qed.

(** X2.  [register] gives the new account the role that the request asks
    for: the answer and the stored row carry it, and whoever registers as
    admin passes [get_current_admin] at once. *)
Theorem register_role_as_requested (env : Env) (user : UserCreate) (w w' : World)
    (a : AuthResponse) :
  users_bounded (db w) ->
  register env user w = (Ok a, w') ->
  UserResponse_role (AuthResponse_user_data a) = UserCreate_role user
  /\ option_map User_role (user_by_id (db w') (UserResponse_id (AuthResponse_user_data a)))
     = Some (UserCreate_role user)
  /\ (UserCreate_role user = ADMIN ->
      get_current_admin (AuthResponse_user_data a) w' = (Ok (AuthResponse_user_data a), w')).
Proof.
  intros Hb Hrun. destruct (register_run _ _ _ _ _ Hrun) as (_ & Hw & row & Hrow & Ha).
  cbv zeta in *.
  assert (Hnew : row = {| User_id := lastrowid (tUser (db w)) + 1;
                          User_email := UserCreate_email user;
                          User_name := UserCreate_name user;
                          User_password := hash_password (UserCreate_password user);
                          User_role := UserCreate_role user;
                          User_created_at := CURRENT_TIMESTAMP env |}).
  { subst w'. unfold user_by_id, fetchone in Hrow. simpl in Hrow.
    rewrite find_app_new in Hrow.
    - injection Hrow as <-. reflexivity.
    - intros u Hu. specialize (Hb u Hu). apply Z.eqb_neq. lia.
    - simpl. apply Z.eqb_refl. }
  subst a. cbn [AuthResponse_user_data UserResponse_of UserResponse_role UserResponse_id].
  split; [subst row; reflexivity |]. split.
  - replace (User_id row) with (lastrowid (tUser (db w)) + 1) by (subst row; reflexivity).
    rewrite Hrow. subst row. reflexivity.
  - intros Hadmin. unfold get_current_admin.
    cbn [UserResponse_role]. subst row. cbn [User_role]. rewrite Hadmin. reflexivity.
Qed.

(** X3.  The token that [register] hands out authenticates its user: when
    [verify_token] reads the id of the new user from it, [get_current_user]
    resolves it to the user data that [register] returned. *)
Theorem register_then_authenticate (verify_token : string -> option Payload)
    (env : Env) (user : UserCreate) (w w' : World) (a : AuthResponse) :
  0 <= lastrowid (tUser (db w)) ->
  register env user w = (Ok a, w') ->
  verify_token (AuthResponse_token a)
  = Some {| Payload_user_id := Some (UserResponse_id (AuthResponse_user_data a)) |} ->
  get_current_user verify_token (AuthResponse_token a) w'
  = (Ok (AuthResponse_user_data a), w').
Proof.
  intros Hpos Hrun Htok.
  destruct (register_run _ _ _ _ _ Hrun) as (_ & Hw & row & Hrow & Ha). cbv zeta in *.
  assert (Hid : User_id row = lastrowid (tUser (db w)) + 1).
  { unfold user_by_id, fetchone in Hrow. apply find_some in Hrow.
    apply Z.eqb_eq, (proj2 Hrow). }
  unfold get_current_user. rewrite Htok. cbn [Payload_user_id truthy_int].
  subst a. cbn [AuthResponse_user_data UserResponse_of UserResponse_id] in *.
  rewrite Hid. destruct (Z.eqb_spec (lastrowid (tUser (db w)) + 1) 0) as [E | _]; [lia |].
  cbn [negb]. munfold. rewrite Hrow. reflexivity.
Qed.

Lemma user_by_id_DELETE_User (d : DB) (user_id : Z) :
  user_by_id (DELETE_User user_id d) user_id = None.
Proof.
  unfold DELETE_User. destruct (user_by_id d user_id) as [u |] eqn:E; simpl; [| exact E].
  unfold user_by_id, fetchone. simpl.
  destruct (find _ _) as [x |] eqn:Ex; [| reflexivity].
  apply find_some in Ex. destruct Ex as (Hin & Hid).
  apply filter_In in Hin. destruct Hin as (_ & Hne).
  rewrite Hid in Hne. discriminate.
Qed.

(** X4.  A deleted account is locked out at once: after [delete_user] has
    succeeded, a token that names the deleted id is answered 401, however
    long it would still be valid. *)
Theorem deleted_user_is_locked_out (verify_token : string -> option Payload)
    (user_id : Z) (current : UserResponse) (w w' : World) (message : string)
    (credentials : string) :
  delete_user user_id current w = (Ok message, w') ->
  verify_token credentials = Some {| Payload_user_id := Some user_id |} ->
  get_current_user verify_token credentials w'
  = (Raise (HTTPException 401
              (if user_id =? 0 then "Invalid token" else "User not found")), w').
Proof.
  intros Hrun Htok. unfold delete_user in Hrun. munfold.
  unfold get_current_admin in Hrun. munfold.
  destruct (negb _); [discriminate |]. simpl in Hrun.
  destruct (user_by_id (db w) user_id); simpl in Hrun; [| discriminate].
  injection Hrun as _ <-.
  unfold get_current_user. rewrite Htok. cbn [Payload_user_id truthy_int].
  destruct (user_id =? 0); cbn [negb]; [reflexivity |].
  munfold. simpl. rewrite user_by_id_DELETE_User. reflexivity.
Qed.

(** What a successful [update_user] has done. *)
Lemma update_user_run (user_id : Z) (data : UserUpdate) (current : UserResponse)
    (w w' : World) (u : UserResponse) :
  update_user user_id data current w = (Ok u, w') ->
  exists old,
    UserResponse_role current = ADMIN
    /\ user_by_id (db w) user_id = Some old
    /\ (w' = w \/
        w' = set_db w (set_tUser (db w)
               (update_rows (fun u => User_id u =? user_id) (apply_UserUpdate data)
                  (tUser (db w)))))
    /\ (is_some (UserUpdate_name data) || is_some (UserUpdate_role data) = false -> w' = w)
    /\ user_by_id (db w') user_id
       = Some (if is_some (UserUpdate_name data) || is_some (UserUpdate_role data)
               then apply_UserUpdate data old else old)
    /\ u = UserResponse_of
             (if is_some (UserUpdate_name data) || is_some (UserUpdate_role data)
              then apply_UserUpdate data old else old).
Proof.
  intros Hrun. unfold update_user, get_current_admin in Hrun. munfold.
  destruct (UserResponse_role current) eqn:Er; simpl in Hrun; [discriminate |].
  destruct (user_by_id (db w) user_id) as [old |] eqn:Eold; simpl in Hrun; [| discriminate].
  exists old. split; [reflexivity |]. split; [reflexivity |].
  destruct (is_some (UserUpdate_name data) || is_some (UserUpdate_role data)) eqn:Eany;
    simpl in Hrun.
  - assert (Hfound : user_by_id
              (set_tUser (db w)
                 (update_rows (fun u => User_id u =? user_id) (apply_UserUpdate data)
                    (tUser (db w)))) user_id = Some (apply_UserUpdate data old)).
    { unfold user_by_id, fetchone, update_rows in *. simpl.
      clear Hrun. induction (rows (tUser (db w))) as [| x xs IH]; [discriminate |].
      simpl in *. destruct (User_id x =? user_id) eqn:Ex.
      - injection Eold as ->. simpl. rewrite Ex. reflexivity.
      - rewrite Ex. apply IH. exact Eold. }
    rewrite Hfound in Hrun. simpl in Hrun. injection Hrun as <- <-.
    split; [right; reflexivity |]. split; [discriminate |].
    split; [exact Hfound | reflexivity].
  - rewrite Eold in Hrun. simpl in Hrun. injection Hrun as <- <-.
    split; [left; reflexivity |]. split; [reflexivity |].
    split; [exact Eold | reflexivity].
Qed.

(** X5.  A change of role takes effect on the next request: after
    [update_user] has set a role, [get_current_user] resolves a token of
    that user, old or new, to the user data with the new role, the very
    data [update_user] returned. *)
Theorem role_change_is_immediate (verify_token : string -> option Payload)
    (user_id : Z) (data : UserUpdate) (current : UserResponse) (w w' : World)
    (u : UserResponse) (r : UserRole) (credentials : string) :
  update_user user_id data current w = (Ok u, w') ->
  UserUpdate_role data = Some r ->
  verify_token credentials = Some {| Payload_user_id := Some user_id |} ->
  user_id <> 0 ->
  get_current_user verify_token credentials w' = (Ok u, w')
  /\ UserResponse_role u = r.
Proof.
  intros Hrun Hr Htok Hnz.
  destruct (update_user_run _ _ _ _ _ _ Hrun) as (old & _ & _ & _ & _ & Hfound & Hu).
  rewrite Hr in *. rewrite orb_true_r in *.
  split.
  - unfold get_current_user. rewrite Htok. cbn [Payload_user_id truthy_int].
    destruct (Z.eqb_spec user_id 0); [contradiction |]. cbn [negb].
    munfold. rewrite Hfound. subst u. reflexivity.
  - subst u. unfold UserResponse_of, apply_UserUpdate. simpl. rewrite Hr. reflexivity.
Qed.

(** X6.  What [update_user] writes: the named user gets the stripped name
    and the role that the body gives and keeps what it does not give; id,
    e-mail, password and creation time stay; every other user is left as
    it was; a body with neither field changes nothing. *)
Theorem update_user_result (user_id : Z) (data : UserUpdate) (current : UserResponse)
    (w w' : World) (u : UserResponse) :
  update_user user_id data current w = (Ok u, w') ->
  exists old,
    user_by_id (db w) user_id = Some old
    /\ UserResponse_id u = User_id old
    /\ UserResponse_email u = User_email old
    /\ UserResponse_name u
       = match UserUpdate_name data with Some n => strip n | None => User_name old end
    /\ UserResponse_role u
       = match UserUpdate_role data with Some r => r | None => User_role old end
    /\ option_map UserResponse_of (user_by_id (db w') user_id) = Some u
    /\ option_map User_password (user_by_id (db w') user_id) = Some (User_password old)
    /\ (forall other, other <> user_id ->
          user_by_id (db w') other = user_by_id (db w) other)
    /\ (UserUpdate_name data = None -> UserUpdate_role data = None -> w' = w).
Proof.
  intros Hrun.
  destruct (update_user_run _ _ _ _ _ _ Hrun) as (old & _ & Hold & Hw & Hsame & Hfound & Hu).
  exists old. split; [exact Hold |].
  assert (Hshape : forall row,
    row = (if is_some (UserUpdate_name data) || is_some (UserUpdate_role data)
           then apply_UserUpdate data old else old) ->
    User_id row = User_id old /\ User_email row = User_email old
    /\ User_name row = match UserUpdate_name data with
                       | Some n => strip n | None => User_name old end
    /\ User_role row = match UserUpdate_role data with
                       | Some r => r | None => User_role old end
    /\ User_password row = User_password old).
  { intros row ->. unfold apply_UserUpdate.
    destruct (UserUpdate_name data), (UserUpdate_role data); simpl;
      repeat split; reflexivity. }
  destruct (Hshape _ eq_refl) as (H1 & H2 & H3 & H4 & H5).
  subst u. unfold UserResponse_of at 1 2 3 4.
  cbn [UserResponse_id UserResponse_email UserResponse_name UserResponse_role].
  split; [exact H1 |]. split; [exact H2 |]. split; [exact H3 |]. split; [exact H4 |].
  rewrite Hfound. split; [reflexivity |]. split; [simpl; f_equal; exact H5 |].
  split.
  - intros other Hne. destruct Hw as [-> | ->]; [reflexivity |].
    unfold user_by_id, fetchone, update_rows. simpl.
    induction (rows (tUser (db w))) as [| x xs IH]; [reflexivity |].
    simpl. destruct (Z.eqb_spec (User_id x) user_id) as [Ex | Ex].
    + unfold apply_UserUpdate at 1. cbn [User_id].
      destruct (Z.eqb_spec (User_id x) other) as [Eo | Eo]; [congruence | exact IH].
    + destruct (User_id x =? other); [reflexivity | exact IH].
  - intros Hn Hr. apply Hsame. rewrite Hn, Hr. reflexivity.
Qed.

(** X7.  The routes under /users are for admins only: anybody else is
    answered 403 "Admin access required" by all four and nothing is read or
    changed, and an admin never gets that answer. *)
Theorem users_admin_only (current : UserResponse) (w : World) :
  (UserResponse_role current <> ADMIN ->
     (forall limit offset search,
        list_users limit offset search current w
        = (Raise (HTTPException 403 "Admin access required"), w))
     /\ (forall user_id,
           get_user user_id current w
           = (Raise (HTTPException 403 "Admin access required"), w))
     /\ (forall user_id data,
           update_user user_id data current w
           = (Raise (HTTPException 403 "Admin access required"), w))
     /\ (forall user_id,
           delete_user user_id current w
           = (Raise (HTTPException 403 "Admin access required"), w)))
  /\ (UserResponse_role current = ADMIN ->
      (forall limit offset search,
         fst (list_users limit offset search current w)
         <> Raise (HTTPException 403 "Admin access required"))
      /\ (forall user_id,
            fst (get_user user_id current w)
            <> Raise (HTTPException 403 "Admin access required"))
      /\ (forall user_id data,
            fst (update_user user_id data current w)
            <> Raise (HTTPException 403 "Admin access required"))
      /\ (forall user_id,
            fst (delete_user user_id current w)
            <> Raise (HTTPException 403 "Admin access required"))).
Proof.
  split.
  - intros Hr. unfold list_users, get_user, update_user, delete_user, get_current_admin.
    munfold. destruct (UserResponse_role current); [| contradiction].
    simpl. repeat split; reflexivity.
  - intros Hr. unfold list_users, get_user, update_user, delete_user, get_current_admin.
    munfold. rewrite Hr. cbn [UserRole_eqb negb]. repeat split.
    + intros limit offset search. unfold Query.
      destruct limit as [l |]; [destruct ((1 <=? l) && (l <=? 100)) |];
        (destruct offset as [o |]; [destruct ((0 <=? o) && true) |]); simpl; discriminate.
    + intros user_id. destruct (user_by_id (db w) user_id); simpl; discriminate.
    + intros user_id data. destruct (user_by_id (db w) user_id); simpl; [| discriminate].
      destruct (is_some _ || is_some _); simpl;
        match goal with
        | |- context [user_by_id ?d ?i] => destruct (user_by_id d i)
        end; simpl; discriminate.
    + intros user_id. destruct (user_by_id (db w) user_id); simpl; discriminate.
Qed.

(** *** The e-mail validator *)

Lemma matches_Empty (s : string) : matches Empty s = false.
Proof. induction s; simpl; auto. Qed.

Lemma matches_Alt (a b : regex) (s : string) :
  matches (Alt a b) s = matches a s || matches b s.
Proof. revert a b. induction s as [| c s IH]; intros a b; simpl; [reflexivity | apply IH]. Qed.

Lemma matches_Eps (s : string) : matches Eps s = true <-> s = "".
Proof.
  destruct s as [| c s]; simpl; [tauto |]. rewrite matches_Empty.
  split; discriminate.
Qed.

Lemma matches_Seq (a b : regex) (s : string) :
  matches (Seq a b) s = true
  <-> exists s1 s2, s = (s1 ++ s2)%string /\ matches a s1 = true /\ matches b s2 = true.
Proof.
  revert a. induction s as [| c s IH]; intros a.
  - simpl. rewrite andb_true_iff. split.
    + intros (Ha & Hb). exists "", "". auto.
    + intros (s1 & s2 & Hs & Ha & Hb).
      destruct s1; [| discriminate]. destruct s2; [| discriminate]. auto.
  - assert (Hstep : matches (Seq a b) (String c s) = true
                    <-> matches (Seq (deriv c a) b) s = true
                        \/ (nullable a = true /\ matches (deriv c b) s = true)).
    { simpl. destruct (nullable a).
      - rewrite matches_Alt, orb_true_iff. tauto.
      - split; [auto | intros [H | (H & _)]; [exact H | discriminate]]. }
    rewrite Hstep, IH. split.
    + intros [(s1 & s2 & -> & Ha & Hb) | (Hn & Hb)].
      * exists (String c s1), s2. auto.
      * exists "", (String c s). auto.
    + intros (s1 & s2 & Hs & Ha & Hb). destruct s1 as [| c1 s1].
      * right. simpl in Hs. subst s2. auto.
      * left. simpl in Hs. injection Hs as <- ->. exists s1, s2. auto.
Qed.

Lemma matches_Chr (c : ascii) (s : string) :
  matches (Chr c) s = true <-> s = String c "".
Proof.
  destruct s as [| c' s]; simpl; [split; discriminate |].
  destruct (Ascii.eqb_spec c' c) as [-> | Hne].
  - rewrite matches_Eps. split; [intros ->; reflexivity | intros [= ->]; reflexivity].
  - rewrite matches_Empty. split; [discriminate | intros [= -> _]; contradiction].
Qed.

Lemma matches_Star_Class (p : ascii -> bool) (s : string) :
  matches (Star (Class p)) s = all_chars p s.
Proof.
  induction s as [| c s IH]; [reflexivity |].
  change (matches (Star (Class p)) (String c s))
    with (matches (Seq (if p c then Eps else Empty) (Star (Class p))) s).
  simpl. destruct (p c); simpl.
  - rewrite <- IH. apply eq_true_iff_eq. rewrite matches_Seq. split.
    + intros (s1 & s2 & -> & H1 & H2). apply matches_Eps in H1. subst s1. exact H2.
    + intros H. exists "", s. auto.
  - destruct (matches (Seq Empty (Star (Class p))) s) eqn:E; [| reflexivity].
    apply matches_Seq in E. destruct E as (s1 & s2 & _ & H1 & _).
    rewrite matches_Empty in H1. discriminate.
Qed.

Lemma matches_Class_Star (p : ascii -> bool) (s : string) :
  matches (Seq (Class p) (Star (Class p))) s = true
  <-> s <> "" /\ all_chars p s = true.
Proof.
  destruct s as [| c s].
  - simpl. split; [discriminate | intros (H & _); contradiction].
  - change (matches (Seq (Class p) (Star (Class p))) (String c s))
      with (matches (Star (Class p)) (String c s)).
    rewrite matches_Star_Class. split; [intros H; split; [discriminate | exact H] | tauto].
Qed.

Lemma matches_AtLeast2_Class (p : ascii -> bool) (s : string) :
  matches (AtLeast2 (Class p)) s = true
  <-> (2 <= String.length s)%nat /\ all_chars p s = true.
Proof.
  unfold AtLeast2. destruct s as [| c s].
  - simpl. split; [discriminate | intros (H & _); simpl in H; lia].
  - change (matches (Seq (Class p) (Seq (Class p) (Star (Class p)))) (String c s))
      with (matches (Seq (if p c then Eps else Empty)
                       (Seq (Class p) (Star (Class p)))) s).
    rewrite matches_Seq. cbn [all_chars String.length]. split.
    + intros (s1 & s2 & -> & H1 & H2). destruct (p c).
      * apply matches_Eps in H1. subst s1. apply matches_Class_Star in H2.
        destruct H2 as (Hne & Hall). simpl. split; [| exact Hall].
        destruct s2; [contradiction | simpl; lia].
      * rewrite matches_Empty in H1. discriminate.
    + intros (Hlen & Hall). apply andb_true_iff in Hall. destruct Hall as (Hc & Hall).
      rewrite Hc. exists "", s. split; [reflexivity |]. split; [reflexivity |].
      apply matches_Class_Star. split; [| exact Hall].
      destruct s; [simpl in Hlen; lia | discriminate].
Qed.

Lemma chop_newline_append (s : string) : chop_newline (s ++ line_feed) = Some s.
Proof.
  induction s as [| c s IH]; [reflexivity |].
  change ((String c s ++ line_feed)%string) with (String c (s ++ line_feed)).
  destruct (s ++ line_feed)%string as [| c2 s2] eqn:E.
  - destruct s; discriminate.
  - change (chop_newline (String c (String c2 s2)))
      with (option_map (String c) (chop_newline (String c2 s2))).
    rewrite IH. reflexivity.
Qed.

Lemma chop_newline_spec (s s' : string) :
  chop_newline s = Some s' <-> s = (s' ++ line_feed)%string.
Proof.
  split; [| intros ->; apply chop_newline_append].
  revert s'. induction s as [| c s IH]; intros s'; [discriminate |].
  destruct s as [| c2 s2].
  - simpl. destruct (Ascii.eqb_spec c "010"%char) as [-> | Hne]; [| discriminate].
    intros [= <-]. reflexivity.
  - change (chop_newline (String c (String c2 s2)))
      with (option_map (String c) (chop_newline (String c2 s2))).
    destruct (chop_newline (String c2 s2)) as [t |]; simpl; [| discriminate].
    intros [= <-]. simpl. f_equal. apply IH. reflexivity.
Qed.

Lemma matches_EMAIL_REGEX (s : string) :
  matches EMAIL_REGEX s = true
  <-> exists local domain tld,
        s = (local ++ "@" ++ domain ++ "." ++ tld)%string
        /\ local <> "" /\ all_chars is_local_char local = true
        /\ domain <> "" /\ all_chars is_domain_char domain = true
        /\ (2 <= String.length tld)%nat /\ all_chars is_letter tld = true.
Proof.
  unfold EMAIL_REGEX, Plus. rewrite matches_Seq. split.
  - intros (local & r1 & -> & Hl & H1). apply matches_Class_Star in Hl.
    apply matches_Seq in H1. destruct H1 as (at_ & r2 & -> & Ha & H2).
    apply matches_Chr in Ha. subst at_.
    apply matches_Seq in H2. destruct H2 as (domain & r3 & -> & Hd & H3).
    apply matches_Class_Star in Hd.
    apply matches_Seq in H3. destruct H3 as (dot & tld & -> & Hdot & Ht).
    apply matches_Chr in Hdot. subst dot. apply matches_AtLeast2_Class in Ht.
    exists local, domain, tld. tauto.
  - intros (local & domain & tld & -> & Hl1 & Hl2 & Hd1 & Hd2 & Ht1 & Ht2).
    exists local, ("@" ++ domain ++ "." ++ tld)%string.
    split; [reflexivity |]. split; [apply matches_Class_Star; tauto |].
    apply matches_Seq. exists "@", (domain ++ "." ++ tld)%string.
    split; [reflexivity |]. split; [apply matches_Chr; reflexivity |].
    apply matches_Seq. exists domain, ("." ++ tld)%string.
    split; [reflexivity |]. split; [apply matches_Class_Star; tauto |].
    apply matches_Seq. exists ".", tld.
    split; [reflexivity |]. split; [apply matches_Chr; reflexivity |].
    apply matches_AtLeast2_Class. tauto.
Qed.

Lemma append_assoc (a b c : string) : ((a ++ b) ++ c = a ++ (b ++ c))%string.
Proof. induction a; simpl; [reflexivity | f_equal; assumption]. Qed.

Lemma append_nil_r (s : string) : (s ++ "")%string = s.
Proof. induction s; simpl; [reflexivity | f_equal; assumption]. Qed.

Lemma re_match_EMAIL_REGEX (v : string) :
  re_match EMAIL_REGEX v = true <-> email_shape v.
Proof.
  unfold re_match, email_shape. rewrite orb_true_iff, matches_EMAIL_REGEX. split.
  - intros [(local & domain & tld & -> & H) | H].
    + exists local, domain, tld, "". rewrite append_nil_r. repeat split; try tauto.
    + destruct (chop_newline v) as [v' |] eqn:E; [| discriminate].
      apply chop_newline_spec in E. apply matches_EMAIL_REGEX in H.
      destruct H as (local & domain & tld & -> & H).
      exists local, domain, tld, line_feed. subst v.
      split; [| tauto]. rewrite !append_assoc. reflexivity.
  - intros (local & domain & tld & ending & -> & Hl1 & Hl2 & Hd1 & Hd2 & Ht1 & Ht2 & [-> | ->]).
    + left. exists local, domain, tld. rewrite append_nil_r. tauto.
    + right.
      assert (E : chop_newline (local ++ "@" ++ domain ++ "." ++ tld ++ line_feed)
                  = Some (local ++ "@" ++ domain ++ "." ++ tld)%string).
      { apply chop_newline_spec. rewrite !append_assoc. reflexivity. }
      rewrite E. apply matches_EMAIL_REGEX. exists local, domain, tld. tauto.
Qed.

(** X8.  The addresses that the validator of [UserCreate] and
    [LoginRequest] accepts are exactly those made of a local part, an at
    sign, a domain, a dot and a top-level name of two letters or more, with
    or without one line feed at the end; an accepted address is returned in
    small letters, any other text is refused with a [ValueError]. *)
Theorem validate_email_shape (v : string) :
  (email_shape v -> validate_email v = Ok (lower v))
  /\ (~ email_shape v -> validate_email v = Raise (Exception "ValueError")).
Proof.
  unfold validate_email. split.
  - intros H. apply re_match_EMAIL_REGEX in H. rewrite H. reflexivity.
  - intros H. destruct (re_match EMAIL_REGEX v) eqn:E; [| reflexivity].
    apply re_match_EMAIL_REGEX in E. contradiction.
Qed.

Lemma deriv_lower (c : ascii) (r : regex) :
  case_blind r -> deriv (lower_ascii c) r = deriv c r /\ case_blind (deriv c r).
Proof.
  induction r as [| | c0 | p | a IHa b IHb | a IHa b IHb | a IHa]; simpl.
  - auto.
  - auto.
  - intros H. rewrite H. destruct (Ascii.eqb c c0); simpl; auto.
  - intros H. rewrite H. destruct (p c); simpl; auto.
  - intros (Ha & Hb). destruct (IHa Ha) as (Ea & Ca). destruct (IHb Hb) as (Eb & Cb).
    rewrite Ea, Eb. destruct (nullable a); simpl; auto.
  - intros (Ha & Hb). destruct (IHa Ha) as (Ea & Ca). destruct (IHb Hb) as (Eb & Cb).
    rewrite Ea, Eb. simpl. auto.
  - intros Ha. destruct (IHa Ha) as (Ea & Ca). rewrite Ea. simpl. auto.
Qed.

Lemma matches_lower (r : regex) (s : string) :
  case_blind r -> matches r (lower s) = matches r s.
Proof.
  revert r. induction s as [| c s IH]; intros r Hr; [reflexivity |].
  simpl. destruct (deriv_lower c r Hr) as (E & C). rewrite E. apply IH. exact C.
Qed.

Lemma lower_ascii_line_feed (c : ascii) :
  Ascii.eqb (lower_ascii c) "010"%char = Ascii.eqb c "010"%char.
Proof.
  destruct c as [[] [] [] [] [] [] [] []]; reflexivity.
Qed.

Lemma chop_newline_lower (s : string) :
  chop_newline (lower s) = option_map lower (chop_newline s).
Proof.
  induction s as [| c s IH]; [reflexivity |].
  destruct s as [| c2 s2].
  - simpl. rewrite lower_ascii_line_feed. destruct (Ascii.eqb c "010"%char); reflexivity.
  - change (lower (String c (String c2 s2)))
      with (String (lower_ascii c) (String (lower_ascii c2) (lower s2))).
    change (chop_newline (String (lower_ascii c) (String (lower_ascii c2) (lower s2))))
      with (option_map (String (lower_ascii c))
              (chop_newline (lower (String c2 s2)))).
    rewrite IH.
    change (chop_newline (String c (String c2 s2)))
      with (option_map (String c) (chop_newline (String c2 s2))).
    destruct (chop_newline (String c2 s2)); reflexivity.
Qed.

Lemma case_blind_EMAIL_REGEX : case_blind EMAIL_REGEX.
Proof.
  assert (H1 : forall c, is_local_char (lower_ascii c) = is_local_char c)
    by (intros [[] [] [] [] [] [] [] []]; reflexivity).
  assert (H2 : forall c, is_domain_char (lower_ascii c) = is_domain_char c)
    by (intros [[] [] [] [] [] [] [] []]; reflexivity).
  assert (H3 : forall c, is_letter (lower_ascii c) = is_letter c)
    by (intros [[] [] [] [] [] [] [] []]; reflexivity).
  assert (H4 : forall c, Ascii.eqb (lower_ascii c) "@" = Ascii.eqb c "@")
    by (intros [[] [] [] [] [] [] [] []]; reflexivity).
  assert (H5 : forall c, Ascii.eqb (lower_ascii c) "." = Ascii.eqb c ".")
    by (intros [[] [] [] [] [] [] [] []]; reflexivity).
  simpl. tauto.
Qed.

Lemma re_match_lower (v : string) :
  re_match EMAIL_REGEX (lower v) = re_match EMAIL_REGEX v.
Proof.
  unfold re_match. rewrite matches_lower by apply case_blind_EMAIL_REGEX.
  rewrite chop_newline_lower. destruct (chop_newline v) as [v' |]; simpl; [| reflexivity].
  rewrite matches_lower by apply case_blind_EMAIL_REGEX. reflexivity.
Qed.

Lemma lower_lower (s : string) : lower (lower s) = lower s.
Proof.
  induction s as [| c s IH]; simpl; [reflexivity |]. rewrite IH. f_equal.
  destruct c as [[] [] [] [] [] [] [] []]; reflexivity.
Qed.

(** X9.  The validator does not tell capital letters from small ones: two
    texts that differ only in the case of their letters are both refused or
    both accepted as the same address, and validating an accepted address
    again returns it unchanged. *)
Theorem validate_email_case_blind (v v' : string) :
  lower v' = lower v ->
  validate_email v' = validate_email v
  /\ (forall e, validate_email v = Ok e -> validate_email e = Ok e).
Proof.
  intros H. unfold validate_email. split.
  - rewrite <- (re_match_lower v'), <- (re_match_lower v), H.
    destruct (re_match EMAIL_REGEX (lower v)); reflexivity.
  - intros e. destruct (re_match EMAIL_REGEX v) eqn:E; simpl; [| discriminate].
    intros [= <-]. rewrite re_match_lower, E. simpl. rewrite lower_lower. reflexivity.
Qed.

(** X10.  An e-mail can be registered once, in whatever case it is written:
    when two texts that differ only in the case of their letters are
    validated and the first is registered, registering the second is
    answered 400 "Email already registered" and changes nothing. *)
Theorem register_email_taken (env env' : Env) (user user' : UserCreate)
    (raw raw' : string) (w w' : World) (a : AuthResponse) :
  validate_email raw = Ok (UserCreate_email user) ->
  validate_email raw' = Ok (UserCreate_email user') ->
  lower raw' = lower raw ->
  register env user w = (Ok a, w') ->
  register env' user' w' = (Raise (HTTPException 400 "Email already registered"), w').
Proof.
  intros Hv Hv' Hcase Hrun.
  assert (Hsame : UserCreate_email user' = UserCreate_email user).
  { unfold validate_email in Hv, Hv'.
    destruct (re_match EMAIL_REGEX raw); [| discriminate].
    destruct (re_match EMAIL_REGEX raw'); [| discriminate].
    simpl in Hv, Hv'. congruence. }
  destruct (register_run _ _ _ _ _ Hrun) as (Hfresh & Hw & _). cbv zeta in Hw.
  unfold register. munfold. rewrite Hsame.
  assert (Hfind : is_some (fetchone
            (fun u => String.eqb (User_email u) (UserCreate_email user)) (tUser (db w')))
          = true).
  { subst w'. unfold fetchone. simpl. rewrite find_app_new; [reflexivity | exact Hfresh |].
    simpl. apply String.eqb_refl. }
  rewrite Hfind. reflexivity.
Qed.

(** *** Tags *)

(** X11.  [create_tag] fails in two ways only, and in both nothing is
    changed: 403 for a caller who names a user and is no admin, and 500
    "Database error" when the store refuses the row.  The handler's answer
    400 "Tag already exists" is never given: [execute_db] has already
    turned the store's refusal into the 500. *)
Theorem create_tag_failures (env : Env) (data : TagCreate) (user_id : option Z)
    (current : UserResponse) (w w' : World) (e : Failure) :
  create_tag env data user_id current w = (Raise e, w') ->
  w' = w
  /\ e <> HTTPException 400 "Tag already exists"
  /\ ((e = HTTPException 403 "Admin access required for user_id"
       /\ user_id <> None /\ UserResponse_role current <> ADMIN)
      \/ (e = HTTPException 500 "Database error"
          /\ INSERT_Tag (match user_id with Some u => u | None => UserResponse_id current end)
               (strip (TagCreate_name data)) (CURRENT_TIMESTAMP env) (db w) = None)).
Proof.
  unfold create_tag. munfold.
  assert (Hfound : forall uid i d,
    INSERT_Tag uid (strip (TagCreate_name data)) (CURRENT_TIMESTAMP env) (db w) = Some (i, d) ->
    tag_by_id d i <> None).
  { intros uid i d. unfold INSERT_Tag.
    destruct (existsb _ _); [discriminate |]. destruct (negb _); [discriminate |].
    intros [= <- <-]. unfold tag_by_id, fetchone. simpl.
    match goal with
    | |- find ?p (?l ++ [?x]) <> None =>
        assert (Hsome : is_some (find p (l ++ [x])) = true)
          by (apply (find_is_some p (l ++ [x]) x);
              [apply in_or_app; right; left; reflexivity | apply Z.eqb_refl])
    end.
    intros Hnone. rewrite Hnone in Hsome. discriminate. }
  destruct user_id as [uid |]; simpl.
  - destruct (UserResponse_role current) eqn:Er; simpl.
    + intros [= <- <-]. split; [reflexivity |]. split; [discriminate |].
      left. repeat split; discriminate.
    + destruct (INSERT_Tag _ _ _ _) as [[i d] |] eqn:Ei; simpl.
      * specialize (Hfound _ _ _ Ei). destruct (tag_by_id d i); [discriminate | contradiction].
      * intros [= <- <-]. split; [reflexivity |]. split; [discriminate |].
        right. split; reflexivity.
  - destruct (INSERT_Tag _ _ _ _) as [[i d] |] eqn:Ei; simpl.
    + specialize (Hfound _ _ _ Ei). destruct (tag_by_id d i); [discriminate | contradiction].
    + intros [= <- <-]. split; [reflexivity |]. split; [discriminate |].
      right. split; reflexivity.
Qed.

(** [ORDER BY]: the rows are the same, and they come in order. *)
Lemma insert_sorted_Permutation {R : Type} (le : R -> R -> bool) (x : R) (l : list R) :
  Permutation (insert_sorted le x l) (x :: l).
Proof.
  induction l as [| y l IH]; simpl; [reflexivity |].
  destruct (le x y); [reflexivity |].
  rewrite IH. apply perm_swap.
Qed.

Lemma order_by_Permutation {R : Type} (le : R -> R -> bool) (l : list R) :
  Permutation (order_by le l) l.
Proof.
  unfold order_by. induction l as [| x l IH]; simpl; [reflexivity |].
  rewrite insert_sorted_Permutation. constructor. exact IH.
Qed.

Lemma insert_sorted_Sorted {R : Type} (le : R -> R -> bool) (x : R) (l : list R) :
  (forall a b, le a b = true \/ le b a = true) ->
  Sorted (fun a b => le a b = true) l ->
  Sorted (fun a b => le a b = true) (insert_sorted le x l).
Proof.
  intros Htotal. induction l as [| y l IH]; intros Hs; simpl.
  - repeat constructor.
  - destruct (le x y) eqn:E.
    + constructor; [exact Hs | constructor; exact E].
    + inversion Hs as [| ? ? Hs' Hhd]; subst. constructor; [apply IH; exact Hs' |].
      destruct l as [| z l]; simpl.
      * constructor. destruct (Htotal x y) as [H | H]; [congruence | exact H].
      * inversion Hhd; subst. destruct (le x z).
        -- constructor. destruct (Htotal x y) as [H | H]; [congruence | exact H].
        -- constructor. assumption.
Qed.

Lemma order_by_Sorted {R : Type} (le : R -> R -> bool) (l : list R) :
  (forall a b, le a b = true \/ le b a = true) ->
  Sorted (fun a b => le a b = true) (order_by le l).
Proof.
  intros Htotal. unfold order_by. induction l as [| x l IH]; simpl; [constructor |].
  apply insert_sorted_Sorted; assumption.
Qed.

(** X12.  [list_tags] returns the tags of one user, each once, in the order
    of their names, and changes nothing; the user is the caller unless an
    admin names another one, so a caller who is no admin sees own tags
    only. *)
Theorem list_tags_own_sorted (user_id : option Z) (current : UserResponse)
    (w w' : World) (l : list TagRow) :
  list_tags user_id current w = (Ok l, w') ->
  w' = w
  /\ (UserResponse_role current <> ADMIN -> user_id = None)
  /\ Permutation l
       (filter (fun t => Tag_user_id t
                         =? match user_id with
                            | Some u => u
                            | None => UserResponse_id current
                            end)
          (rows (tTag (db w))))
  /\ Sorted (fun a b => String.leb (Tag_name a) (Tag_name b) = true) l.
Proof.
  unfold list_tags. munfold. intros Hrun.
  assert (Htotal : forall a b : TagRow,
            String.leb (Tag_name a) (Tag_name b) = true
            \/ String.leb (Tag_name b) (Tag_name a) = true)
    by (intros; apply String.leb_total).
  destruct user_id as [uid |]; simpl in Hrun.
  - destruct (UserResponse_role current) eqn:Er; simpl in Hrun; [discriminate |].
    injection Hrun as <- <-. split; [reflexivity |]. split; [congruence |].
    split; [apply order_by_Permutation |].
    apply (order_by_Sorted (fun a b => String.leb (Tag_name a) (Tag_name b))). exact Htotal.
  - injection Hrun as <- <-. split; [reflexivity |]. split; [reflexivity |].
    split; [apply order_by_Permutation |].
    apply (order_by_Sorted (fun a b => String.leb (Tag_name a) (Tag_name b))). exact Htotal.
Qed.

(** *** Listing tasks *)

Lemma Query_Ok (loc : string) (default : Z) (ge le : option Z) (raw : option Z)
    (w w' : World) (v : Z) :
  Query loc default ge le raw w = (Ok v, w') ->
  w' = w
  /\ v = match raw with Some x => x | None => default end
  /\ (raw <> None ->
      match ge with Some b => b <= v | None => True end
      /\ match le with Some b => v <= b | None => True end).
Proof.
  unfold Query. destruct raw as [x |]; munfold.
  - destruct ge as [g |], le as [l |]; simpl;
      repeat match goal with
             | |- context [?a <=? ?b] => destruct (Z.leb_spec a b); simpl
             end; intros [= <- <-]; repeat split; auto; lia.
  - intros [= <- <-]. repeat split; auto; congruence.
Qed.

Lemma each_task_response (rs : list TaskRow) (w : World) :
  exists l,
    (fix each (rs : list TaskRow) : M (list TaskResponse) :=
       match rs with
       | [] => ret []
       | r :: rest =>
           resp <- task_response r ;;
           out <- each rest ;;
           ret (resp :: out)
       end) rs w = (Ok l, w)
    /\ Forall2 (fun r resp =>
                  TaskResponse_id resp = Task_id r
                  /\ TaskResponse_user_id resp = Task_user_id r
                  /\ TaskResponse_status resp = Task_status r
                  /\ TaskResponse_due_at resp = Task_due_at r
                  /\ TaskResponse_created_at resp = Task_created_at r) rs l.
Proof.
  induction rs as [| r rs IH].
  - exists []. split; [reflexivity | constructor].
  - destruct IH as (l & Hl & Hall).
    destruct (task_response_run r w) as (resp & Hresp & H1 & H2 & _ & _ & H3 & H4 & _).
    assert (H5 : TaskResponse_created_at resp = Task_created_at r).
    { unfold task_response, task_counters, load_task_tags in Hresp. munfold.
      simpl in Hresp. injection Hresp as <-. reflexivity. }
    exists (resp :: l). split.
    + unfold bind at 1. rewrite Hresp. unfold bind at 1. rewrite Hl. reflexivity.
    + constructor; [| exact Hall]. repeat split; assumption.
Qed.

Lemma Forall2_In_r {A B : Type} (R : A -> B -> Prop) (l : list A) (l' : list B) (y : B) :
  Forall2 R l l' -> In y l' -> exists x, In x l /\ R x y.
Proof.
  induction 1 as [| a b l l' Hab Hall IH]; [intros [] |].
  intros [<- | Hin].
  - exists a. split; [left; reflexivity | exact Hab].
  - destruct (IH Hin) as (x & Hx & Hr). exists x. split; [right; exact Hx | exact Hr].
Qed.

Lemma Forall2_length_eq {A B : Type} (R : A -> B -> Prop) (l : list A) (l' : list B) :
  Forall2 R l l' -> List.length l = List.length l'.
Proof. induction 1; simpl; congruence. Qed.

Lemma In_LIMIT_OFFSET {R : Type} (limit offset : Z) (l : list R) (x : R) :
  In x (LIMIT_OFFSET limit offset l) -> In x l.
Proof.
  unfold LIMIT_OFFSET. intros H.
  assert (Hf : forall n (k : list R), In x (firstn n k) -> In x k).
  { induction n as [| n IH]; intros k Hk; [destruct Hk |].
    destruct k as [| y k]; [destruct Hk |]. destruct Hk as [-> | Hk]; [left; reflexivity |].
    right. apply IH. exact Hk. }
  apply Hf in H.
  revert H. generalize (Z.to_nat offset) as n. intros n. revert l.
  induction n as [| n IH]; intros l H; [exact H |].
  destruct l as [| y l]; [destruct H |]. right. apply IH. exact H.
Qed.

Lemma length_LIMIT_OFFSET {R : Type} (limit offset : Z) (l : list R) :
  0 <= limit -> Z.of_nat (List.length (LIMIT_OFFSET limit offset l)) <= limit.
Proof.
  intros Hl. unfold LIMIT_OFFSET.
  pose proof (firstn_le_length (Z.to_nat limit) (skipn (Z.to_nat offset) l)). lia.
Qed.

Lemma Sorted_LIMIT_OFFSET {R : Type} (rel : R -> R -> Prop) (limit offset : Z) (l : list R) :
  Sorted rel l -> Sorted rel (LIMIT_OFFSET limit offset l).
Proof.
  unfold LIMIT_OFFSET. intros Hs.
  assert (Hskip : forall n k, Sorted rel k -> Sorted rel (skipn n k)).
  { induction n as [| n IH]; intros k Hk; [exact Hk |].
    destruct k as [| y k]; [constructor |]. simpl. apply IH.
    inversion Hk; assumption. }
  assert (Hfirst : forall n k, Sorted rel k -> Sorted rel (firstn n k)).
  { induction n as [| n IH]; intros k Hk; [constructor |].
    destruct k as [| y k]; [constructor |]. simpl.
    inversion Hk as [| ? ? Hk' Hhd]; subst. constructor; [apply IH; exact Hk' |].
    destruct n; [constructor |]. destruct k; [constructor |].
    simpl. inversion Hhd; subst. constructor. assumption. }
  apply Hfirst, Hskip, Hs.
Qed.

Lemma Sorted_Forall2 {A B : Type} (ra : A -> A -> Prop) (rb : B -> B -> Prop)
    (same : A -> B -> Prop) (l : list A) (l' : list B) :
  (forall a a' b b', same a b -> same a' b' -> ra a a' -> rb b b') ->
  Forall2 same l l' -> Sorted ra l -> Sorted rb l'.
Proof.
  intros Hrel Hall. induction Hall as [| a b l l' Hab Hall IH]; intros Hs; [constructor |].
  inversion Hs as [| ? ? Hs' Hhd]; subst. constructor; [apply IH; exact Hs' |].
  destruct Hall as [| a2 b2 l l' Hab2 Hall]; [constructor |].
  inversion Hhd; subst. constructor. eapply Hrel; eassumption.
Qed.

(** X13.  [list_tasks] answers with at most [limit] tasks (20 when no
    limit is given, never more than 100), all of them tasks of one user
    that are in the store and have the status asked for, in the order of
    their due time (of their creation time where they have none), and
    changes nothing; the user is the caller unless an admin names another
    one, so a caller who is no admin never sees a task of somebody else. *)
Theorem list_tasks_own_bounded (search : option string) (status_filter : option TaskStatus)
    (due_from due_to : option datetime) (user_id limit offset : option Z)
    (current : UserResponse) (w w' : World) (l : list TaskResponse) :
  list_tasks search status_filter due_from due_to user_id limit offset current w
  = (Ok l, w') ->
  w' = w
  /\ (UserResponse_role current <> ADMIN -> user_id = None)
  /\ Z.of_nat (List.length l) <= match limit with Some n => n | None => 20 end <= 100
  /\ (forall t, In t l ->
        TaskResponse_user_id t
        = match user_id with Some u => u | None => UserResponse_id current end
        /\ (forall st, status_filter = Some st -> TaskResponse_status t = st)
        /\ exists row, In row (rows (tTask (db w))) /\ Task_id row = TaskResponse_id t)
  /\ Sorted (fun a b =>
               String.leb (COALESCE (TaskResponse_due_at a) (TaskResponse_created_at a))
                          (COALESCE (TaskResponse_due_at b) (TaskResponse_created_at b))
               = true) l.
Proof.
  intros Hrun. unfold list_tasks in Hrun.
  unfold bind at 1 in Hrun.
  destruct (Query "limit" 20 (Some 1) (Some 100) limit w) as [[lim | e] w1] eqn:Elim;
    [| discriminate].
  destruct (Query_Ok _ _ _ _ _ _ _ _ Elim) as (-> & Hlim & Hlimb).
  unfold bind at 1 in Hrun.
  destruct (Query "offset" 0 (Some 0) None offset w) as [[off | e] w1] eqn:Eoff;
    [| discriminate].
  destruct (Query_Ok _ _ _ _ _ _ _ _ Eoff) as (-> & Hoff & Hoffb).
  assert (Hrange : 1 <= lim <= 100).
  { destruct limit as [x |]; [| lia]. destruct Hlimb as (? & ?); [discriminate | lia]. }
  assert (Horange : 0 <= off).
  { destruct offset as [x |]; [| lia]. destruct Hoffb as (? & _); [discriminate | lia]. }
  rewrite (normalize_pagination_id lim off Hrange Horange) in Hrun.
  unfold bind at 1 in Hrun.
  assert (Hwho : (UserResponse_role current <> ADMIN -> user_id = None)
                 /\ exists rs,
                      (forall r, In r rs ->
                         In r (rows (tTask (db w)))
                         /\ Task_user_id r
                            = match user_id with
                              | Some u => u
                              | None => UserResponse_id current
                              end
                         /\ (forall st, status_filter = Some st -> Task_status r = st))
                      /\ Z.of_nat (List.length rs) <= lim
                      /\ Sorted (fun a b =>
                                   String.leb (COALESCE (Task_due_at a) (Task_created_at a))
                                              (COALESCE (Task_due_at b) (Task_created_at b))
                                   = true) rs
                      /\ (fix each (rs : list TaskRow) : M (list TaskResponse) :=
                            match rs with
                            | [] => ret []
                            | r :: rest =>
                                resp <- task_response r ;;
                                out <- each rest ;;
                                ret (resp :: out)
                            end) rs w = (Ok l, w')).
  { destruct user_id as [u |].
    - destruct (UserResponse_role current) eqn:Er; simpl in Hrun; [discriminate |].
      split; [congruence |]. unfold bind, query, ret in Hrun. simpl in Hrun.
      eexists. split; [| split; [| split; [| exact Hrun]]].
      + intros r Hr. apply In_LIMIT_OFFSET in Hr.
        apply (Permutation_in _ (order_by_Permutation _ _)) in Hr.
        apply filter_In in Hr. destruct Hr as (Hin & Hp).
        repeat (apply andb_true_iff in Hp; destruct Hp as (Hp & ?)).
        split; [exact Hin |]. split; [apply Z.eqb_eq; assumption |].
        intros st ->. destruct (Task_status r), st; simpl in *; congruence.
      + apply length_LIMIT_OFFSET. lia.
      + apply Sorted_LIMIT_OFFSET.
        apply (order_by_Sorted
                 (fun a b => String.leb (COALESCE (Task_due_at a) (Task_created_at a))
                                        (COALESCE (Task_due_at b) (Task_created_at b)))).
        intros a b. apply String.leb_total.
    - split; [reflexivity |]. unfold bind, query, ret in Hrun. simpl in Hrun.
      eexists. split; [| split; [| split; [| exact Hrun]]].
      + intros r Hr. apply In_LIMIT_OFFSET in Hr.
        apply (Permutation_in _ (order_by_Permutation _ _)) in Hr.
        apply filter_In in Hr. destruct Hr as (Hin & Hp).
        repeat (apply andb_true_iff in Hp; destruct Hp as (Hp & ?)).
        split; [exact Hin |]. split; [apply Z.eqb_eq; assumption |].
        intros st ->. destruct (Task_status r), st; simpl in *; congruence.
      + apply length_LIMIT_OFFSET. lia.
      + apply Sorted_LIMIT_OFFSET.
        apply (order_by_Sorted
                 (fun a b => String.leb (COALESCE (Task_due_at a) (Task_created_at a))
                                        (COALESCE (Task_due_at b) (Task_created_at b)))).
        intros a b. apply String.leb_total. }
  destruct Hwho as (Hadmin & rs & Hrs & Hlen & Hsorted & Heach).
  destruct (each_task_response rs w) as (l0 & Hl0 & Hall).
  rewrite Hl0 in Heach. injection Heach as <- <-.
  split; [reflexivity |]. split; [exact Hadmin |]. split; [| split].
  - rewrite <- (Forall2_length_eq _ _ _ Hall). subst lim. lia.
  - intros t Ht. destruct (Forall2_In_r _ _ _ _ Hall Ht) as (r & Hr & H1 & H2 & H3 & _).
    destruct (Hrs r Hr) as (Hin & Hu & Hst).
    split; [congruence |]. split.
    + intros st Hs. rewrite H3. apply Hst. exact Hs.
    + exists r. split; [exact Hin | congruence].
  - refine (Sorted_Forall2 _ _ _ _ _ _ Hall Hsorted).
    intros a a' b b' (_ & _ & _ & Hd & Hc) (_ & _ & _ & Hd' & Hc') Hle.
    rewrite Hd, Hc, Hd', Hc'. exact Hle.
Qed.

(** *** Changing a task *)

(** The [UPDATE Task] of [update_task]: it touches the Task table only and
    the task keeps its id and its owner. *)
Lemma update_task_written (task_id : Z) (data : TaskUpdate) (w : World) (row : TaskRow) :
  task_by_id (db w) task_id = Some row ->
  exists w1 row1,
    when (TaskUpdate_has_updates data)
      (execute_ (fun d =>
         set_tTask d (update_rows (fun t => Task_id t =? task_id)
                        (apply_TaskUpdate data) (tTask d)))) w = (Ok tt, w1)
    /\ tTag (db w1) = tTag (db w)
    /\ tTaskTag (db w1) = tTaskTag (db w)
    /\ task_by_id (db w1) task_id = Some row1
    /\ Task_user_id row1 = Task_user_id row.
Proof.
  intros Hrow. unfold when. destruct (TaskUpdate_has_updates data).
  - eexists. exists (apply_TaskUpdate data row). munfold. split; [reflexivity |]. simpl.
    split; [reflexivity |]. split; [reflexivity |]. split; [| reflexivity].
    unfold task_by_id, fetchone, update_rows in *. simpl.
    rewrite find_map_same by reflexivity. rewrite Hrow. simpl.
    apply find_some in Hrow. rewrite (proj2 Hrow). reflexivity.
  - exists w, row. repeat split; auto.
Qed.

(** X14.  [update_task] replaces the tags of the task.  With a list of tag
    ids that the store can bind next to the owner's id (integers of 64
    bits, no more than one statement takes): when they all belong to the
    owner of the task (not to the caller, who may be an admin) the task
    ends up linked to exactly these tags and the links of every other task
    stay; when one of them is no tag of the owner the answer is 400 with
    the list of such ids.  A list that the store cannot bind is answered
    500 "Database error", and an empty list removes the links of the task.
    Without a list the links are left alone. *)
Theorem update_task_replaces_tags (task_id : Z) (data : TaskUpdate)
    (current : UserResponse) (w : World) (row : TaskRow) :
  task_by_id (db w) task_id = Some row ->
  canAccess (UserResponse_id current) (UserResponse_role current) (Task_user_id row) = true ->
  (forall l, TaskUpdate_tag_ids data = Some l ->
     (l <> [] -> bindable (Task_user_id row :: l)) ->
     unknown_tag_ids (db w) (Task_user_id row) l = [] ->
     exists resp w',
       update_task task_id data current w = (Ok resp, w')
       /\ (forall x, In x (tTaskTag (db w')) <->
             (In x (tTaskTag (db w)) /\ TaskTag_task_id x <> task_id)
             \/ (TaskTag_task_id x = task_id /\ In (TaskTag_tag_id x) l))
       /\ (forall t, In t (TaskResponse_tags resp) <->
             In t (rows (tTag (db w))) /\ In (Tag_id t) l))
  /\ (forall l, TaskUpdate_tag_ids data = Some l ->
        bindable (Task_user_id row :: l) ->
        unknown_tag_ids (db w) (Task_user_id row) l <> [] ->
        fst (update_task task_id data current w)
        = Raise (HTTPException 400
                   ("Unknown tag_ids for this user: "
                    ++ repr_int_list (unknown_tag_ids (db w) (Task_user_id row) l))))
  /\ (forall l, TaskUpdate_tag_ids data = Some l -> l <> [] ->
        ~ bindable (Task_user_id row :: l) ->
        exists w',
          update_task task_id data current w
          = (Raise (HTTPException 500 "Database error"), w')
          /\ tTaskTag (db w') = tTaskTag (db w))
  /\ (TaskUpdate_tag_ids data = None ->
      exists resp w',
        update_task task_id data current w = (Ok resp, w')
        /\ tTaskTag (db w') = tTaskTag (db w)).
Proof.
  intros Hrow Hacc.
  destruct (update_task_written task_id data w row Hrow)
    as (w1 & row1 & Hw1 & Htag & Hlinks & Hrow1 & Howner).
  assert (Hhead :
    update_task task_id data current w
    = bind (sync_task_tags task_id (Task_user_id row) (TaskUpdate_tag_ids data))
        (fun _ => bind (query (fun d => task_by_id d task_id))
                    (fun updated => bind (expect updated) task_response)) w1).
  { unfold update_task. unfold bind at 1. unfold query at 1. rewrite Hrow.
    unfold bind at 1. rewrite ensure_task_access_canAccess, Hacc.
    unfold bind at 1. rewrite Hw1. reflexivity. }
  rewrite Hhead. clear Hhead.
  assert (Hunknown : forall l, unknown_tag_ids (db w1) (Task_user_id row) l
                               = unknown_tag_ids (db w) (Task_user_id row) l).
  { intros l. unfold unknown_tag_ids. rewrite Htag. reflexivity. }
  assert (Htail : forall links,
    exists resp,
      bind (query (fun d => task_by_id d task_id))
        (fun updated => bind (expect updated) task_response)
        (set_db w1 (set_tTaskTag (db w1) links))
      = (Ok resp, set_db w1 (set_tTaskTag (db w1) links))
      /\ fst (load_task_tags task_id (set_db w1 (set_tTaskTag (db w1) links)))
         = Ok (TaskResponse_tags resp)).
  { intros links. unfold bind at 1. unfold query at 1. cbn [db set_db].
    change (task_by_id (set_tTaskTag (db w1) links) task_id)
      with (task_by_id (db w1) task_id).
    rewrite Hrow1. unfold bind at 1. unfold expect, ret.
    destruct (task_response_run row1 (set_db w1 (set_tTaskTag (db w1) links)))
      as (resp & Hresp & Hid & _ & _ & _ & _ & _ & _ & _ & Htags).
    exists resp. split; [exact Hresp |].
    assert (Hid1 : Task_id row1 = task_id).
    { unfold task_by_id, fetchone in Hrow1. apply find_some in Hrow1.
      apply Z.eqb_eq, (proj2 Hrow1). }
    rewrite Hid1 in Htags. exact Htags. }
  split; [| split; [| split]].
  - intros l Hl Hbind Hknown.
    destruct (sync_task_tags_ok task_id (Task_user_id row) (TaskUpdate_tag_ids data) w1)
      as (links & Hsync & Hin).
    { intros l0 Hl0 Hne. rewrite Hl in Hl0. injection Hl0 as <-.
      apply bindable_binds, Hbind, Hne. }
    { intros l0 Hl0. rewrite Hunknown. rewrite Hl in Hl0. injection Hl0 as <-. exact Hknown. }
    { intros _. rewrite Hrow1. reflexivity. }
    destruct (Htail links) as (resp & Hresp & Htags).
    exists resp. eexists. unfold bind at 1. rewrite Hsync. split; [exact Hresp |].
    rewrite Hl in Hin. split.
    + intros x. cbn [db set_db tTaskTag set_tTaskTag]. rewrite Hin, Hlinks. reflexivity.
    + intros t. rewrite (load_task_tags_In _ _ _ Htags t).
      cbn [db set_db tTag set_tTaskTag]. rewrite Htag, has_link_In.
      cbn [tTaskTag set_tTaskTag]. rewrite Hin. simpl. split.
      * intros (Ht & [(_ & Hne) | (_ & Hg)]); [contradiction Hne; reflexivity | tauto].
      * intros (Ht & Hg). split; [exact Ht | right; tauto].
  - intros l Hl Hbind Hbad. rewrite Hl. unfold sync_task_tags.
    apply bindable_binds in Hbind.
    rewrite <- Hunknown in Hbad |- *. unfold unknown_tag_ids in Hbad |- *. unfold fetchall in *.
    destruct l as [| g l]; [contradiction Hbad; reflexivity |].
    unfold query_bound. rewrite Hbind.
    munfold. cbv zeta.
    destruct (filter _ (g :: l)) as [| b bs] eqn:E; [contradiction Hbad; reflexivity |].
    reflexivity.
  - intros l Hl Hne Hbind. rewrite Hl. unfold sync_task_tags.
    apply not_bindable_binds in Hbind.
    destruct l as [| g l]; [contradiction Hne; reflexivity |].
    unfold query_bound. rewrite Hbind.
    exists w1. split; [reflexivity | exact Hlinks].
  - intros Hnone. rewrite Hnone. unfold sync_task_tags. unfold bind at 1. unfold ret at 1.
    destruct (Htail (tTaskTag (db w1))) as (resp & Hresp & _).
    assert (Hsame : set_db w1 (set_tTaskTag (db w1) (tTaskTag (db w1))) = w1)
      by (destruct w1 as [[] ?]; reflexivity).
    rewrite Hsame in Hresp. exists resp, w1. split; [exact Hresp | exact Hlinks].
Qed.

(** *** One task and what hangs on it *)

Lemma order_by_length {R : Type} (le : R -> R -> bool) (l : list R) :
  List.length (order_by le l) = List.length l.
Proof. apply Permutation_length, order_by_Permutation. Qed.

(** X15.  The counters of a task agree with the listings: whenever
    [get_task] answers, [list_subtasks], [list_files] and [list_reminders]
    answer the same caller too, and the three counts in the task are the
    lengths of the three lists. *)
Theorem get_task_counts_agree (task_id : Z) (current : UserResponse) (w w' : World)
    (resp : TaskResponse) :
  get_task task_id current w = (Ok resp, w') ->
  exists subtasks files reminders,
    list_subtasks task_id current w = (Ok subtasks, w)
    /\ list_files task_id current w = (Ok files, w)
    /\ list_reminders task_id current w = (Ok reminders, w)
    /\ TaskResponse_subtasks_count resp = Z.of_nat (List.length subtasks)
    /\ TaskResponse_files_count resp = Z.of_nat (List.length files)
    /\ TaskResponse_reminders_count resp = Z.of_nat (List.length reminders).
Proof.
  unfold get_task, list_subtasks, list_files, list_reminders. munfold.
  destruct (task_by_id (db w) task_id) as [row |] eqn:Erow; [| discriminate].
  rewrite ensure_task_access_canAccess.
  destruct (canAccess _ _ _); [| discriminate].
  unfold task_response, task_counters, load_task_tags. munfold. simpl.
  intros [= <- <-].
  assert (Hid : Task_id row = task_id).
  { unfold task_by_id, fetchone in Erow. apply find_some in Erow.
    apply Z.eqb_eq, (proj2 Erow). }
  do 3 eexists. split; [reflexivity |]. split; [reflexivity |]. split; [reflexivity |].
  cbn [TaskResponse_subtasks_count TaskResponse_files_count TaskResponse_reminders_count].
  rewrite length_map, !order_by_length, Hid. unfold COUNT. repeat split; reflexivity.
Qed.

(** *** Subtasks *)

(** X16.  A subtask that has been created is listed: the answer of
    [create_subtask] carries the stripped title and the done flag of the
    request, and [list_subtasks] on that task then gives the same caller a
    list that holds this answer and is one longer than before. *)
Theorem create_subtask_then_listed (env : Env) (data : SubTaskCreate)
    (current : UserResponse) (w w' : World) (resp : SubTaskResponse) :
  ids_bounded (db w) ->
  create_subtask env data current w = (Ok resp, w') ->
  SubTaskResponse_task_id resp = SubTaskCreate_task_id data
  /\ SubTaskResponse_title resp = strip (SubTaskCreate_title data)
  /\ SubTaskResponse_is_done resp = SubTaskCreate_is_done data
  /\ exists before after,
       list_subtasks (SubTaskCreate_task_id data) current w = (Ok before, w)
       /\ list_subtasks (SubTaskCreate_task_id data) current w' = (Ok after, w')
       /\ In resp after
       /\ List.length after = S (List.length before).
Proof.
  intros (_ & Hb & _) Hrun. unfold create_subtask in Hrun. munfold.
  destruct (task_by_id (db w) (SubTaskCreate_task_id data)) as [task |] eqn:Etask;
    [| discriminate].
  rewrite ensure_task_access_canAccess in Hrun.
  destruct (canAccess _ _ _) eqn:Eacc; [| discriminate].
  unfold INSERT_SubTask in Hrun. destruct (negb _); [discriminate |].
  cbn [insert_row] in Hrun.
  set (new := {| SubTask_id := lastrowid (tSubTask (db w)) + 1;
                 SubTask_task_id := SubTaskCreate_task_id data;
                 SubTask_user_id := Task_user_id task;
                 SubTask_title := strip (SubTaskCreate_title data);
                 SubTask_is_done := int_of_bool (SubTaskCreate_is_done data);
                 SubTask_created_at := CURRENT_TIMESTAMP env;
                 SubTask_updated_at := CURRENT_TIMESTAMP env |}) in *.
  assert (Hfound : subtask_by_id
            (set_tSubTask (db w)
               {| rows := rows (tSubTask (db w)) ++ [new];
                  lastrowid := lastrowid (tSubTask (db w)) + 1 |})
            (lastrowid (tSubTask (db w)) + 1) = Some new).
  { unfold subtask_by_id, fetchone. simpl. apply find_app_new.
    - intros y Hy. destruct (Hb y Hy) as (Hy1 & _). apply Z.eqb_neq. lia.
    - simpl. apply Z.eqb_refl. }
  cbn [db set_db] in Hrun. rewrite Hfound in Hrun. injection Hrun as <- <-.
  split; [reflexivity |]. split; [reflexivity |].
  split; [simpl; destruct (SubTaskCreate_is_done data); reflexivity |].
  unfold list_subtasks. munfold. cbn [db set_db].
  change (task_by_id (set_tSubTask (db w) _) (SubTaskCreate_task_id data))
    with (task_by_id (db w) (SubTaskCreate_task_id data)).
  rewrite Etask, !ensure_task_access_canAccess, Eacc.
  do 2 eexists. split; [reflexivity |]. split; [reflexivity |]. split.
  - apply in_map. apply order_by_In. apply filter_In. split.
    + simpl. apply in_or_app. right. left. reflexivity.
    + simpl. apply Z.eqb_refl.
  - rewrite !length_map, !order_by_length. unfold fetchall. simpl.
    rewrite filter_app, length_app. simpl. rewrite Z.eqb_refl. simpl. lia.
Qed.

(** *** Files *)

(** X17.  What has been uploaded can be downloaded: after [upload_file]
    the upload directory keeps the content under the storage path of the
    answer, and [download_file] on the new id serves the same caller that
    path under the file name of the upload, with the declared content type
    or, where none is declared, as application/octet-stream. *)
Theorem upload_then_download (env : Env) (task_id : Z) (file : UploadFile)
    (current : UserResponse) (w w' : World) (row : FileRow) :
  ids_bounded (db w) ->
  upload_file env task_id file current w = (Ok row, w') ->
  stored_bytes w' (File_storage_path row) = Some (UploadFile_content file)
  /\ File_size_bytes row = len (UploadFile_content file)
  /\ File_task_id row = task_id
  /\ download_file (File_id row) current w'
     = (Ok (File_storage_path row,
            if truthy_str (UploadFile_filename file)
            then COALESCE (UploadFile_filename file) "file" else "file",
            if truthy_str (UploadFile_content_type file)
            then COALESCE (UploadFile_content_type file) "application/octet-stream"
            else "application/octet-stream"), w').
Proof.
  intros (_ & _ & Hb & _) Hrun. unfold upload_file in Hrun. munfold.
  destruct (task_by_id (db w) task_id) as [task |] eqn:Etask; [| discriminate].
  rewrite ensure_task_access_canAccess in Hrun.
  destruct (canAccess _ _ _) eqn:Eacc; [| discriminate].
  destruct (len (UploadFile_content file) =? 0); [discriminate |].
  destruct (len (UploadFile_content file) >? MAX_UPLOAD); [discriminate |].
  unfold write_file in Hrun. destruct (_ || _); [discriminate |].
  unfold INSERT_File in Hrun. cbn [db set_disk] in Hrun.
  destruct (negb _); [discriminate |]. cbn [insert_row] in Hrun.
  match type of Hrun with
  | context [rows (tFile (db w)) ++ [?r]] => set (new := r) in *
  end.
  assert (Hfound : file_by_id
            (set_tFile (db w)
               {| rows := rows (tFile (db w)) ++ [new];
                  lastrowid := lastrowid (tFile (db w)) + 1 |})
            (lastrowid (tFile (db w)) + 1) = Some new).
  { unfold file_by_id, fetchone. simpl. apply find_app_new.
    - intros y Hy. destruct (Hb y Hy) as (Hy1 & _). apply Z.eqb_neq. lia.
    - simpl. apply Z.eqb_refl. }
  cbn [db set_db set_disk] in Hrun. rewrite Hfound in Hrun. injection Hrun as <- <-.
  split; [| split; [reflexivity | split; [reflexivity |]]].
  - unfold stored_bytes. simpl. rewrite String.eqb_refl. reflexivity.
  - unfold download_file. munfold. cbn [db set_db set_disk disk].
    change (File_id new) with (lastrowid (tFile (db w)) + 1). rewrite Hfound.
    cbn [db set_db set_disk disk].
    change (task_by_id (set_tFile (db w)
                          {| rows := rows (tFile (db w)) ++ [new];
                             lastrowid := lastrowid (tFile (db w)) + 1 |})
              (File_task_id new))
      with (task_by_id (db w) task_id).
    rewrite Etask, ensure_task_access_canAccess, Eacc.
    assert (Hex : forall p c (k : list (string * bytes)), path_exists ((p, c) :: k) p = true).
    { intros p c k. unfold path_exists. simpl. rewrite String.eqb_refl. reflexivity. }
    unfold os_path_exists. cbn [disk set_db set_disk File_storage_path new].
    rewrite Hex. cbn [negb].
    subst new. cbn [File_storage_path File_filename File_content_type].
    destruct (UploadFile_filename file) as [n |]; simpl;
      [destruct (String.eqb n "") |]; reflexivity.
Qed.

(** What [remove_if_exists] leaves of the upload directory. *)
Lemma remove_if_exists_disk (env : Env) (path : string) (w : World) :
  remove_if_exists env path w
  = (Ok tt,
     if path_exists (disk w) path && negb (remove_raises env path)
     then set_disk w (filter (fun e => negb (String.eqb (fst e) path)) (disk w))
     else w).
Proof.
  unfold remove_if_exists, try_except, os_path_exists, os_remove, when, bind, ret.
  destruct (path_exists (disk w) path) eqn:Ex; simpl; [| reflexivity].
  rewrite Ex. destruct (remove_raises env path); reflexivity.
Qed.

(** X18.  [delete_file] removes the row whatever happens to the bytes: for
    a caller allowed on the task the answer is "File deleted", the File row
    of that id is gone and every other row stays, the bytes are gone from
    the upload directory unless [os.remove] raised, nothing else in the
    directory is touched, and a download of that id is answered 404. *)
Theorem delete_file_best_effort (env : Env) (file_id : Z) (current : UserResponse)
    (w : World) (row : FileRow) (task : TaskRow) :
  file_by_id (db w) file_id = Some row ->
  task_by_id (db w) (File_task_id row) = Some task ->
  canAccess (UserResponse_id current) (UserResponse_role current) (Task_user_id task) = true ->
  exists w',
    delete_file env file_id current w = (Ok "File deleted", w')
    /\ (forall f, In f (rows (tFile (db w'))) <->
                  In f (rows (tFile (db w))) /\ File_id f <> file_id)
    /\ (remove_raises env (File_storage_path row) = false ->
        path_exists (disk w') (File_storage_path row) = false)
    /\ (forall q, q <> File_storage_path row ->
          stored_bytes w' q = stored_bytes w q)
    /\ download_file file_id current w'
       = (Raise (HTTPException 404 "File not found"), w').
Proof.
  intros Hrow Htask Hacc. unfold delete_file. munfold.
  rewrite Hrow, Htask, ensure_task_access_canAccess, Hacc.
  fold (@bind P). unfold bind. rewrite remove_if_exists_disk.
  eexists. split; [reflexivity |].
  set (gone := path_exists (disk w) (File_storage_path row)
               && negb (remove_raises env (File_storage_path row))).
  split; [| split; [| split]].
  - intros f. destruct gone; simpl; rewrite filter_In, negb_true_iff, Z.eqb_neq; tauto.
  - intros Hr. subst gone. rewrite Hr, andb_true_r.
    destruct (path_exists (disk w) (File_storage_path row)) eqn:Ex; simpl; [| exact Ex].
    rewrite path_exists_filter, String.eqb_refl. apply andb_false_r.
  - intros q Hq. unfold stored_bytes. destruct gone; simpl; [| reflexivity].
    f_equal. induction (disk w) as [| e k IH]; [reflexivity |].
    simpl. destruct (String.eqb_spec (fst e) (File_storage_path row)) as [Ep | Ep]; simpl.
    + destruct (String.eqb_spec (fst e) q) as [Eq | Eq]; [congruence | exact IH].
    + destruct (String.eqb (fst e) q); [reflexivity | exact IH].
  - unfold download_file. munfold.
    assert (Hnone : forall v : World,
              db v = DELETE_File file_id (db w) -> file_by_id (db v) file_id = None).
    { intros v ->. unfold file_by_id, fetchone, DELETE_File. simpl.
      destruct (find _ _) as [x |] eqn:Ex; [| reflexivity].
      apply find_some in Ex. destruct Ex as (Hin & Hid).
      apply filter_In in Hin. destruct Hin as (_ & Hne). rewrite Hid in Hne. discriminate. }
    rewrite Hnone; [reflexivity |]. destruct gone; reflexivity.
Qed.

(** *** Reminders *)

(** X19.  A new reminder is scheduled from its own start: when the ISO
    codec gives back the start time it wrote, the stored next run is the
    start (read as UTC when it carries no offset) plus the interval, and
    without a start it is the clock plus the interval; the reminder hangs
    on the task of the route and [list_reminders] shows it. *)
Theorem create_reminder_schedules (env : Env) (task_id : Z) (data : ReminderCreate)
    (current : UserResponse) (w w' : World) (row : ReminderRow) :
  ids_bounded (db w) ->
  (forall start, ReminderCreate_start_at data = Some start ->
     isoformat start <> "" /\ fromisoformat (isoformat start) = Some start) ->
  create_reminder env task_id data current w = (Ok row, w') ->
  Reminder_task_id row = task_id
  /\ Reminder_every_minutes row = ReminderCreate_every_minutes data
  /\ Reminder_next_run_at row
     = Some (isoformat
               (add_minutes
                  (match ReminderCreate_start_at data with
                   | Some start => default_utc start
                   | None => utcnow env
                   end)
                  (ReminderCreate_every_minutes data)))
  /\ exists l, list_reminders task_id current w' = (Ok l, w') /\ In row l.
Proof.
  intros (_ & _ & _ & Hb & _) Hcodec Hrun. unfold create_reminder in Hrun. munfold.
  destruct (task_by_id (db w) task_id) as [task |] eqn:Etask; [| discriminate].
  rewrite ensure_task_access_canAccess in Hrun.
  destruct (canAccess _ _ _) eqn:Eacc; [| discriminate].
  destruct (compute_next_run env _ _) as [next |] eqn:Enext; [| discriminate].
  unfold INSERT_Reminder in Hrun. destruct (negb _); [discriminate |].
  cbn [insert_row] in Hrun.
  match type of Hrun with
  | context [rows (tReminder (db w)) ++ [?r]] => set (new := r) in *
  end.
  assert (Hfound : reminder_by_id
            (set_tReminder (db w)
               {| rows := rows (tReminder (db w)) ++ [new];
                  lastrowid := lastrowid (tReminder (db w)) + 1 |})
            (lastrowid (tReminder (db w)) + 1) = Some new).
  { unfold reminder_by_id, fetchone. simpl. apply find_app_new.
    - intros y Hy. destruct (Hb y Hy) as (Hy1 & _). apply Z.eqb_neq. lia.
    - simpl. apply Z.eqb_refl. }
  cbn [db set_db] in Hrun. rewrite Hfound in Hrun. injection Hrun as <- <-.
  split; [reflexivity |]. split; [reflexivity |]. split.
  - subst new. cbn [Reminder_next_run_at]. f_equal. unfold compute_next_run in Enext.
    destruct (plus_minutes _ _) as [dt |] eqn:Ep; [| discriminate].
    injection Enext as <-. apply plus_minutes_Ok in Ep. subst dt. do 2 f_equal.
    destruct (ReminderCreate_start_at data) as [start |]; simpl; [| reflexivity].
    destruct (Hcodec start eq_refl) as (Hne & Hback).
    destruct (String.eqb_spec (isoformat start) ""); [contradiction |].
    simpl. rewrite Hback. reflexivity.
  - unfold list_reminders. munfold. cbn [db set_db].
    change (task_by_id (set_tReminder (db w)
                          {| rows := rows (tReminder (db w)) ++ [new];
                             lastrowid := lastrowid (tReminder (db w)) + 1 |}) task_id)
      with (task_by_id (db w) task_id).
    rewrite Etask, ensure_task_access_canAccess, Eacc.
    eexists. split; [reflexivity |].
    apply order_by_In. apply filter_In. split.
    + simpl. apply in_or_app. right. left. reflexivity.
    + simpl. apply Z.eqb_refl.
Qed.


(** *** The calendar *)

Lemma each_calendar_item (rs : list TaskRow) (w : World) :
  (exists l,
     (fix each (rs : list TaskRow) : M (list CalendarItem) :=
        match rs with
        | [] => ret []
        | r :: rest =>
            due <- match Task_due_at r with
                   | Some s =>
                       match fromisoformat s with
                       | Some due => ret due
                       | None => raise (Exception "ValueError")
                       end
                   | None => raise (Exception "TypeError")
                   end ;;
            out <- each rest ;;
            ret ({| CalendarItem_task_id := Task_id r; CalendarItem_title := Task_title r;
                    CalendarItem_due_at := due; CalendarItem_status := Task_status r;
                    CalendarItem_user_id := Task_user_id r |} :: out)
        end) rs w = (Ok l, w)
     /\ Forall2 (fun r item =>
                   CalendarItem_task_id item = Task_id r
                   /\ CalendarItem_user_id item = Task_user_id r
                   /\ CalendarItem_title item = Task_title r
                   /\ CalendarItem_status item = Task_status r
                   /\ exists s, Task_due_at r = Some s
                                /\ fromisoformat s = Some (CalendarItem_due_at item)) rs l)
  \/ (exists e r,
        (fix each (rs : list TaskRow) : M (list CalendarItem) :=
           match rs with
           | [] => ret []
           | r :: rest =>
               due <- match Task_due_at r with
                      | Some s =>
                          match fromisoformat s with
                          | Some due => ret due
                          | None => raise (Exception "ValueError")
                          end
                      | None => raise (Exception "TypeError")
                      end ;;
               out <- each rest ;;
               ret ({| CalendarItem_task_id := Task_id r; CalendarItem_title := Task_title r;
                       CalendarItem_due_at := due; CalendarItem_status := Task_status r;
                       CalendarItem_user_id := Task_user_id r |} :: out)
           end) rs w = (Raise e, w)
        /\ In r rs
        /\ match Task_due_at r with
           | Some s => fromisoformat s = None /\ e = Exception "ValueError"
           | None => e = Exception "TypeError"
           end).
Proof.
  match goal with
  | |- (exists l, ?f rs w = _ /\ _) \/ _ => set (each := f)
  end.
  assert (Hstep : forall r rest,
    each (r :: rest) w
    = bind (match Task_due_at r with
            | Some s =>
                match fromisoformat s with
                | Some due => ret due
                | None => raise (Exception "ValueError")
                end
            | None => raise (Exception "TypeError")
            end)
        (fun due => bind (each rest) (fun out =>
           ret ({| CalendarItem_task_id := Task_id r; CalendarItem_title := Task_title r;
                   CalendarItem_due_at := due; CalendarItem_status := Task_status r;
                   CalendarItem_user_id := Task_user_id r |} :: out))) w)
    by reflexivity.
  induction rs as [| r rs IH].
  - left. exists []. split; [reflexivity | constructor].
  - rewrite Hstep. destruct (Task_due_at r) as [s |] eqn:Es;
      [destruct (fromisoformat s) as [due |] eqn:Ed |].
    + destruct IH as [(l & Hl & Hall) | (e & r' & He & Hin & Hr')].
      * left. eexists. unfold bind, ret. rewrite Hl. split; [reflexivity |].
        constructor; [| exact Hall]. simpl. repeat split; try reflexivity.
        exists s. split; assumption.
      * right. exists e, r'. unfold bind, ret. rewrite He.
        split; [reflexivity |]. split; [right; exact Hin | exact Hr'].
    + right. exists (Exception "ValueError"), r. split; [reflexivity |].
      split; [left; reflexivity |]. rewrite Es. split; [exact Ed | reflexivity].
    + right. exists (Exception "TypeError"), r.
      split; [reflexivity |]. split; [left; reflexivity |]. rewrite Es. reflexivity.
Qed.

Lemma Forall2_In_l {A B : Type} (R : A -> B -> Prop) (l : list A) (l' : list B) (x : A) :
  Forall2 R l l' -> In x l -> exists y, In y l' /\ R x y.
Proof.
  induction 1 as [| a b l l' Hab Hall IH]; [intros [] |].
  intros [<- | Hin].
  - exists b. split; [left; reflexivity | exact Hab].
  - destruct (IH Hin) as (y & Hy & Hr). exists y. split; [right; exact Hy | exact Hr].
Qed.

(** X21.  [calendar_view] answers with the tasks of one user whose stored
    due time lies, compared as text, between the ISO forms of the two
    bounds: every item is such a task, with the due time parsed from the
    stored text, and every such task has its item; nothing is changed, and
    the user is the caller unless an admin names another one. *)
Theorem calendar_view_in_range (date_from date_to : datetime) (user_id : option Z)
    (current : UserResponse) (w w' : World) (l : list CalendarItem) :
  calendar_view date_from date_to user_id current w = (Ok l, w') ->
  w' = w
  /\ (UserResponse_role current <> ADMIN -> user_id = None)
  /\ (forall item, In item l ->
        CalendarItem_user_id item
        = match user_id with Some u => u | None => UserResponse_id current end
        /\ exists row due,
             In row (rows (tTask (db w)))
             /\ Task_id row = CalendarItem_task_id item
             /\ Task_due_at row = Some due
             /\ fromisoformat due = Some (CalendarItem_due_at item)
             /\ String.leb (isoformat date_from) due = true
             /\ String.leb due (isoformat date_to) = true)
  /\ (forall row due,
        In row (rows (tTask (db w))) ->
        Task_user_id row
        = match user_id with Some u => u | None => UserResponse_id current end ->
        Task_due_at row = Some due ->
        String.leb (isoformat date_from) due = true ->
        String.leb due (isoformat date_to) = true ->
        exists item,
          In item l /\ CalendarItem_task_id item = Task_id row
          /\ CalendarItem_title item = Task_title row).
Proof.
  intros Hrun. unfold calendar_view in Hrun. unfold bind at 1 in Hrun.
  set (target := match user_id with Some u => u | None => UserResponse_id current end).
  assert (Hwho : (UserResponse_role current <> ADMIN -> user_id = None)
                 /\ exists rs,
                      (forall r, In r rs <->
                         In r (rows (tTask (db w)))
                         /\ Task_user_id r = target
                         /\ exists due, Task_due_at r = Some due
                              /\ String.leb (isoformat date_from) due = true
                              /\ String.leb due (isoformat date_to) = true)
                      /\ (fix each (rs : list TaskRow) : M (list CalendarItem) :=
                            match rs with
                            | [] => ret []
                            | r :: rest =>
                                due <- match Task_due_at r with
                                       | Some s =>
                                           match fromisoformat s with
                                           | Some due => ret due
                                           | None => raise (Exception "ValueError")
                                           end
                                       | None => raise (Exception "TypeError")
                                       end ;;
                                out <- each rest ;;
                                ret ({| CalendarItem_task_id := Task_id r;
                                        CalendarItem_title := Task_title r;
                                        CalendarItem_due_at := due;
                                        CalendarItem_status := Task_status r;
                                        CalendarItem_user_id := Task_user_id r |} :: out)
                            end) rs w = (Ok l, w')).
  { assert (Hrows : forall u r,
      In r (order_by (fun a b => String.leb (COALESCE (Task_due_at a) "")
                                            (COALESCE (Task_due_at b) ""))
              (fetchall (fun t => (Task_user_id t =? u)
                                  && match Task_due_at t with
                                     | Some due => String.leb (isoformat date_from) due
                                                   && String.leb due (isoformat date_to)
                                     | None => false
                                     end) (tTask (db w))))
      <-> In r (rows (tTask (db w))) /\ Task_user_id r = u
          /\ exists due, Task_due_at r = Some due
               /\ String.leb (isoformat date_from) due = true
               /\ String.leb due (isoformat date_to) = true).
    { intros u r. rewrite order_by_In. unfold fetchall. rewrite filter_In.
      rewrite andb_true_iff, Z.eqb_eq. destruct (Task_due_at r) as [due |].
      - rewrite andb_true_iff. split.
        + intros (Hin & Hu & H1 & H2). split; [exact Hin |]. split; [exact Hu |].
          exists due. auto.
        + intros (Hin & Hu & due' & [= <-] & H1 & H2). auto.
      - split; [intros (_ & _ & H); discriminate |].
        intros (_ & _ & due & H & _). discriminate. }
    destruct user_id as [u |].
    - destruct (UserResponse_role current) eqn:Er; simpl in Hrun; [discriminate |].
      split; [congruence |]. unfold bind, query, ret in Hrun. simpl in Hrun.
      eexists. split; [| exact Hrun]. intros r. apply Hrows.
    - split; [reflexivity |]. unfold bind, query, ret in Hrun. simpl in Hrun.
      eexists. split; [| exact Hrun]. intros r. apply Hrows. }
  destruct Hwho as (Hadmin & rs & Hrs & Heach).
  destruct (each_calendar_item rs w) as [(l0 & Hl0 & Hall) | (e & r & He & _)].
  2:{ rewrite He in Heach. discriminate. }
  rewrite Hl0 in Heach. injection Heach as <- <-.
  split; [reflexivity |]. split; [exact Hadmin |]. split.
  - intros item Hitem.
    destruct (Forall2_In_r _ _ _ _ Hall Hitem) as (r & Hr & H1 & H2 & _ & _ & s & Hs & Hp).
    apply Hrs in Hr. destruct Hr as (Hin & Hu & due & Hdue & Hlo & Hhi).
    split; [congruence |]. exists r, due.
    split; [exact Hin |]. split; [congruence |]. split; [exact Hdue |].
    split; [congruence |]. split; assumption.
  - intros row due Hin Hu Hdue Hlo Hhi.
    assert (Hr : In row rs) by (apply Hrs; split; [exact Hin |]; split; [exact Hu |];
                                exists due; auto).
    destruct (Forall2_In_l _ _ _ _ Hall Hr) as (item & Hitem & H1 & _ & H3 & _).
    exists item. auto.
Qed.

(** *** Requests that only read *)

(** X22.  A request to a GET route changes nothing, whoever sends it and
    whatever the answer is: the store and the upload directory after it
    are those before it. *)
Theorem get_changes_nothing (env : Env) (current : UserResponse) (req : Request)
    (w : World) :
  is_get req = true -> snd (handle env current req w) = w.
Proof.
  assert (Hfmap : forall A B (f : A -> B) (m : M A), readonly m -> readonly (fmap f m)).
  { intros A B f m Hm v. unfold fmap, bind, ret. specialize (Hm v).
    destruct (m v) as [[a | e] v1]; exact Hm. }
  destruct req; cbn [is_get]; try discriminate; intros _; unfold handle; apply Hfmap.
  - unfold profile. apply readonly_ret.
  - apply list_users_readonly.
  - apply get_user_readonly.
  - apply list_tags_readonly.
  - apply list_tasks_readonly.
  - apply get_task_readonly.
  - apply list_subtasks_readonly.
  - apply calendar_view_readonly.
  - apply list_files_readonly.
  - apply download_file_readonly.
  - apply list_reminders_readonly.
Qed.

(** *** The middleware *)

Section MiddlewareProperties.

Context {W : Wire}.

(** X23.  Every response that comes back through [security_headers]
    carries the five headers with the values of the middleware, whatever
    the handler had put under these names; status, body and every other
    header are as the handler left them.  What is assumed of the header
    map: a name gives back what was last set under it, and setting a name
    leaves the names that differ from it, case aside, alone. *)
Theorem security_headers_set (probe : Probe) (request : HttpRequest)
    (call_next : M HttpResponse) (w w1 : World) (t : Telemetry) (resp : HttpResponse) :
  (forall k v h, get_header (set_header k v h) k = Some v) ->
  (forall k k' v h, lower k' <> lower k ->
     get_header (set_header k v h) k' = get_header h k') ->
  call_next w = (Ok resp, w1) ->
  exists out t',
    security_headers probe request call_next (w, t) = (Ok out, (w1, t'))
    /\ resp_status_code out = resp_status_code resp
    /\ resp_body out = resp_body resp
    /\ get_header (resp_headers out) "X-Content-Type-Options" = Some "nosniff"
    /\ get_header (resp_headers out) "X-Frame-Options" = Some "DENY"
    /\ get_header (resp_headers out) "Referrer-Policy" = Some "no-referrer"
    /\ get_header (resp_headers out) "Permissions-Policy"
       = Some "geolocation=(), microphone=(), camera=()"
    /\ get_header (resp_headers out) "Cache-Control" = Some "no-store"
    /\ (forall k,
          ~ In (lower k) ["x-content-type-options"; "x-frame-options"; "referrer-policy";
                          "permissions-policy"; "cache-control"] ->
          get_header (resp_headers out) k = get_header (resp_headers resp) k).
Proof.
  intros Hsame Hother Hnext. unfold security_headers. cbn [fst snd]. rewrite Hnext.
  do 2 eexists. split; [reflexivity |].
  cbn [with_header resp_status_code resp_body resp_headers].
  split; [reflexivity |]. split; [reflexivity |].
  repeat split.
  - rewrite !Hother by (vm_compute; discriminate). apply Hsame.
  - rewrite !Hother by (vm_compute; discriminate). apply Hsame.
  - rewrite !Hother by (vm_compute; discriminate). apply Hsame.
  - rewrite !Hother by (vm_compute; discriminate). apply Hsame.
  - apply Hsame.
  - intros k Hk.
    rewrite !Hother; [reflexivity | | | | |];
      intros E; apply Hk; rewrite E; vm_compute; tauto.
Qed.

(** X24.  The [finally] block of [security_headers] never changes the
    outcome: a failure of the handler is passed on as it is and a response
    keeps its status, whether or not the counter, the histogram or the
    logger raise.  When the counter does not raise, the request is counted
    exactly once, under its method, its path and the status of the
    response, or under 500 when the handler raised. *)
Theorem security_headers_counts (probe : Probe) (request : HttpRequest)
    (call_next : M HttpResponse) (w : World) (t : Telemetry) :
  let status :=
    match fst (call_next w) with
    | Ok resp => resp_status_code resp
    | Raise _ => 500
    end in
  let result := security_headers probe request call_next (w, t) in
  fst (snd result) = snd (call_next w)
  /\ (forall e, fst (call_next w) = Raise e -> fst result = Raise e)
  /\ (forall resp, fst (call_next w) = Ok resp ->
        exists out, fst result = Ok out /\ resp_status_code out = resp_status_code resp)
  /\ (forall probe',
        fst (security_headers probe' request call_next (w, t)) = fst result)
  /\ (inc_raises probe = false ->
      forall method path code,
        counter_value (snd (snd result)) method path code
        = (counter_value t method path code
           + if String.eqb (request_method request) method
                && String.eqb (request_url_path request) path
                && String.eqb (str_int status) code
             then 1 else 0)%nat)
  /\ (inc_raises probe = true ->
      HTTP_REQUESTS_TOTAL (snd (snd result)) = HTTP_REQUESTS_TOTAL t).
Proof.
  cbv zeta. unfold security_headers. cbn [fst snd].
  destruct (call_next w) as [[resp | e] w1]; cbn [fst snd].
  - split; [reflexivity |]. split; [discriminate |]. split.
    { intros r [= <-]. eexists. split; reflexivity. }
    split; [reflexivity |]. split.
    + intros Hinc method path code. rewrite Hinc. unfold counter_value.
      destruct (observe_raises probe), (info_raises probe);
        cbn [HTTP_REQUESTS_TOTAL]; rewrite filter_app, length_app; simpl;
        destruct (_ && _ && _); reflexivity.
    + intros Hinc. rewrite Hinc. destruct (info_raises probe); reflexivity.
  - split; [reflexivity |]. split; [intros e' [= <-]; reflexivity |]. split; [discriminate |].
    split; [reflexivity |]. split.
    + intros Hinc method path code. rewrite Hinc. unfold counter_value.
      destruct (observe_raises probe), (info_raises probe);
        cbn [HTTP_REQUESTS_TOTAL]; rewrite filter_app, length_app; simpl;
        destruct (_ && _ && _); reflexivity.
    + intros Hinc. rewrite Hinc. destruct (info_raises probe); reflexivity.
Qed.

End MiddlewareProperties.

(** *** Changing a subtask, renaming a tag *)

(** X25.  [update_subtask] writes what the body gives and nothing else: for
    a caller allowed on the parent task the answer has the stripped title
    and the done flag of the body where it gives them and those of the
    stored subtask where it does not; the subtask stays on its task, every
    other subtask is left as it was, and a body with neither field
    changes nothing. *)
Theorem update_subtask_result (subtask_id : Z) (data : SubTaskUpdate)
    (current : UserResponse) (w : World) (old : SubTaskRow) (task : TaskRow) :
  subtask_by_id (db w) subtask_id = Some old ->
  task_by_id (db w) (SubTask_task_id old) = Some task ->
  canAccess (UserResponse_id current) (UserResponse_role current) (Task_user_id task) = true ->
  exists out w',
    update_subtask subtask_id data current w = (Ok out, w')
    /\ SubTaskResponse_id out = SubTask_id old
    /\ SubTaskResponse_task_id out = SubTask_task_id old
    /\ SubTaskResponse_user_id out = SubTask_user_id old
    /\ SubTaskResponse_title out
       = match SubTaskUpdate_title data with
         | Some x => strip x
         | None => SubTask_title old
         end
    /\ SubTaskResponse_is_done out
       = match SubTaskUpdate_is_done data with
         | Some b => b
         | None => bool_of_int (SubTask_is_done old)
         end
    /\ option_map SubTaskResponse_of (subtask_by_id (db w') subtask_id) = Some out
    /\ (forall other, other <> subtask_id ->
          subtask_by_id (db w') other = subtask_by_id (db w) other)
    /\ (SubTaskUpdate_title data = None -> SubTaskUpdate_is_done data = None -> w' = w).
Proof.
  intros Hold Htask Hacc. unfold update_subtask. munfold.
  rewrite Hold, Htask, ensure_task_access_canAccess, Hacc.
  destruct (is_some (SubTaskUpdate_title data) || is_some (SubTaskUpdate_is_done data))
    eqn:Eany; simpl.
  - assert (Hfound : subtask_by_id
              (set_tSubTask (db w)
                 (update_rows (fun r => SubTask_id r =? subtask_id)
                    (apply_SubTaskUpdate data) (tSubTask (db w)))) subtask_id
            = Some (apply_SubTaskUpdate data old)).
    { unfold subtask_by_id, fetchone, update_rows in *. simpl.
      rewrite find_map_same by reflexivity. rewrite Hold. simpl.
      apply find_some in Hold. rewrite (proj2 Hold). reflexivity. }
    rewrite Hfound. do 2 eexists. split; [reflexivity |].
    cbn [db set_db]. rewrite Hfound.
    unfold SubTaskResponse_of, apply_SubTaskUpdate. simpl.
    repeat split.
    + destruct (SubTaskUpdate_is_done data) as [[] |]; reflexivity.
    + intros other Hne. unfold subtask_by_id, fetchone, update_rows. simpl.
      induction (rows (tSubTask (db w))) as [| x xs IH]; [reflexivity |].
      simpl. destruct (Z.eqb_spec (SubTask_id x) subtask_id) as [Ex | Ex].
      * cbn [SubTask_id].
        destruct (Z.eqb_spec (SubTask_id x) other) as [Eo | Eo]; [congruence | exact IH].
      * destruct (SubTask_id x =? other); [reflexivity | exact IH].
    + intros Ht Hd. rewrite Ht, Hd in Eany. discriminate.
  - rewrite Hold. do 2 eexists. split; [reflexivity |]. rewrite Hold.
    apply orb_false_iff in Eany. destruct Eany as (Et & Ed).
    destruct (SubTaskUpdate_title data); [discriminate |].
    destruct (SubTaskUpdate_is_done data); [discriminate |].
    repeat split.
Qed.

(** X26.  [update_tag] renames and nothing else: the answer has the id and
    the owner of the stored tag and the stripped name of the body, the
    links between tasks and tags are untouched, so every task keeps the
    tag under its new name, and a body without a name changes nothing. *)
Theorem update_tag_renames (tag_id : Z) (data : TagUpdate) (current : UserResponse)
    (w w' : World) (out : TagRow) :
  update_tag tag_id data current w = (Ok out, w') ->
  exists old,
    tag_by_id (db w) tag_id = Some old
    /\ canAccess (UserResponse_id current) (UserResponse_role current) (Tag_user_id old) = true
    /\ Tag_id out = Tag_id old
    /\ Tag_user_id out = Tag_user_id old
    /\ Tag_name out
       = match TagUpdate_name data with Some n => strip n | None => Tag_name old end
    /\ tag_by_id (db w') tag_id = Some out
    /\ tTaskTag (db w') = tTaskTag (db w)
    /\ tTask (db w') = tTask (db w)
    /\ (TagUpdate_name data = None -> w' = w).
Proof.
  intros Hrun. unfold update_tag in Hrun. munfold.
  destruct (tag_by_id (db w) tag_id) as [old |] eqn:Eold; [| discriminate].
  exists old. split; [reflexivity |].
  pose proof (tag_gate_canAccess old current) as Hgate. unfold tag_gate_denies in Hgate.
  rewrite Hgate in Hrun.
  destruct (canAccess _ _ _) eqn:Eacc; simpl in Hrun; [| discriminate].
  split; [reflexivity |].
  destruct (TagUpdate_name data) as [n |] eqn:En.
  - unfold UPDATE_Tag_name in Hrun. rewrite Eold in Hrun.
    destruct (existsb _ _); [discriminate |]. cbn [db set_db] in Hrun.
    match type of Hrun with
    | context [tag_by_id ?d tag_id] =>
        assert (Hfound : tag_by_id d tag_id
                         = Some {| Tag_id := Tag_id old; Tag_user_id := Tag_user_id old;
                                   Tag_name := strip n;
                                   Tag_created_at := Tag_created_at old |})
    end.
    { unfold tag_by_id, fetchone, update_rows in *. simpl.
      rewrite find_map_same by reflexivity. rewrite Eold. simpl.
      apply find_some in Eold. rewrite (proj2 Eold). reflexivity. }
    rewrite Hfound in Hrun. injection Hrun as <- <-.
    cbn [db set_db]. rewrite Hfound. repeat split. discriminate.
  - rewrite Eold in Hrun. injection Hrun as <- <-. repeat split; assumption.
Qed.

End Properties.

(** ** The handlers at work *)

(** C3 (what the code does).  A task created with a tag id that its owner
    does not have is answered 400 "Unknown tag_ids", and yet the Task row
    has been inserted; an update with such a tag id is answered the same,
    and yet the new title has been written. *)
Theorem unknown_tag_ids_after_the_write :
  (let '(r, w') := create_task (P := demo_platform true) demo_env (task_with_tags [99])
                     None alice (demo_world true) in
   r = Raise (HTTPException 400 "Unknown tag_ids for this user: [99]")
   /\ task_by_id (db (demo_world true)) 3 = None
   /\ option_map Task_title (task_by_id (db w') 3) = Some "buy milk")
  /\ (let '(r, w') := update_task (P := demo_platform true) 2
                        (retitle_with_tags "write" [99]) alice (demo_world true) in
      r = Raise (HTTPException 400 "Unknown tag_ids for this user: [99]")
      /\ option_map Task_title (task_by_id (db (demo_world true)) 2) = Some "read"
      /\ option_map Task_title (task_by_id (db w') 2) = Some "write").
Proof. vm_compute. repeat split; reflexivity. Qed.

(** C4 (what the code does).  An admin who creates a tag for a user id that
    does not exist is not answered 404: the tag is stored for that id when
    the store does not check references, and the answer is 500 "Database
    error" when it does.  [create_task] answers 404 on the same target. *)
Theorem create_tag_for_missing_user :
  fst (create_tag (P := demo_platform false) demo_env {| TagCreate_name := "work" |}
         (Some 99) root (demo_world false))
  = Ok {| Tag_id := 2; Tag_user_id := 99; Tag_name := "work"; Tag_created_at := "0" |}
  /\ fst (create_tag (P := demo_platform true) demo_env {| TagCreate_name := "work" |}
            (Some 99) root (demo_world true))
     = Raise (HTTPException 500 "Database error")
  /\ fst (create_task (P := demo_platform true) demo_env (task_with_tags [])
            (Some 99) root (demo_world true))
     = Raise (HTTPException 404 "Target user not found").
Proof. vm_compute. repeat split; reflexivity. Qed.

(** C5, refuted as stated: the task list does not treat limit 0 as limit 1;
    it rejects 0 and answers 1. *)
Lemma list_tasks_limit_0_is_rejected :
  fst (list_tasks (P := demo_platform false) None None None None None (Some 0) None
         alice (demo_world false))
  = Raise (RequestValidationError "limit")
  /\ (exists l,
        fst (list_tasks (P := demo_platform false) None None None None None (Some 1) None
               alice (demo_world false)) = Ok l)
  /\ fst (list_tasks (P := demo_platform false) None None None None None (Some 1000) None
            alice (demo_world false))
     = Raise (RequestValidationError "limit")
  /\ fst (list_tasks (P := demo_platform false) None None None None None None (Some (-5))
            alice (demo_world false))
     = Raise (RequestValidationError "offset").
Proof.
  split; [reflexivity |]. split; [eexists; vm_compute; reflexivity |].
  split; reflexivity.
Qed.

(** C7, refuted as stated: a daily task due at the last second of the
    calendar is accepted by [create_task]; generating its next occurrence
    stores and returns no task but ends in an [OverflowError], raised by
    the addition of the interval. *)
Lemma generate_next_occurrence_past_the_calendar :
  let '(r, w) := create_task (P := demo_platform true) demo_env
                   daily_task_due_at_the_last_second None bob (demo_world true) in
  (exists resp,
     r = Ok resp /\ TaskResponse_id resp = 3
     /\ TaskResponse_due_at resp = Some "315537897599000000"
     /\ TaskResponse_repeat_interval_minutes resp = Some 1440)
  /\ generate_next_occurrence (P := demo_platform true) demo_env 3 bob w
     = (Raise (Exception "OverflowError"), w).
Proof. vm_compute. split; [eexists; repeat split |]; reflexivity. Qed.

(** C8, refuted as stated: with a start that parses, the last second of
    the calendar, and an interval of 60 minutes the function returns no
    time stamp but raises [OverflowError]; so it does without a start for
    an interval of ten thousand years. *)
Lemma compute_next_run_past_the_calendar :
  fromisoformat (Platform := demo_platform false) "315537897599000000" = Some last_second
  /\ compute_next_run (P := demo_platform false) demo_env (Some "315537897599000000") 60
     = Raise (Exception "OverflowError")
  /\ compute_next_run (P := demo_platform false) demo_env None 5259600000
     = Raise (Exception "OverflowError").
Proof. vm_compute. repeat split; reflexivity. Qed.

(** C9 (what the code does).  An upload of exactly 26,214,400 bytes under
    the file name "notes/today.txt" passes both size checks and then ends
    in an [OSError]: the name goes into the path as the client gave it, and
    [open] finds no directory "u1__notes" in the upload directory; nothing
    is written and nothing recorded.  The same bytes under the name
    "today.txt" are stored. *)
Theorem upload_with_slash_in_name :
  upload_file (P := demo_platform true) demo_env 1
    (upload_named true "notes/today.txt" 26214400) bob (demo_world true)
  = (Raise (Exception "OSError"), demo_world true)
  /\ (exists row w',
        upload_file (P := demo_platform true) demo_env 1
          (upload_named true "today.txt" 26214400) bob (demo_world true)
        = (Ok row, w')
        /\ File_size_bytes row = 26214400
        /\ File_storage_path row = "./uploads/u1__today.txt"
        /\ disk w' = ("./uploads/u1__today.txt", 26214400) :: disk (demo_world true)).
Proof. vm_compute. split; [| eexists; eexists; repeat split]; reflexivity. Qed.

(** Entries whose title is blank are passed over: of " ", " boxes ", " "
    and "tape" the rows "boxes" and "tape" are stored. *)
Example create_task_skips_blank_titles :
  let '(r, w) := create_task (P := demo_platform true) demo_env
                   task_with_blank_subtasks None alice (demo_world true) in
  (exists resp, r = Ok resp /\ TaskResponse_subtasks_count resp = 2)
  /\ map SubTask_title (filter (fun s => SubTask_task_id s =? 3) (rows (tSubTask (db w))))
     = ["boxes"; "tape"].
Proof. vm_compute. split; [eexists; split |]; reflexivity. Qed.

(** ** The theorems applied to the example store *)

Lemma demo_store_inv : store_inv demo_db.
Proof.
  apply store_inv_tables_iff.
  unfold store_inv_tables, tasks_bounded, children_ok, links_bounded, refs_ok, fetchone.
  simpl. repeat split; intros; simpl in *;
    repeat match goal with
           | H : _ \/ _ |- _ => destruct H
           | H : False |- _ => destruct H
           | H : _ = ?x |- _ => is_var x; subst x
           | H : Some _ = Some _ |- _ => injection H as <-
           end; simpl in *; try reflexivity; try lia; try discriminate.
  all: match goal with H : Some _ = Some ?t |- _ => injection H as <- end; reflexivity.
Qed.

(** Alice, who is no admin, asks for Bob's task 1; Bob asks for it himself. *)
Lemma stranger_is_denied_witness :
  owner demo_db (OfTask 1) = Some 2
  /\ UserResponse_role alice <> ADMIN
  /\ 2 <> UserResponse_id alice
  /\ handle (P := demo_platform false) demo_env alice (GetTask 1) (demo_world false)
     = (Raise AccessDenied, demo_world false)
  /\ fst (handle (P := demo_platform false) demo_env bob (GetTask 1) (demo_world false))
     <> Raise AccessDenied.
Proof.
  assert (H1 : owner (db (demo_world false)) (OfTask 1) = Some 2) by reflexivity.
  assert (H2 : UserResponse_role alice <> ADMIN) by discriminate.
  assert (H3 : 2 <> UserResponse_id alice) by discriminate.
  split; [exact H1 |]. split; [exact H2 |]. split; [exact H3 |]. split.
  - exact (proj1 (stranger_is_denied (P := demo_platform false) demo_env alice
                    (demo_world false) (GetTask 1) (OfTask 1) 2 H1 (on_GetTask _ 1))
             H2 H3).
  - exact (proj1 (proj2 (stranger_is_denied (P := demo_platform false) demo_env bob
                           (demo_world false) (GetTask 1) (OfTask 1) 2 H1
                           (on_GetTask _ 1)))
             (or_intror eq_refl)).
Defined.

(** The admin adds a subtask to Bob's task 1: the invariant stays, and the
    row belongs to Bob (2), not to the admin (3). *)
Lemma child_owner_kept_witness :
  store_inv demo_db
  /\ store_inv
       (db (snd (handle (P := demo_platform true) demo_env root
                   (CreateSubtask {| SubTaskCreate_task_id := 1;
                                     SubTaskCreate_title := "buy soil";
                                     SubTaskCreate_is_done := false |})
                   (demo_world true))))
  /\ option_map SubTaskResponse_user_id
       (match fst (create_subtask (P := demo_platform true) demo_env
                     {| SubTaskCreate_task_id := 1; SubTaskCreate_title := "buy soil";
                        SubTaskCreate_is_done := false |} root (demo_world true)) with
        | Ok resp => Some resp
        | Raise _ => None
        end) = Some 2.
Proof.
  split; [exact demo_store_inv |]. split; [| reflexivity].
  exact (proj1 (child_owner_kept (P := demo_platform true) demo_env root
                  (CreateSubtask {| SubTaskCreate_task_id := 1;
                                    SubTaskCreate_title := "buy soil";
                                    SubTaskCreate_is_done := false |})
                  (demo_world true) demo_store_inv)).
Defined.

(** Limit 0 and offset -5 on the task list. *)
Lemma list_tasks_pagination_gate_witness :
  (0 < 1 \/ 100 < 0)
  /\ list_tasks (P := demo_platform false) None None None None None (Some 0) None alice
       (demo_world false)
     = (Raise (RequestValidationError "limit"), demo_world false)
  /\ list_tasks (P := demo_platform false) None None None None None None (Some (-5)) alice
       (demo_world false)
     = (Raise (RequestValidationError "offset"), demo_world false)
  /\ normalize_pagination 20 0 = (20, 0).
Proof.
  pose proof (list_tasks_pagination_gate (P := demo_platform false) None None None None
                None alice (demo_world false)) as (_ & _ & Hlimit & Hoffset & Hid).
  assert (H0 : 0 < 1 \/ 100 < 0) by (left; lia).
  split; [exact H0 |]. split; [exact (Hlimit 0 None H0) |]. split.
  - apply (Hoffset None (-5)); [lia | intros l Hl; discriminate Hl].
  - apply Hid; lia.
Defined.

(** Bob deletes his task 1. *)
Lemma delete_task_cascade_witness :
  task_by_id demo_db 1 <> None
  /\ canAccess (UserResponse_id bob) (UserResponse_role bob) 2 = true
  /\ exists w',
       delete_task (P := demo_platform true) demo_env 1 bob (demo_world true)
       = (Ok "Task deleted", w')
       /\ (forall s, In s (rows (tSubTask (db w'))) -> SubTask_task_id s <> 1).
Proof.
  split; [discriminate |]. split; [reflexivity |].
  destruct (delete_task_cascade (P := demo_platform true) demo_env 1 bob (demo_world true)
              _ eq_refl eq_refl) as (w' & Hrun & _ & Hsub & _).
  exists w'. split; [exact Hrun |]. intros s Hs. apply Hsub, Hs.
Defined.

(** Bob generates the next occurrence of his daily task 1, due at 5000. *)
Lemma generate_next_occurrence_copy_witness :
  demo_fromisoformat "5000" = Some {| wall_us := 5000; tzinfo := None |}
  /\ canAccess (UserResponse_id bob) (UserResponse_role bob) 2 = true
  /\ exists resp w',
       generate_next_occurrence (P := demo_platform true) demo_env 1 bob (demo_world true)
       = (Ok resp, w')
       /\ TaskResponse_due_at resp
          = Some (demo_isoformat {| wall_us := 5000 + 1440 * 60000000; tzinfo := Some 0 |})
       /\ TaskResponse_status resp = TODO.
Proof.
  split; [reflexivity |]. split; [reflexivity |].
  destruct (generate_next_occurrence_copy (P := demo_platform true) demo_env 1 bob
              (demo_world true) _ eq_refl eq_refl) as (_ & _ & H).
  destruct (proj1 H 1440 "5000" {| wall_us := 5000; tzinfo := None |} eq_refl)
    as (resp & w' & Hrun & _ & Hdue & Hst & _).
  - lia.
  - reflexivity.
  - discriminate.
  - reflexivity.
  - unfold representable. simpl. lia.
  - unfold representable. simpl. lia.
  - exact (proj2 demo_store_inv).
  - intros _. reflexivity.
  - intros g Hg _. apply has_link_In in Hg. simpl in Hg.
    destruct Hg as [Hg | []]. injection Hg as <-. reflexivity.
  - exists resp, w'. split; [exact Hrun |]. split; [exact Hdue | exact Hst].
Defined.

(** A reminder every hour: no start, a start that parses, a start that
    does not. *)
Lemma compute_next_run_base_witness :
  "5000" <> ""
  /\ demo_fromisoformat "5000" = Some {| wall_us := 5000; tzinfo := None |}
  /\ demo_fromisoformat "soon" = None
  /\ compute_next_run (P := demo_platform false) demo_env None 60
     = Ok (demo_isoformat {| wall_us := 1000 + 60 * 60000000; tzinfo := Some 0 |})
  /\ compute_next_run (P := demo_platform false) demo_env (Some "5000") 60
     = Ok (demo_isoformat {| wall_us := 5000 + 60 * 60000000; tzinfo := Some 0 |})
  /\ compute_next_run (P := demo_platform false) demo_env (Some "soon") 60
     = compute_next_run (P := demo_platform false) demo_env None 60.
Proof.
  assert (H1 : "5000" <> "") by discriminate.
  assert (H2 : demo_fromisoformat "5000" = Some {| wall_us := 5000; tzinfo := None |})
    by reflexivity.
  assert (H3 : demo_fromisoformat "soon" = None) by reflexivity.
  destruct (compute_next_run_base (P := demo_platform false) demo_env 60)
    as (Hnow & Hparse & Hbad).
  split; [exact H1 |]. split; [exact H2 |]. split; [exact H3 |]. split; [| split].
  - apply Hnow; unfold representable; simpl; lia.
  - apply (Hparse "5000" _ H1 H2); unfold representable; simpl; lia.
  - exact (Hbad "soon" H3).
Defined.

(** Bob uploads exactly 26,214,400 bytes to his task 1. *)
Lemma upload_file_size_gate_witness :
  task_by_id demo_db 1 <> None
  /\ canAccess (UserResponse_id bob) (UserResponse_role bob) 2 = true
  /\ exists row w',
       upload_file (P := demo_platform true) demo_env 1
         (@Build_UploadFile (demo_platform true) (Some "big.bin") None 26214400)
         bob (demo_world true) = (Ok row, w')
       /\ File_size_bytes row = 26214400.
Proof.
  split; [discriminate |]. split; [reflexivity |].
  destruct (upload_file_size_gate (P := demo_platform true) demo_env 1
              (@Build_UploadFile (demo_platform true) (Some "big.bin") None 26214400)
              bob (demo_world true) bob_task) as (_ & _ & H).
  destruct (H eq_refl eq_refl) as (_ & _ & Hok).
  destruct (proj1 (Hok ltac:(discriminate) ltac:(simpl; lia) eq_refl))
    as (row & w' & Hrun & Hsize & _).
  - reflexivity.
  - reflexivity.
  - intros _. reflexivity.
  - exact (proj2 demo_store_inv).
  - exists row, w'. split; [exact Hrun | exact Hsize].
Defined.

(** Alice creates a task with sixty titled subtasks. *)
Lemma create_task_inline_subtasks_witness :
  user_ref_ok (P := demo_platform true) demo_db 1
  /\ ids_bounded demo_db
  /\ exists resp w',
       create_task (P := demo_platform true) demo_env task_with_sixty_subtasks None alice
         (demo_world true) = (Ok resp, w')
       /\ TaskResponse_subtasks_count resp = 50.
Proof.
  assert (H1 : user_ref_ok (P := demo_platform true) demo_db 1) by (intros _; reflexivity).
  split; [exact H1 |]. split; [exact (proj2 demo_store_inv) |].
  destruct (create_task_inline_subtasks (P := demo_platform true) demo_env
              task_with_sixty_subtasks None alice (demo_world true) 1)
    as (resp & w' & Hrun & _ & _ & _ & _ & Hcount & _).
  - left. split; reflexivity.
  - exact H1.
  - exact (proj2 demo_store_inv).
  - intros l Hl. discriminate Hl.
  - exists resp, w'. split; [exact Hrun |]. rewrite Hcount. reflexivity.
Defined.

(** Carol registers and logs in. *)
Lemma register_then_login_witness :
  exists a w',
    register (P := demo_platform false) demo_env carol (demo_world false) = (Ok a, w')
    /\ login (P := demo_platform false)
         {| LoginRequest_email := "carol@example.org"; LoginRequest_password := "secret" |} w'
       = (Ok a, w').
Proof.
  eexists. eexists. split; [reflexivity |].
  exact (proj1 (register_then_login (P := demo_platform false) demo_env carol
                  (demo_world false) _ _ eq_refl) eq_refl).
Defined.

Lemma demo_users_bounded : users_bounded demo_db.
Proof.
  intros u Hu. simpl in Hu.
  destruct Hu as [<- | [<- | [<- | []]]]; simpl; lia.
Qed.

(** Carol registers as an admin and is one. *)
Lemma register_role_as_requested_witness :
  users_bounded demo_db
  /\ exists a w',
       register (P := demo_platform false) demo_env carol (demo_world false) = (Ok a, w')
       /\ UserResponse_role (AuthResponse_user_data a) = ADMIN
       /\ get_current_admin (P := demo_platform false) (AuthResponse_user_data a) w'
          = (Ok (AuthResponse_user_data a), w').
Proof.
  split; [exact demo_users_bounded |].
  eexists. eexists. split; [reflexivity |].
  destruct (register_role_as_requested (P := demo_platform false) demo_env carol
              (demo_world false) _ _ demo_users_bounded eq_refl) as (Hrole & _ & Hadmin).
  split; [exact Hrole | exact (Hadmin eq_refl)].
Defined.

(** Carol's token is resolved to Carol. *)
Lemma register_then_authenticate_witness :
  0 <= lastrowid (tUser demo_db)
  /\ exists a w',
       register (P := demo_platform false) demo_env carol (demo_world false) = (Ok a, w')
       /\ demo_verify_token (AuthResponse_token a)
          = Some {| Payload_user_id := Some (UserResponse_id (AuthResponse_user_data a)) |}
       /\ get_current_user (P := demo_platform false) demo_verify_token
            (AuthResponse_token a) w'
          = (Ok (AuthResponse_user_data a), w').
Proof.
  assert (H0 : 0 <= lastrowid (tUser (db (demo_world false)))) by (simpl; lia).
  split; [exact H0 |].
  eexists. eexists. split; [reflexivity |]. split; [reflexivity |].
  exact (register_then_authenticate (P := demo_platform false) demo_verify_token demo_env
           carol (demo_world false) _ _ H0 eq_refl eq_refl).
Defined.

(** The admin deletes Bob; Bob's token stops working. *)
Lemma deleted_user_is_locked_out_witness :
  exists w',
    delete_user (P := demo_platform true) 2 root (demo_world true) = (Ok "User deleted", w')
    /\ demo_verify_token "token:bob@example.org" = Some {| Payload_user_id := Some 2 |}
    /\ get_current_user (P := demo_platform true) demo_verify_token
         "token:bob@example.org" (demo_world true)
       = (Ok bob, demo_world true)
    /\ get_current_user (P := demo_platform true) demo_verify_token
         "token:bob@example.org" w'
       = (Raise (HTTPException 401 "User not found"), w').
Proof.
  eexists. split; [reflexivity |]. split; [reflexivity |]. split; [reflexivity |].
  exact (deleted_user_is_locked_out (P := demo_platform true) demo_verify_token 2 root
           (demo_world true) _ "User deleted" "token:bob@example.org" eq_refl eq_refl).
Defined.

(** The admin makes Bob an admin; Bob's old token now resolves to an
    admin. *)
Lemma role_change_is_immediate_witness :
  2 <> 0
  /\ exists u w',
       update_user (P := demo_platform false) 2
         {| UserUpdate_name := None; UserUpdate_role := Some ADMIN |} root (demo_world false)
       = (Ok u, w')
       /\ get_current_user (P := demo_platform false) demo_verify_token
            "token:bob@example.org" w' = (Ok u, w')
       /\ UserResponse_role u = ADMIN.
Proof.
  assert (H2 : 2 <> 0) by discriminate.
  split; [exact H2 |].
  eexists. eexists. split; [reflexivity |].
  exact (role_change_is_immediate (P := demo_platform false) demo_verify_token 2
           {| UserUpdate_name := None; UserUpdate_role := Some ADMIN |} root
           (demo_world false) _ _ ADMIN "token:bob@example.org" eq_refl eq_refl eq_refl H2).
Defined.

(** The admin renames Bob. *)
Lemma update_user_result_witness :
  exists u w',
    update_user (P := demo_platform false) 2
      {| UserUpdate_name := Some "  Robert "; UserUpdate_role := None |} root
      (demo_world false) = (Ok u, w')
    /\ UserResponse_name u = "Robert"
    /\ UserResponse_role u = USER
    /\ user_by_id (db w') 1 = user_by_id demo_db 1.
Proof.
  eexists. eexists. split; [reflexivity |].
  destruct (update_user_result (P := demo_platform false) 2
              {| UserUpdate_name := Some "  Robert "; UserUpdate_role := None |} root
              (demo_world false) _ _ eq_refl)
    as (old & Hold & _ & _ & Hname & Hrole & _ & _ & Hother & _).
  simpl in Hold. injection Hold as <-.
  split; [exact Hname |]. split; [exact Hrole |].
  apply Hother. discriminate.
Defined.

(** Alice, who is no admin, on the routes under /users; the admin on the
    same routes. *)
Lemma users_admin_only_witness :
  UserResponse_role alice <> ADMIN
  /\ delete_user (P := demo_platform false) 2 alice (demo_world false)
     = (Raise (HTTPException 403 "Admin access required"), demo_world false)
  /\ UserResponse_role root = ADMIN
  /\ fst (get_user (P := demo_platform false) 2 root (demo_world false))
     <> Raise (HTTPException 403 "Admin access required").
Proof.
  assert (H1 : UserResponse_role alice <> ADMIN) by discriminate.
  split; [exact H1 |]. split.
  - exact (proj2 (proj2 (proj2 (proj1 (users_admin_only (P := demo_platform false) alice
                                         (demo_world false)) H1))) 2).
  - split; [reflexivity |].
    exact (proj1 (proj2 (proj2 (users_admin_only (P := demo_platform false) root
                                  (demo_world false)) eq_refl)) 2).
Defined.

(** An address in mixed case, the same with a line feed, and a text with no
    at sign. *)
Lemma validate_email_shape_witness :
  email_shape "Bob@Example.org"
  /\ validate_email "Bob@Example.org" = Ok "bob@example.org"
  /\ email_shape ("bob@example.org" ++ line_feed)%string
  /\ validate_email ("bob@example.org" ++ line_feed)%string = Ok ("bob@example.org" ++ line_feed)%string
  /\ ~ email_shape "bob.example.org"
  /\ validate_email "bob.example.org" = Raise (Exception "ValueError").
Proof.
  assert (H1 : email_shape "Bob@Example.org").
  { exists "Bob", "Example", "org", "". repeat split; try reflexivity; try discriminate.
    - simpl. lia.
    - left. reflexivity. }
  assert (H2 : email_shape ("bob@example.org" ++ line_feed)%string).
  { exists "bob", "example", "org", line_feed.
    repeat split; try reflexivity; try discriminate.
    - simpl. lia.
    - right. reflexivity. }
  assert (H3 : ~ email_shape "bob.example.org").
  { intros H. apply re_match_EMAIL_REGEX in H. vm_compute in H. discriminate H. }
  split; [exact H1 |].
  split; [exact (proj1 (validate_email_shape "Bob@Example.org") H1) |].
  split; [exact H2 |].
  split; [exact (proj1 (validate_email_shape ("bob@example.org" ++ line_feed)%string) H2) |].
  split; [exact H3 |].
  exact (proj2 (validate_email_shape "bob.example.org") H3).
Defined.

(** The same address in two spellings. *)
Lemma validate_email_case_blind_witness :
  lower "BOB@example.ORG" = lower "Bob@Example.org"
  /\ validate_email "BOB@example.ORG" = validate_email "Bob@Example.org"
  /\ validate_email "Bob@Example.org" = Ok "bob@example.org"
  /\ validate_email "bob@example.org" = Ok "bob@example.org".
Proof.
  assert (H : lower "BOB@example.ORG" = lower "Bob@Example.org") by reflexivity.
  destruct (validate_email_case_blind "Bob@Example.org" "BOB@example.ORG" H) as (Hsame & Hidem).
  split; [exact H |]. split; [exact Hsame |]. split; [reflexivity |].
  exact (Hidem "bob@example.org" eq_refl).
Defined.

(** Carol registers; somebody registers as CAROL@Example.org after her. *)
Lemma register_email_taken_witness :
  validate_email "carol@example.org" = Ok (UserCreate_email carol)
  /\ validate_email "CAROL@Example.org" = Ok "carol@example.org"
  /\ lower "CAROL@Example.org" = lower "carol@example.org"
  /\ exists a w',
       register (P := demo_platform false) demo_env carol (demo_world false) = (Ok a, w')
       /\ register (P := demo_platform false) demo_env
            {| UserCreate_email := "carol@example.org"; UserCreate_name := "Caroline";
               UserCreate_password := "another"; UserCreate_role := USER |} w'
          = (Raise (HTTPException 400 "Email already registered"), w').
Proof.
  assert (H1 : validate_email "carol@example.org" = Ok (UserCreate_email carol))
    by reflexivity.
  assert (H2 : validate_email "CAROL@Example.org" = Ok "carol@example.org") by reflexivity.
  assert (H3 : lower "CAROL@Example.org" = lower "carol@example.org") by reflexivity.
  split; [exact H1 |]. split; [exact H2 |]. split; [exact H3 |].
  eexists. eexists. split; [reflexivity |].
  exact (register_email_taken (P := demo_platform false) demo_env demo_env carol
           {| UserCreate_email := "carol@example.org"; UserCreate_name := "Caroline";
              UserCreate_password := "another"; UserCreate_role := USER |}
           "carol@example.org" "CAROL@Example.org" (demo_world false) _ _ H1 H2 H3
           eq_refl).
Defined.

(** Bob creates the tag "home" a second time. *)
Lemma create_tag_failures_witness :
  create_tag (P := demo_platform true) demo_env {| TagCreate_name := " home " |} None bob
    (demo_world true)
  = (Raise (HTTPException 500 "Database error"), demo_world true)
  /\ HTTPException 500 "Database error" <> HTTPException 400 "Tag already exists".
Proof.
  assert (E : create_tag (P := demo_platform true) demo_env {| TagCreate_name := " home " |}
                None bob (demo_world true)
              = (Raise (HTTPException 500 "Database error"), demo_world true))
    by reflexivity.
  split; [exact E |].
  exact (proj1 (proj2 (create_tag_failures (P := demo_platform true) demo_env
                         {| TagCreate_name := " home " |} None bob (demo_world true)
                         (demo_world true) (HTTPException 500 "Database error") E))).
Defined.

(** Bob lists his tags; Alice has none. *)
Lemma list_tags_own_sorted_witness :
  exists l,
    list_tags (P := demo_platform false) None bob (demo_world false)
    = (Ok l, demo_world false)
    /\ Permutation l (filter (fun t => Tag_user_id t =? 2) (rows (tTag demo_db)))
    /\ Sorted (fun a b => String.leb (Tag_name a) (Tag_name b) = true) l.
Proof.
  eexists. split; [reflexivity |].
  destruct (list_tags_own_sorted (P := demo_platform false) None bob (demo_world false)
              _ _ eq_refl) as (_ & _ & Hperm & Hsorted).
  split; [exact Hperm | exact Hsorted].
Defined.

(** Alice lists her tasks with limit 1. *)
Lemma list_tasks_own_bounded_witness :
  exists l,
    list_tasks (P := demo_platform false) None None None None None (Some 1) None alice
      (demo_world false)
    = (Ok l, demo_world false)
    /\ Z.of_nat (List.length l) <= 1
    /\ forall t, In t l -> TaskResponse_user_id t = 1.
Proof.
  eexists. split; [lazy; reflexivity |].
  destruct (list_tasks_own_bounded (P := demo_platform false) None None None None None
              (Some 1) None alice (demo_world false) _ _ eq_refl)
    as (_ & _ & Hlen & Hown & _).
  split; [exact (proj1 Hlen) |].
  intros t Ht. exact (proj1 (Hown t Ht)).
Defined.

(** Bob sets the tags of his task 1 to his tag 1; then to a tag he does
    not have; then to a number that is no integer of the store. *)
Lemma update_task_replaces_tags_witness :
  task_by_id demo_db 1 = Some bob_task
  /\ canAccess (UserResponse_id bob) (UserResponse_role bob) (Task_user_id bob_task) = true
  /\ unknown_tag_ids demo_db 2 [1] = []
  /\ (exists resp w',
        update_task (P := demo_platform true) 1 (retitle_with_tags "water the plants" [1])
          bob (demo_world true) = (Ok resp, w')
        /\ forall x, In x (tTaskTag (db w')) <->
             (In x (tTaskTag demo_db) /\ TaskTag_task_id x <> 1)
             \/ (TaskTag_task_id x = 1 /\ In (TaskTag_tag_id x) [1]))
  /\ unknown_tag_ids demo_db 2 [7] <> []
  /\ fst (update_task (P := demo_platform true) 1 (retitle_with_tags "water the plants" [7])
            bob (demo_world true))
     = Raise (HTTPException 400 "Unknown tag_ids for this user: [7]")
  /\ fst (update_task (P := demo_platform true) 1
            (retitle_with_tags "water the plants" [9223372036854775808])
            bob (demo_world true))
     = Raise (HTTPException 500 "Database error").
Proof.
  assert (H1 : task_by_id (db (demo_world true)) 1 = Some bob_task) by reflexivity.
  assert (H2 : canAccess (UserResponse_id bob) (UserResponse_role bob)
                 (Task_user_id bob_task) = true) by reflexivity.
  assert (H3 : unknown_tag_ids (db (demo_world true)) (Task_user_id bob_task) [1] = [])
    by reflexivity.
  assert (H4 : unknown_tag_ids (db (demo_world true)) (Task_user_id bob_task) [7] <> [])
    by discriminate.
  assert (Hb : forall g, - 9223372036854775808 <= g < 9223372036854775808 ->
                 bindable (P := demo_platform true) [Task_user_id bob_task; g]).
  { intros g Hg. split; [| simpl; lia].
    constructor; [simpl; lia |]. constructor; [exact Hg | constructor]. }
  assert (Hn : ~ bindable (P := demo_platform true)
                 [Task_user_id bob_task; 9223372036854775808]).
  { intros (Hall & _). inversion Hall as [| ? ? _ Hrest]. subst.
    inversion Hrest as [| ? ? Hbig _]. lia. }
  split; [exact H1 |]. split; [exact H2 |]. split; [exact H3 |]. split; [| split; [| split]].
  - destruct (proj1 (update_task_replaces_tags (P := demo_platform true) 1
                       (retitle_with_tags "water the plants" [1]) bob (demo_world true)
                       bob_task H1 H2) [1] eq_refl (fun _ => Hb 1 ltac:(lia)) H3)
      as (resp & w' & Hrun & Hlinks & _).
    exists resp, w'. split; [exact Hrun | exact Hlinks].
  - exact H4.
  - exact (proj1 (proj2 (update_task_replaces_tags (P := demo_platform true) 1
                           (retitle_with_tags "water the plants" [7]) bob (demo_world true)
                           bob_task H1 H2)) [7] eq_refl (Hb 7 ltac:(lia)) H4).
  - destruct (proj1 (proj2 (proj2 (update_task_replaces_tags (P := demo_platform true) 1
                (retitle_with_tags "water the plants" [9223372036854775808]) bob
                (demo_world true) bob_task H1 H2)))
              [9223372036854775808] eq_refl ltac:(discriminate) Hn) as (w' & Hrun & _).
    rewrite Hrun. reflexivity.
Defined.

(** Bob reads his task 1: one subtask, one file, one reminder. *)
Lemma get_task_counts_agree_witness :
  exists resp subtasks files reminders,
    get_task (P := demo_platform false) 1 bob (demo_world false)
    = (Ok resp, demo_world false)
    /\ list_subtasks (P := demo_platform false) 1 bob (demo_world false)
       = (Ok subtasks, demo_world false)
    /\ list_files (P := demo_platform false) 1 bob (demo_world false)
       = (Ok files, demo_world false)
    /\ list_reminders (P := demo_platform false) 1 bob (demo_world false)
       = (Ok reminders, demo_world false)
    /\ TaskResponse_subtasks_count resp = Z.of_nat (List.length subtasks)
    /\ TaskResponse_files_count resp = Z.of_nat (List.length files)
    /\ TaskResponse_reminders_count resp = Z.of_nat (List.length reminders).
Proof.
  eexists.
  destruct (get_task_counts_agree (P := demo_platform false) 1 bob (demo_world false)
              (demo_world false) _ eq_refl) as (subtasks & files & reminders & H).
  exists subtasks, files, reminders. split; [reflexivity | exact H].
Defined.

(** Bob adds a subtask to his task 1. *)
Lemma create_subtask_then_listed_witness :
  ids_bounded demo_db
  /\ exists resp w' after,
       create_subtask (P := demo_platform true) demo_env
         {| SubTaskCreate_task_id := 1; SubTaskCreate_title := " buy soil ";
            SubTaskCreate_is_done := true |} bob (demo_world true) = (Ok resp, w')
       /\ SubTaskResponse_title resp = "buy soil"
       /\ SubTaskResponse_is_done resp = true
       /\ list_subtasks (P := demo_platform true) 1 bob w' = (Ok after, w')
       /\ In resp after
       /\ List.length after = 2%nat.
Proof.
  split; [exact (proj2 demo_store_inv) |].
  eexists. eexists.
  destruct (create_subtask_then_listed (P := demo_platform true) demo_env
              {| SubTaskCreate_task_id := 1; SubTaskCreate_title := " buy soil ";
                 SubTaskCreate_is_done := true |} bob (demo_world true) _ _
              (proj2 demo_store_inv) eq_refl)
    as (_ & Htitle & Hdone & before & after & Hbefore & Hafter & Hin & Hlen).
  exists after. split; [reflexivity |].
  split; [exact Htitle |]. split; [exact Hdone |]. split; [exact Hafter |].
  split; [exact Hin |]. rewrite Hlen. f_equal.
  assert (Hone : fst (list_subtasks (P := demo_platform true) 1 bob (demo_world true))
                 = Ok before) by (simpl in Hbefore; rewrite Hbefore; reflexivity).
  simpl in Hone. injection Hone as <-. reflexivity.
Defined.

(** Bob uploads a note of 5 bytes to his task 1 and downloads it. *)
Lemma upload_then_download_witness :
  ids_bounded demo_db
  /\ exists row w',
       upload_file (P := demo_platform true) demo_env 1
         (@Build_UploadFile (demo_platform true) (Some "note.txt") (Some "text/plain") 5)
         bob (demo_world true) = (Ok row, w')
       /\ stored_bytes (P := demo_platform true) w' "./uploads/u1__note.txt" = Some 5
       /\ download_file (P := demo_platform true) (File_id row) bob w'
          = (Ok ("./uploads/u1__note.txt", "note.txt", "text/plain"), w').
Proof.
  split; [exact (proj2 demo_store_inv) |].
  eexists. eexists. split; [lazy; reflexivity |].
  destruct (upload_then_download (P := demo_platform true) demo_env 1
              (@Build_UploadFile (demo_platform true) (Some "note.txt") (Some "text/plain") 5)
              bob (demo_world true) _ _ (proj2 demo_store_inv) eq_refl)
    as (Hbytes & _ & _ & Hdown).
  split; [exact Hbytes | exact Hdown].
Defined.

(** Bob deletes his file 1 while [os.remove] raises. *)
Lemma delete_file_best_effort_witness :
  file_by_id demo_db 1 <> None
  /\ task_by_id demo_db 1 = Some bob_task
  /\ canAccess (UserResponse_id bob) (UserResponse_role bob) (Task_user_id bob_task) = true
  /\ exists w',
       delete_file (P := demo_platform true)
         {| utcnow := utcnow demo_env; CURRENT_TIMESTAMP := "0"; uuid4 := "u1";
            remove_raises := fun _ => true |} 1 bob (demo_world true)
       = (Ok "File deleted", w')
       /\ file_by_id (db w') 1 = None
       /\ download_file (P := demo_platform true) 1 bob w'
          = (Raise (HTTPException 404 "File not found"), w').
Proof.
  split; [discriminate |]. split; [reflexivity |]. split; [reflexivity |].
  destruct (delete_file_best_effort (P := demo_platform true)
              {| utcnow := utcnow demo_env; CURRENT_TIMESTAMP := "0"; uuid4 := "u1";
                 remove_raises := fun _ => true |} 1 bob (demo_world true) _ bob_task
              eq_refl eq_refl eq_refl) as (w' & Hrun & Hrows & _ & _ & Hdown).
  exists w'. split; [exact Hrun |]. split; [| exact Hdown].
  unfold file_by_id, fetchone. destruct (find _ _) as [f |] eqn:Ef; [| reflexivity].
  apply find_some in Ef. destruct Ef as (Hin & Hid). apply Hrows in Hin.
  apply Z.eqb_eq in Hid. destruct Hin as (_ & Hne). contradiction.
Defined.

(** Bob adds a reminder every 30 minutes from 7000 to his task 1. *)
Lemma create_reminder_schedules_witness :
  ids_bounded demo_db
  /\ demo_isoformat {| wall_us := 7000; tzinfo := None |} <> ""
  /\ demo_fromisoformat (demo_isoformat {| wall_us := 7000; tzinfo := None |})
     = Some {| wall_us := 7000; tzinfo := None |}
  /\ exists row w',
       create_reminder (P := demo_platform true) demo_env 1
         {| ReminderCreate_task_id := 1; ReminderCreate_every_minutes := 30;
            ReminderCreate_start_at := Some {| wall_us := 7000; tzinfo := None |};
            ReminderCreate_end_at := None; ReminderCreate_is_enabled := true |}
         bob (demo_world true) = (Ok row, w')
       /\ Reminder_next_run_at row
          = Some (demo_isoformat {| wall_us := 7000 + 30 * 60000000; tzinfo := Some 0 |}).
Proof.
  split; [exact (proj2 demo_store_inv) |]. split; [discriminate |]. split; [reflexivity |].
  eexists. eexists. split; [lazy; reflexivity |].
  refine (proj1 (proj2 (proj2 (create_reminder_schedules (P := demo_platform true) demo_env 1
              {| ReminderCreate_task_id := 1; ReminderCreate_every_minutes := 30;
                 ReminderCreate_start_at := Some {| wall_us := 7000; tzinfo := None |};
                 ReminderCreate_end_at := None; ReminderCreate_is_enabled := true |}
              bob (demo_world true) _ _ (proj2 demo_store_inv) _ eq_refl)))).
  intros start [= <-]. split; [discriminate | reflexivity].
Defined.


(** Bob's calendar between 0 and 9000 shows his task 1, due at 5000. *)
Lemma calendar_view_in_range_witness :
  exists l,
    calendar_view (P := demo_platform false) {| wall_us := 0; tzinfo := None |}
      {| wall_us := 9000; tzinfo := None |} None bob (demo_world false)
    = (Ok l, demo_world false)
    /\ (exists item, In item l /\ CalendarItem_task_id item = 1)
    /\ forall item, In item l -> CalendarItem_user_id item = 2.
Proof.
  eexists. split; [lazy; reflexivity |].
  destruct (calendar_view_in_range (P := demo_platform false)
              {| wall_us := 0; tzinfo := None |} {| wall_us := 9000; tzinfo := None |}
              None bob (demo_world false) _ _ eq_refl) as (_ & _ & Hsound & Hfull).
  split.
  - destruct (Hfull bob_task "5000") as (item & Hin & Hid & _);
      try reflexivity; [left; reflexivity |].
    exists item. split; [exact Hin | exact Hid].
  - intros item Hin. exact (proj1 (Hsound item Hin)).
Defined.

(** Alice asks for Bob's task 1 with GET: refused, nothing changes. *)
Lemma get_changes_nothing_witness :
  is_get (P := demo_platform false) (GetTask 1) = true
  /\ snd (handle (P := demo_platform false) demo_env alice (GetTask 1) (demo_world false))
     = demo_world false
  /\ snd (handle (P := demo_platform false) demo_env bob (DownloadFile 1) (demo_world false))
     = demo_world false.
Proof.
  split; [reflexivity |]. split.
  - exact (get_changes_nothing (P := demo_platform false) demo_env alice (GetTask 1)
             (demo_world false) eq_refl).
  - exact (get_changes_nothing (P := demo_platform false) demo_env bob (DownloadFile 1)
             (demo_world false) eq_refl).
Defined.

Lemma demo_get_set (k v : string) (h : list (string * string)) :
  demo_get_header (demo_set_header k v h) k = Some v.
Proof.
  unfold demo_get_header, demo_set_header. simpl. rewrite String.eqb_refl. reflexivity.
Qed.

Lemma demo_get_set_other (k k' v : string) (h : list (string * string)) :
  lower k' <> lower k ->
  demo_get_header (demo_set_header k v h) k' = demo_get_header h k'.
Proof.
  intros Hne. unfold demo_get_header, demo_set_header. simpl.
  destruct (String.eqb_spec (lower k) (lower k')) as [E | _]; [congruence |].
  f_equal. induction h as [| e h IH]; [reflexivity |].
  simpl. destruct (String.eqb_spec (fst e) (lower k)) as [Ek | Ek]; simpl.
  - destruct (String.eqb_spec (fst e) (lower k')) as [Ek' | Ek']; [congruence | exact IH].
  - destruct (String.eqb (fst e) (lower k')); [reflexivity | exact IH].
Qed.

(** A handler answers 200 and allows caching; the response leaves with
    no-store, and its content type is kept. *)
Lemma security_headers_set_witness :
  (forall k v h, demo_get_header (demo_set_header k v h) k = Some v)
  /\ (forall k k' v h, lower k' <> lower k ->
        demo_get_header (demo_set_header k v h) k' = demo_get_header h k')
  /\ demo_get_header (resp_headers demo_response) "Cache-Control" = Some "public"
  /\ exists out t',
       security_headers (P := demo_platform false) (W := demo_wire) demo_probe demo_request
         (ret demo_response) (demo_world false, demo_telemetry)
       = (Ok out, (demo_world false, t'))
       /\ demo_get_header (resp_headers out) "Cache-Control" = Some "no-store"
       /\ demo_get_header (resp_headers out) "X-Frame-Options" = Some "DENY"
       /\ demo_get_header (resp_headers out) "Content-Type" = Some "application/json".
Proof.
  split; [exact demo_get_set |]. split; [exact demo_get_set_other |].
  split; [reflexivity |].
  destruct (security_headers_set (P := demo_platform false) (W := demo_wire) demo_probe
              demo_request (ret demo_response) (demo_world false) (demo_world false)
              demo_telemetry demo_response demo_get_set demo_get_set_other eq_refl)
    as (out & t' & Hrun & _ & _ & _ & Hframe & _ & _ & Hcache & Hrest).
  exists out, t'. split; [exact Hrun |]. split; [exact Hcache |]. split; [exact Hframe |].
  refine (eq_trans (Hrest "Content-Type" _) eq_refl).
  vm_compute. intros [H | [H | [H | [H | [H | []]]]]]; discriminate H.
Defined.

(** A handler raises while the histogram raises too: the failure is passed
    on and the request is counted under 500. *)
Lemma security_headers_counts_witness :
  let probe := @Build_Probe demo_wire 10 12 false true false in
  let result :=
    security_headers (P := demo_platform false) (W := demo_wire) probe demo_request
      (raise (Exception "ValueError")) (demo_world false, demo_telemetry) in
  fst result = Raise (Exception "ValueError")
  /\ counter_value (snd (snd result)) "GET" "/tasks" "500" = 1%nat
  /\ counter_value (snd (snd result)) "GET" "/tasks" "200" = 0%nat.
Proof.
  cbv zeta.
  destruct (security_headers_counts (P := demo_platform false) (W := demo_wire)
              (@Build_Probe demo_wire 10 12 false true false) demo_request
              (raise (Exception "ValueError")) (demo_world false) demo_telemetry)
    as (_ & Hraise & _ & _ & Hcount & _).
  split; [exact (Hraise _ eq_refl) |]. split.
  - rewrite (Hcount eq_refl). reflexivity.
  - rewrite (Hcount eq_refl). reflexivity.
Defined.

(** Bob ticks his subtask 1. *)
Lemma update_subtask_result_witness :
  subtask_by_id demo_db 1 <> None
  /\ task_by_id demo_db 1 = Some bob_task
  /\ canAccess (UserResponse_id bob) (UserResponse_role bob) (Task_user_id bob_task) = true
  /\ exists out w',
       update_subtask (P := demo_platform false) 1
         {| SubTaskUpdate_title := None; SubTaskUpdate_is_done := Some true |} bob
         (demo_world false) = (Ok out, w')
       /\ SubTaskResponse_title out = "fill the can"
       /\ SubTaskResponse_is_done out = true.
Proof.
  split; [discriminate |]. split; [reflexivity |]. split; [reflexivity |].
  destruct (update_subtask_result (P := demo_platform false) 1
              {| SubTaskUpdate_title := None; SubTaskUpdate_is_done := Some true |} bob
              (demo_world false) _ bob_task eq_refl eq_refl eq_refl)
    as (out & w' & Hrun & _ & _ & _ & Htitle & Hdone & _).
  exists out, w'. split; [exact Hrun |]. split; [exact Htitle | exact Hdone].
Defined.

(** Bob renames his tag 1; task 1 keeps it. *)
Lemma update_tag_renames_witness :
  exists out w',
    update_tag (P := demo_platform true) 1 {| TagUpdate_name := Some " garden " |} bob
      (demo_world true) = (Ok out, w')
    /\ Tag_name out = "garden"
    /\ Tag_user_id out = 2
    /\ has_link (db w') 1 1 = true.
Proof.
  eexists. eexists. split; [lazy; reflexivity |].
  destruct (update_tag_renames (P := demo_platform true) 1
              {| TagUpdate_name := Some " garden " |} bob (demo_world true) _ _ eq_refl)
    as (old & Hold & _ & _ & Howner & Hname & _ & Hlinks & _).
  simpl in Hold. injection Hold as <-.
  split; [exact Hname |]. split; [exact Howner |].
  unfold has_link.
  exact (eq_trans
           (f_equal (existsb (fun l => (TaskTag_task_id l =? 1) && (TaskTag_tag_id l =? 1)))
              Hlinks) eq_refl).
Defined.

(** Alice asks for Bob's task 1: 403, and nothing has changed. *)
Lemma handle_fails_early_witness :
  handle (P := demo_platform false) demo_env alice (DeleteTask 1) (demo_world false)
  = (Raise (HTTPException 403 "Access denied"), demo_world false)
  /\ gate_failure (HTTPException 403 "Access denied") = true
  /\ forall w',
       handle (P := demo_platform false) demo_env alice (DeleteTask 1) (demo_world false)
       = (Raise (HTTPException 403 "Access denied"), w') ->
       w' = demo_world false.
Proof.
  split; [reflexivity |]. split; [reflexivity |].
  intros w' E.
  exact (handle_fails_early (P := demo_platform false) demo_env alice (DeleteTask 1)
           (demo_world false) _ w' E eq_refl).
Defined.

(** Reminder 1 hangs on task 1; Alice asks for it through her task 2. *)
Lemma reminder_through_other_task_witness :
  (forall r, In r (rows (tReminder demo_db)) -> Reminder_id r = 1 -> Reminder_task_id r <> 2)
  /\ (exists e,
        delete_reminder (P := demo_platform false) 2 1 alice (demo_world false)
        = (Raise e, demo_world false)).
Proof.
  assert (H : forall r, In r (rows (tReminder (db (demo_world false)))) ->
                Reminder_id r = 1 -> Reminder_task_id r <> 2).
  { intros r [<- | []] _. discriminate. }
  split; [exact H |].
  exact (proj2 (reminder_through_other_task (P := demo_platform false) demo_env 2 1
                  {| ReminderUpdate_every_minutes := None; ReminderUpdate_start_at := None;
                     ReminderUpdate_end_at := None; ReminderUpdate_is_enabled := None |}
                  alice (demo_world false) H)).
Defined.

(** Alice asks for the tags of Bob, and for ten of his tasks; with a limit
    of 0 she is told that the limit is wrong. *)
Lemma listing_for_user_needs_admin_witness :
  UserResponse_role alice <> ADMIN
  /\ list_tags (P := demo_platform false) (Some 2) alice (demo_world false)
     = (Raise (HTTPException 403 "Admin access required for user_id"), demo_world false)
  /\ list_tasks (P := demo_platform false) None None None None (Some 2) (Some 10) (Some 0)
       alice (demo_world false)
     = (Raise (HTTPException 403 "Admin access required for user_id filter"),
        demo_world false)
  /\ exists loc,
       list_tasks (P := demo_platform false) None None None None (Some 2) (Some 0) None
         alice (demo_world false)
       = (Raise (RequestValidationError loc), demo_world false).
Proof.
  assert (H : UserResponse_role alice <> ADMIN) by discriminate.
  destruct (listing_for_user_needs_admin (P := demo_platform false) 2 alice
              (demo_world false) H) as (Htags & _ & Htasks & Hbad).
  split; [exact H |]. split; [exact Htags |]. split.
  - apply Htasks.
    + intros l [= <-]. lia.
    + intros o [= <-]. lia.
  - apply Hbad. left. exists 0. split; [reflexivity | lia].
Defined.

(** The tags of task 2 are replaced; the link of task 1 stays. *)
Lemma sync_task_tags_other_task_witness :
  2 <> 1
  /\ filter (fun l => TaskTag_task_id l =? 1) (tTaskTag demo_db)
     = [{| TaskTag_task_id := 1; TaskTag_tag_id := 1 |}]
  /\ filter (fun l => TaskTag_task_id l =? 1)
       (tTaskTag (db (snd (sync_task_tags (P := demo_platform false) 2 1 (Some [])
                             (demo_world false)))))
     = [{| TaskTag_task_id := 1; TaskTag_tag_id := 1 |}].
Proof.
  assert (H : 2 <> 1) by discriminate.
  split; [exact H |]. split; [reflexivity |].
  exact (sync_task_tags_other_task (P := demo_platform false) 2 1 1 (Some [])
           [{| TaskTag_task_id := 1; TaskTag_tag_id := 1 |}] H (demo_world false) eq_refl).
Defined.
